(** * Adafruit LIS3MDL magnetometer driver: register semantics and conversions

    A shallow embedding of [Adafruit_LIS3MDL.cpp] / [Adafruit_LIS3MDL.h].
    The driver's member functions are written in a small state monad over
    the driver object and its environment (the device's register file, the
    bus, the clock).  The bus library the driver is built on (Adafruit
    BusIO) and the device itself are not part of the repository; they are
    modelled in the first half of the file. *)

From Stdlib Require Import Ascii String Lqa.
From Stdlib Require Import ZArith List Bool Lia QArith Qabs.
From Stdlib Require Import Floats.SpecFloat.
From coqutil Require Import Z.bitblast.
Import ListNotations.
Local Open Scope Z_scope.

(* ------------------------------------------------------------------ *)
(** ** Fixed-width integers *)

Definition uint8 (v : Z) : Z := Z.land v 0xFF.
Definition uint16 (v : Z) : Z := Z.land v 0xFFFF.
Definition uint32 (v : Z) : Z := Z.land v 0xFFFFFFFF.

(** Conversion to [int16_t]: the low sixteen bits, read as two's complement. *)
Definition int16 (v : Z) : Z :=
  let u := uint16 v in if u <? 0x8000 then u else u - 0x10000.

(** Conversion to [int32_t]: the low thirty-two bits, read as two's
    complement. *)
Definition int32 (v : Z) : Z :=
  let u := uint32 v in if u <? 0x80000000 then u else u - 0x100000000.

(* ------------------------------------------------------------------ *)
(** ** IEEE-754 arithmetic

    [float] is binary32.  [double] is binary64 on the 32-bit boards and
    binary32 on AVR; the driver's only [double] expression is exact and
    gives the same [float] in both formats (lemmas [field_conversion_exact]
    and [field_conversion_same_on_avr] below). *)

Module Float32.
Definition prec : Z := 24.
Definition emax : Z := 128.
Definition of_int (n : Z) : spec_float := binary_normalize prec emax n 0 false.
Definition mul : spec_float -> spec_float -> spec_float := SFmul prec emax.
Definition div : spec_float -> spec_float -> spec_float := SFdiv prec emax.
(** Narrowing conversion from a wider format (round to nearest even). *)
Definition of_double (d : spec_float) : spec_float :=
  match d with
  | S754_finite s m e => binary_normalize prec emax (cond_Zopp s (Zpos m)) e s
  | _ => d
  end.
End Float32.

Module Float64.
Definition prec : Z := 53.
Definition emax : Z := 1024.
Definition of_int (n : Z) : spec_float := binary_normalize prec emax n 0 false.
Definition mul : spec_float -> spec_float -> spec_float := SFmul prec emax.
Definition div : spec_float -> spec_float -> spec_float := SFdiv prec emax.
End Float64.

Definition NAN : spec_float := S754_nan.

(** The rational a float denotes ([None] for infinities and NaN). *)
Definition SF2Q (f : spec_float) : option Q :=
  match f with
  | S754_zero _ => Some (0 # 1)%Q
  | S754_finite s m e =>
      let n := cond_Zopp s (Zpos m) in
      Some (if 0 <=? e then (n * 2 ^ e # 1)%Q else (n # Z.to_pos (2 ^ (- e)))%Q)
  | _ => None
  end.

(** [f] denotes exactly the rational [q]. *)
Definition denotes (f : spec_float) (q : Q) : Prop :=
  match SF2Q f with Some r => (r == q)%Q | None => False end.

(** [f] is a number strictly between [lo] and [hi]. *)
Definition between (lo hi : Q) (f : spec_float) : Prop :=
  match SF2Q f with Some r => (lo < r)%Q /\ (r < hi)%Q | None => False end.

(* ------------------------------------------------------------------ *)
(** ** Register map and setting enumerations ([Adafruit_LIS3MDL.h]) *)

Definition LIS3MDL_REG_WHO_AM_I : Z := 0x0F.
Definition LIS3MDL_REG_CTRL_REG1 : Z := 0x20.
Definition LIS3MDL_REG_CTRL_REG2 : Z := 0x21.
Definition LIS3MDL_REG_CTRL_REG3 : Z := 0x22.
Definition LIS3MDL_REG_CTRL_REG4 : Z := 0x23.
Definition LIS3MDL_REG_STATUS : Z := 0x27.
Definition LIS3MDL_REG_OUT_X_L : Z := 0x28.
Definition LIS3MDL_REG_INT_CFG : Z := 0x30.
Definition LIS3MDL_REG_INT_THS_L : Z := 0x32.

Inductive lis3mdl_range_t :=
| LIS3MDL_RANGE_4_GAUSS
| LIS3MDL_RANGE_8_GAUSS
| LIS3MDL_RANGE_12_GAUSS
| LIS3MDL_RANGE_16_GAUSS.

Inductive lis3mdl_dataRate_t :=
| LIS3MDL_DATARATE_0_625_HZ
| LIS3MDL_DATARATE_1_25_HZ
| LIS3MDL_DATARATE_2_5_HZ
| LIS3MDL_DATARATE_5_HZ
| LIS3MDL_DATARATE_10_HZ
| LIS3MDL_DATARATE_20_HZ
| LIS3MDL_DATARATE_40_HZ
| LIS3MDL_DATARATE_80_HZ
| LIS3MDL_DATARATE_155_HZ
| LIS3MDL_DATARATE_300_HZ
| LIS3MDL_DATARATE_560_HZ
| LIS3MDL_DATARATE_1000_HZ.

Inductive lis3mdl_performancemode_t :=
| LIS3MDL_LOWPOWERMODE
| LIS3MDL_MEDIUMMODE
| LIS3MDL_HIGHMODE
| LIS3MDL_ULTRAHIGHMODE.

Inductive lis3mdl_operationmode_t :=
| LIS3MDL_CONTINUOUSMODE
| LIS3MDL_SINGLEMODE
| LIS3MDL_POWERDOWNMODE.

(** The enumerators' values: the casts [(uint8_t)range], [(uint8_t)mode], ... *)
Definition range_value (r : lis3mdl_range_t) : Z :=
  match r with
  | LIS3MDL_RANGE_4_GAUSS => 0 (* 0b00 *)
  | LIS3MDL_RANGE_8_GAUSS => 1 (* 0b01 *)
  | LIS3MDL_RANGE_12_GAUSS => 2 (* 0b10 *)
  | LIS3MDL_RANGE_16_GAUSS => 3 (* 0b11 *)
  end.

Definition dataRate_value (r : lis3mdl_dataRate_t) : Z :=
  match r with
  | LIS3MDL_DATARATE_0_625_HZ => 0 (* 0b0000 *)
  | LIS3MDL_DATARATE_1_25_HZ => 2 (* 0b0010 *)
  | LIS3MDL_DATARATE_2_5_HZ => 4 (* 0b0100 *)
  | LIS3MDL_DATARATE_5_HZ => 6 (* 0b0110 *)
  | LIS3MDL_DATARATE_10_HZ => 8 (* 0b1000 *)
  | LIS3MDL_DATARATE_20_HZ => 10 (* 0b1010 *)
  | LIS3MDL_DATARATE_40_HZ => 12 (* 0b1100 *)
  | LIS3MDL_DATARATE_80_HZ => 14 (* 0b1110 *)
  | LIS3MDL_DATARATE_155_HZ => 1 (* 0b0001 *)
  | LIS3MDL_DATARATE_300_HZ => 3 (* 0b0011 *)
  | LIS3MDL_DATARATE_560_HZ => 5 (* 0b0101 *)
  | LIS3MDL_DATARATE_1000_HZ => 7 (* 0b0111 *)
  end.

Definition performancemode_value (m : lis3mdl_performancemode_t) : Z :=
  match m with
  | LIS3MDL_LOWPOWERMODE => 0 (* 0b00 *)
  | LIS3MDL_MEDIUMMODE => 1 (* 0b01 *)
  | LIS3MDL_HIGHMODE => 2 (* 0b10 *)
  | LIS3MDL_ULTRAHIGHMODE => 3 (* 0b11 *)
  end.

Definition operationmode_value (m : lis3mdl_operationmode_t) : Z :=
  match m with
  | LIS3MDL_CONTINUOUSMODE => 0 (* 0b00 *)
  | LIS3MDL_SINGLEMODE => 1 (* 0b01 *)
  | LIS3MDL_POWERDOWNMODE => 3 (* 0b11 *)
  end.

(** The casts back, [(lis3mdl_range_t)v] and [(lis3mdl_performancemode_t)v],
    applied in the driver to a two-bit field only: every two-bit value is
    an enumerator of these two types. *)
Definition range_of_value (v : Z) : lis3mdl_range_t :=
  match v with
  | 0 => LIS3MDL_RANGE_4_GAUSS
  | 1 => LIS3MDL_RANGE_8_GAUSS
  | 2 => LIS3MDL_RANGE_12_GAUSS
  | _ => LIS3MDL_RANGE_16_GAUSS
  end.

Definition performancemode_of_value (v : Z) : lis3mdl_performancemode_t :=
  match v with
  | 0 => LIS3MDL_LOWPOWERMODE
  | 1 => LIS3MDL_MEDIUMMODE
  | 2 => LIS3MDL_HIGHMODE
  | _ => LIS3MDL_ULTRAHIGHMODE
  end.

(* ------------------------------------------------------------------ *)
(** ** The environment: transports, bus events, device

    Modelled from the spec: the Adafruit BusIO library ([Adafruit_I2CDevice],
    [Adafruit_SPIDevice], [Adafruit_BusIO_Register],
    [Adafruit_BusIO_RegisterBits]) and the Arduino core ([delay], [millis])
    are used by the driver but are not part of the repository.  Sections
    4.2 and 6 of the specification give their contract: [open() -> ok|fail],
    [readBytes(register, count) -> bytes|fail],
    [writeBytes(register, bytes) -> ok|fail], a bit-field read that shifts
    and masks, a bit-field write that reads, modifies and writes back. *)

Inductive Adafruit_I2CDevice :=
| I2CDevice (i2c_address : Z) (wire : Z).

Inductive SPIBitOrder := SPI_BITORDER_MSBFIRST | SPI_BITORDER_LSBFIRST.
Inductive SPIDataMode := SPI_MODE0 | SPI_MODE1 | SPI_MODE2 | SPI_MODE3.

Inductive Adafruit_SPIDevice :=
| SPIDevice_hw (cs_pin : Z) (frequency : Z)
               (order : SPIBitOrder) (mode : SPIDataMode) (theSPI : Z)
| SPIDevice_sw (cs_pin sck_pin miso_pin mosi_pin : Z) (frequency : Z)
               (order : SPIBitOrder) (mode : SPIDataMode).

(** What the driver does to its environment, oldest event first. *)
Inductive Event :=
| EvDelete_I2C (d : Adafruit_I2CDevice)
| EvDelete_SPI (d : Adafruit_SPIDevice)
| EvBegin (ok : bool)
| EvRead (addr : Z) (len : nat) (ok : bool)
| EvWrite (addr : Z) (data : list Z) (ok : bool)
| EvDelay (ms : Z).

(** The shape of an event: what was done and where, without the data. *)
Inductive Op :=
| OpDelete | OpBegin | OpRead (addr : Z) | OpWrite (addr : Z) | OpDelay (ms : Z).

Definition op_of (e : Event) : Op :=
  match e with
  | EvDelete_I2C _ | EvDelete_SPI _ => OpDelete
  | EvBegin _ => OpBegin
  | EvRead a _ _ => OpRead a
  | EvWrite a _ _ => OpWrite a
  | EvDelay ms => OpDelay ms
  end.

(** The environment.
    - [regs]: the device's register file, address to byte;
    - [faults]: the bus transactions that will fail: each entry is the
      number of successful transactions before the next failing one, so
      [[]] is a bus on which every transaction from now on succeeds;
    - [garbage]: what an uninitialised stack buffer holds;
    - [clock]: milliseconds since start, as [millis()] reports them;
    - [trace]: the events so far. *)
Record World := mkWorld {
  regs : Z -> Z;
  faults : list nat;
  garbage : list Z;
  clock : Z;
  trace : list Event }.

(** The outcome of the next bus transaction, and the schedule after it. *)
Definition next_transfer (f : list nat) : bool * list nat :=
  match f with
  | [] => (true, [])
  | O :: f' => (false, f')
  | S n :: f' => (true, n :: f')
  end.

Definition store (a v : Z) (m : Z -> Z) : Z -> Z :=
  fun a' => if a' =? a then v else m a'.

(** An instance of the device's soft reset, for the concrete runs: the
    configuration registers return to the datasheet's power-on contents. *)
Definition power_on_defaults (m : Z -> Z) : Z -> Z :=
  fun a =>
    if a =? LIS3MDL_REG_CTRL_REG1 then 0x10
    else if a =? LIS3MDL_REG_CTRL_REG2 then 0x00
    else if a =? LIS3MDL_REG_CTRL_REG3 then 0x03
    else if a =? LIS3MDL_REG_CTRL_REG4 then 0x00
    else if a =? LIS3MDL_REG_INT_CFG then 0xE8
    else if a =? LIS3MDL_REG_INT_THS_L then 0x00
    else if a =? LIS3MDL_REG_INT_THS_L + 1 then 0x00
    else m a.

(** ** The driver object ([class Adafruit_LIS3MDL]) *)

Record Adafruit_LIS3MDL := mkLIS3MDL {
  x : Z;                     (* int16_t: last read X, raw units *)
  y : Z;
  z : Z;
  x_gauss : spec_float;      (* float: last read X, gauss *)
  y_gauss : spec_float;
  z_gauss : spec_float;
  rangeBuffered : lis3mdl_range_t;
  i2c_dev : option Adafruit_I2CDevice;
  spi_dev : option Adafruit_SPIDevice;
  _sensorID : Z }.

(** [sensors_event_t] of Adafruit_Sensor.h, the fields the driver fills. *)
Record sensors_event_t := mkEvent {
  version : Z;
  sensor_id : Z;
  type : Z;
  timestamp : Z;
  magnetic_x : spec_float;
  magnetic_y : spec_float;
  magnetic_z : spec_float }.

Definition sizeof_sensors_event_t : Z := 36.
Definition SENSOR_TYPE_MAGNETIC_FIELD : Z := 2.

(** [sensor_t] of the unified sensor library, with the members [getSensor]
    assigns; [name] is a [char] array. *)
Module Sensor.
Record sensor_t := mkSensor {
  name : list ascii;
  version : Z;
  sensor_id : Z;
  type : Z;
  max_value : spec_float;
  min_value : spec_float;
  resolution : spec_float;
  min_delay : Z }.
End Sensor.

(** [strncpy(dest, src, n)]: the first [n] characters of [src], padded with
    NUL when [src] is shorter, replace the first [n] of [dest]. *)
Definition strncpy (dest : list ascii) (src : string) (n : nat) : list ascii :=
  firstn n (list_ascii_of_string src ++ repeat zero n) ++ skipn n dest.

(** [a[i] = v] for [i] within the array. *)
Definition assign {A : Type} (i : nat) (v : A) (a : list A) : list A :=
  firstn i a ++ v :: skipn (S i) a.

(** The whole state: the driver object and its environment. *)
Record Sys := mkSys { this : Adafruit_LIS3MDL; world : World }.

(** ** The state monad of member functions *)

Definition M (A : Type) : Type := Sys -> A * Sys.

Definition ret {A : Type} (a : A) : M A := fun s => (a, s).

Definition bind {A B : Type} (c : M A) (k : A -> M B) : M B :=
  fun s => let (a, s') := c s in k a s'.

Notation "v <- c ;; k" := (bind c (fun v => k))
  (at level 61, c at next level, right associativity).
Notation "c ;;; k" := (bind c (fun _ => k))
  (at level 61, right associativity).

Definition get_this : M Adafruit_LIS3MDL := fun s => (this s, s).

Definition set_this (f : Adafruit_LIS3MDL -> Adafruit_LIS3MDL) : M unit :=
  fun s => (tt, {| this := f (this s); world := world s |}).

(** Run an operation of the environment. *)
Definition env {A : Type} (f : World -> A * World) : M A :=
  fun s => let (a, w) := f (world s) in (a, {| this := this s; world := w |}).

(** Member assignments. *)
Definition set_raw (vx vy vz : Z) (d : Adafruit_LIS3MDL) : Adafruit_LIS3MDL :=
  {| x := vx; y := vy; z := vz;
     x_gauss := x_gauss d; y_gauss := y_gauss d; z_gauss := z_gauss d;
     rangeBuffered := rangeBuffered d;
     i2c_dev := i2c_dev d; spi_dev := spi_dev d; _sensorID := _sensorID d |}.

Definition set_gauss (gx gy gz : spec_float) (d : Adafruit_LIS3MDL)
  : Adafruit_LIS3MDL :=
  {| x := x d; y := y d; z := z d;
     x_gauss := gx; y_gauss := gy; z_gauss := gz;
     rangeBuffered := rangeBuffered d;
     i2c_dev := i2c_dev d; spi_dev := spi_dev d; _sensorID := _sensorID d |}.

Definition set_rangeBuffered (r : lis3mdl_range_t) (d : Adafruit_LIS3MDL)
  : Adafruit_LIS3MDL :=
  {| x := x d; y := y d; z := z d;
     x_gauss := x_gauss d; y_gauss := y_gauss d; z_gauss := z_gauss d;
     rangeBuffered := r;
     i2c_dev := i2c_dev d; spi_dev := spi_dev d; _sensorID := _sensorID d |}.

Definition set_i2c_dev (p : option Adafruit_I2CDevice) (d : Adafruit_LIS3MDL)
  : Adafruit_LIS3MDL :=
  {| x := x d; y := y d; z := z d;
     x_gauss := x_gauss d; y_gauss := y_gauss d; z_gauss := z_gauss d;
     rangeBuffered := rangeBuffered d;
     i2c_dev := p; spi_dev := spi_dev d; _sensorID := _sensorID d |}.

Definition set_spi_dev (p : option Adafruit_SPIDevice) (d : Adafruit_LIS3MDL)
  : Adafruit_LIS3MDL :=
  {| x := x d; y := y d; z := z d;
     x_gauss := x_gauss d; y_gauss := y_gauss d; z_gauss := z_gauss d;
     rangeBuffered := rangeBuffered d;
     i2c_dev := i2c_dev d; spi_dev := p; _sensorID := _sensorID d |}.

(** Environment updates. *)
Definition log (evs : list Event) (w : World) : World :=
  {| regs := regs w; faults := faults w; garbage := garbage w;
     clock := clock w; trace := trace w ++ evs |}.

Definition with_regs (m : Z -> Z) (w : World) : World :=
  {| regs := m; faults := faults w; garbage := garbage w;
     clock := clock w; trace := trace w |}.

Definition with_faults (f : list nat) (w : World) : World :=
  {| regs := regs w; faults := f; garbage := garbage w;
     clock := clock w; trace := trace w |}.

Definition with_clock (t : Z) (w : World) : World :=
  {| regs := regs w; faults := faults w; garbage := garbage w;
     clock := t; trace := trace w |}.

(** Arduino's [delay(ms)] and [millis()]. *)
Definition delay (ms : Z) : M unit :=
  env (fun w => (tt, log [EvDelay ms] (with_clock (clock w + ms) w))).

Definition millis : M Z := env (fun w => (clock w, w)).

(** ** Bit fields of a register value (32-bit arithmetic)

    Modelled from the spec: the arithmetic of a bit-field read ("shift
    right by offset, mask to width bits") and of a bit-field write ("clear
    the target bits, OR in (value & mask) << offset"). *)
Definition field_mask (bits : Z) : Z := Z.shiftl 1 bits - 1.

Definition field_extract (bits shift val : Z) : Z :=
  let val := Z.shiftr val shift in
  Z.land val (field_mask bits).

Definition field_insert (bits shift data val : Z) : Z :=
  let mask := field_mask bits in
  let data := Z.land data mask in
  let mask := uint32 (Z.shiftl mask shift) in
  let val := Z.land val (uint32 (Z.lnot mask)) in    (* remove the current data *)
  Z.lor val (uint32 (Z.shiftl data shift)).          (* and add in the new data *)

(** Bytes of a value, least significant first, and back. *)
Fixpoint le_bytes (n : nat) (v : Z) : list Z :=
  match n with
  | O => []
  | S n' => uint8 v :: le_bytes n' (Z.shiftr v 8)
  end.

Fixpoint le_value (bs : list Z) : Z :=
  match bs with
  | [] => 0
  | b :: rest => Z.lor b (Z.shiftl (le_value rest) 8)
  end.

(** Conversion of [readMagneticField]:
    [data[i] * 4.0 * 100.0 / 32768.0], computed in [double] and stored in
    a [float]. *)
Definition field_of_raw (raw : Z) : spec_float :=
  Float32.of_double
    (Float64.div
       (Float64.mul (Float64.mul (Float64.of_int raw) (Float64.of_int 4))
                    (Float64.of_int 100))
       (Float64.of_int 32768)).

(** The same expression where [double] is binary32, as on AVR. *)
Definition field_of_raw_avr (raw : Z) : spec_float :=
  Float32.div
    (Float32.mul (Float32.mul (Float32.of_int raw) (Float32.of_int 4))
                 (Float32.of_int 100))
    (Float32.of_int 32768).

(* ------------------------------------------------------------------ *)
(** ** Vocabulary of the properties *)

(** A transport is bound: one of the two pointers is not null. *)
Definition bound (d : Adafruit_LIS3MDL) : bool :=
  match i2c_dev d, spi_dev d with
  | None, None => false
  | _, _ => true
  end.

(** The driver can talk to the device: a transport is bound and no bus
    transaction is going to fail. *)
Definition ready (s : Sys) : Prop :=
  bound (this s) = true /\ faults (world s) = [].

Definition on_world (f : World -> World) (s : Sys) : Sys :=
  {| this := this s; world := f (world s) |}.

Definition on_this (f : Adafruit_LIS3MDL -> Adafruit_LIS3MDL) (s : Sys) : Sys :=
  {| this := f (this s); world := world s |}.

(** The byte the device holds at an address, and a bit field of it. *)
Definition device_byte (addr : Z) (s : Sys) : Z := uint8 (regs (world s) addr).

Definition device_field (addr bits shift : Z) (s : Sys) : Z :=
  field_extract bits shift (device_byte addr s).

(** The settings as the device holds them. *)
Definition device_range (s : Sys) : lis3mdl_range_t :=
  range_of_value (device_field LIS3MDL_REG_CTRL_REG2 2 5 s).

Definition device_performance_xy (s : Sys) : Z :=
  device_field LIS3MDL_REG_CTRL_REG1 2 5 s.

Definition device_performance_z (s : Sys) : Z :=
  device_field LIS3MDL_REG_CTRL_REG4 2 2 s.

Definition device_dataRate (s : Sys) : Z :=
  device_field LIS3MDL_REG_CTRL_REG1 4 1 s.

Definition device_operationmode (s : Sys) : Z :=
  device_field LIS3MDL_REG_CTRL_REG3 2 0 s.

(** The performance mode a fast-ODR data rate is paired with (section 3 of
    the specification): 155 Hz with ultra-high, 300 Hz with high, 560 Hz
    with medium, 1000 Hz with low power; the other eight rates have none. *)
Definition paired_mode (r : lis3mdl_dataRate_t) : option lis3mdl_performancemode_t :=
  match r with
  | LIS3MDL_DATARATE_155_HZ => Some LIS3MDL_ULTRAHIGHMODE
  | LIS3MDL_DATARATE_300_HZ => Some LIS3MDL_HIGHMODE
  | LIS3MDL_DATARATE_560_HZ => Some LIS3MDL_MEDIUMMODE
  | LIS3MDL_DATARATE_1000_HZ => Some LIS3MDL_LOWPOWERMODE
  | _ => None
  end.

(** The documented scale constants, LSB per gauss (section 3). *)
Definition lsb_per_gauss (r : lis3mdl_range_t) : Z :=
  match r with
  | LIS3MDL_RANGE_4_GAUSS => 6842
  | LIS3MDL_RANGE_8_GAUSS => 3421
  | LIS3MDL_RANGE_12_GAUSS => 2281
  | LIS3MDL_RANGE_16_GAUSS => 1711
  end.

(** The interrupt-configuration byte as the specification writes it. *)
Definition int_cfg_byte (enableX enableY enableZ polarity latch enableGlobal : bool)
  : Z :=
  Z.lor 0x08
    (Z.lor (Z.shiftl (Z.b2z enableX) 7)
       (Z.lor (Z.shiftl (Z.b2z enableY) 6)
          (Z.lor (Z.shiftl (Z.b2z enableZ) 5)
             (Z.lor (Z.shiftl (Z.b2z polarity) 2)
                (Z.lor (Z.shiftl (Z.b2z latch) 1) (Z.b2z enableGlobal)))))).

(** The next bus transfer of the driver will succeed. *)
Definition transfer_ok (s : Sys) : bool :=
  bound (this s) && fst (next_transfer (faults (world s))).

(** A sixteen-bit sample as the device holds it, low byte at [addr]. *)
Definition device_sample (addr : Z) (s : Sys) : Z :=
  int16 (le_value [device_byte addr s; device_byte (addr + 1) s]).

(** The three values [readMagneticField] computes from the samples the
    device holds. *)
Definition field_sample (s : Sys) : spec_float * spec_float * spec_float :=
  (field_of_raw (device_sample LIS3MDL_REG_OUT_X_L s),
   field_of_raw (device_sample (LIS3MDL_REG_OUT_X_L + 2) s),
   field_of_raw (device_sample (LIS3MDL_REG_OUT_X_L + 4) s)).

(** The measurement members of the driver object. *)
Definition measurement (d : Adafruit_LIS3MDL)
  : Z * Z * Z * (spec_float * spec_float * spec_float) :=
  (x d, y d, z d, (x_gauss d, y_gauss d, z_gauss d)).

(** The event [getEvent] fills in at time [now] from the members [d]; the
    [timestamp] member is an [int32_t]. *)
Definition event_of (now : Z) (d : Adafruit_LIS3MDL) : sensors_event_t :=
  {| version := sizeof_sensors_event_t;
     sensor_id := _sensorID d;
     type := SENSOR_TYPE_MAGNETIC_FIELD;
     timestamp := int32 now;
     magnetic_x := Float32.mul (x_gauss d) (Float32.of_int 100);
     magnetic_y := Float32.mul (y_gauss d) (Float32.of_int 100);
     magnetic_z := Float32.mul (z_gauss d) (Float32.of_int 100) |}.

(** A register file whose output registers hold the bytes of [buffer]. *)
Definition buffer_regs (buffer : list Z) : Z -> Z :=
  fun a => nth (Z.to_nat (a - LIS3MDL_REG_OUT_X_L)) buffer 0.

(** The state [s] with a bound transport, a working bus and a device whose
    output registers hold [buffer]. *)
Definition with_sample (buffer : list Z) (s : Sys) : Sys :=
  {| this := set_i2c_dev (Some (I2CDevice 0x1C 0)) (this s);
     world := with_faults [] (with_regs (buffer_regs buffer) (world s)) |}.

(** [f] is the decimal [n / d] when rounded to the nearest multiple of
    [1 / d]. *)
Definition rounds_to (f : spec_float) (n : Z) (d : positive) : Prop :=
  between (2 * n - 1 # 2 * d) (2 * n + 1 # 2 * d) f.

(** [f] is within [tol] of [q]. *)
Definition within (f : spec_float) (q tol : Q) : Prop :=
  match SF2Q f with Some r => (Qabs (r - q) <= tol)%Q | None => False end.

(** The conversion of [read] for a cached range: [(float)raw / scale]. *)
Definition gauss_of_raw (r : lis3mdl_range_t) (raw : Z) : spec_float :=
  Float32.div (Float32.of_int raw) (Float32.of_int (lsb_per_gauss r)).

(** Decidable counterparts of [within] and [denotes], and equality of floats
    as data. *)
Definition withinb (f : spec_float) (q tol : Q) : bool :=
  match SF2Q f with Some r => Qle_bool (Qabs (r - q)) tol | None => false end.

Definition denotesb (f : spec_float) (q : Q) : bool :=
  match SF2Q f with Some r => Qeq_bool r q | None => false end.

Definition sf_eqb (a b : spec_float) : bool :=
  match a, b with
  | S754_zero s, S754_zero s' => Bool.eqb s s'
  | S754_infinity s, S754_infinity s' => Bool.eqb s s'
  | S754_nan, S754_nan => true
  | S754_finite s m e, S754_finite s' m' e' =>
      Bool.eqb s s' && Pos.eqb m m' && Z.eqb e e'
  | _, _ => false
  end.

Definition all_ranges : list lis3mdl_range_t :=
  [LIS3MDL_RANGE_4_GAUSS; LIS3MDL_RANGE_8_GAUSS;
   LIS3MDL_RANGE_12_GAUSS; LIS3MDL_RANGE_16_GAUSS].

(** [P] holds of the [n] integers from [start] on. *)
Fixpoint all_from (n : nat) (start : Z) (P : Z -> bool) : bool :=
  match n with
  | O => true
  | S n' => if P start then all_from n' (start + 1) P else false
  end.

(** What is checked of the two conversions at one raw value: the field
    conversion is exact, and the same with either width of [double]; for
    every range the gauss conversion is within 2^-24 of the quotient,
    relatively, and differs from the field conversion unless the raw value
    is zero. *)
Definition conversions_check (raw : Z) : bool :=
  let f := field_of_raw raw in
  denotesb f (raw * 4 * 100 # 32768)
  && sf_eqb (field_of_raw_avr raw) f
  && forallb (fun r =>
        let g := gauss_of_raw r raw in
        let scale := Z.to_pos (lsb_per_gauss r) in
        withinb g (raw # scale) (Z.abs raw # scale * 2 ^ 24)
        && ((raw =? 0) || negb (sf_eqb g f))) all_ranges.

(** The SOFT_RST bit reads back as zero: no reset is pending. *)
Definition reset_idle (s : Sys) : Prop :=
  Z.testbit (device_byte LIS3MDL_REG_CTRL_REG2 s) 2 = false.

(** Writing byte [b] at [addr] does not start a soft reset. *)
Definition quiet (addr b : Z) : bool :=
  negb ((addr =? LIS3MDL_REG_CTRL_REG2) && Z.testbit b 2).

(** An operation of the environment only adds events to the trace. *)
Definition grows {A : Type} (f : World -> A * World) : Prop :=
  forall w : World, exists evs : list Event, trace (snd (f w)) = trace w ++ evs.

(** A member function leaves the two transport pointers alone and only
    adds events to the trace. *)
Definition orderly {A : Type} (c : M A) : Prop :=
  forall s : Sys,
    i2c_dev (this (snd (c s))) = i2c_dev (this s)
    /\ spi_dev (this (snd (c s))) = spi_dev (this s)
    /\ exists evs : list Event,
         trace (world (snd (c s))) = trace (world s) ++ evs.

(** The [delete] calls a bind starts with. *)
Definition deletions (d : Adafruit_LIS3MDL) : list Event :=
  match i2c_dev d with Some dev => [EvDelete_I2C dev] | None => [] end
  ++ match spi_dev d with Some dev => [EvDelete_SPI dev] | None => [] end.

(** The environment after [if (i2c_dev) delete i2c_dev; if (spi_dev) delete
    spi_dev;]. *)
Definition released (d : Adafruit_LIS3MDL) (w : World) : World :=
  let w1 := match i2c_dev d with
            | Some dev => log [EvDelete_I2C dev] w
            | None => w
            end in
  match spi_dev d with
  | Some dev => log [EvDelete_SPI dev] w1
  | None => w1
  end.

(** The state after a bind released the old transports, stored the new
    pointers and made the bus handshake. *)
Definition handshaken (i2c : option Adafruit_I2CDevice)
  (spi : option Adafruit_SPIDevice) (s : Sys) : Sys :=
  {| this := set_spi_dev spi (set_i2c_dev i2c (this s));
     world := log [EvBegin (fst (next_transfer (faults (world s))))]
                (with_faults (snd (next_transfer (faults (world s))))
                   (released (this s) (world s))) |}.

(** What every bind guarantees: the new transport is in its slot and the
    other slot is null; the old transports were deleted first; then came
    the handshake; when it fails the bind returns false at once, otherwise
    it continues with [init]. *)
Definition bind_outcome (init : M bool) (i2c : option Adafruit_I2CDevice)
  (spi : option Adafruit_SPIDevice) (s : Sys) (r : bool * Sys) : Prop :=
  let ok := fst (next_transfer (faults (world s))) in
  i2c_dev (this (snd r)) = i2c
  /\ spi_dev (this (snd r)) = spi
  /\ r = (if ok then init (handshaken i2c spi s)
          else (false, handshaken i2c spi s))
  /\ exists rest : list Event,
       trace (world (snd r))
       = trace (world s) ++ deletions (this s) ++ EvBegin ok :: rest
       /\ (if ok then True
           else fst r = false /\ rest = []
                /\ regs (world (snd r)) = regs (world s)).

(** The bus operations a run performed, in order. *)
Definition performed (s s' : Sys) (ops : list Op) : Prop :=
  exists evs : list Event,
    trace (world s') = trace (world s) ++ evs /\ map op_of evs = ops.

(** The events a run added to the trace. *)
Definition added (s s' : Sys) (evs : list Event) : Prop :=
  trace (world s') = trace (world s) ++ evs.

(* ------------------------------------------------------------------ *)
(** ** Vocabulary of the further properties *)

(** The [float] literal [m * 2^e]. *)
Definition float_lit (m e : Z) : spec_float :=
  binary_normalize Float32.prec Float32.emax m e false.

(** The nominal output data rates in Hz, as the header documents them. *)
Definition rate_hz (r : lis3mdl_dataRate_t) : Q :=
  match r with
  | LIS3MDL_DATARATE_0_625_HZ => 625 # 1000
  | LIS3MDL_DATARATE_1_25_HZ => 125 # 100
  | LIS3MDL_DATARATE_2_5_HZ => 25 # 10
  | LIS3MDL_DATARATE_5_HZ => 5 # 1
  | LIS3MDL_DATARATE_10_HZ => 10 # 1
  | LIS3MDL_DATARATE_20_HZ => 20 # 1
  | LIS3MDL_DATARATE_40_HZ => 40 # 1
  | LIS3MDL_DATARATE_80_HZ => 80 # 1
  | LIS3MDL_DATARATE_155_HZ => 155 # 1
  | LIS3MDL_DATARATE_300_HZ => 300 # 1
  | LIS3MDL_DATARATE_560_HZ => 560 # 1
  | LIS3MDL_DATARATE_1000_HZ => 1000 # 1
  end.

(** What a read of the one-byte register at [addr] yields: the device's
    byte, or all ones when the transfer fails. *)
Definition register_value (addr : Z) (s : Sys) : Z :=
  if transfer_ok s then device_byte addr s else 0xFFFFFFFF.

(** The state after the attempt to read [len] bytes at [addr]. *)
Definition attempted_read (addr : Z) (len : nat) (s : Sys) : Sys :=
  if bound (this s)
  then on_world (fun w =>
         log [EvRead addr len (fst (next_transfer (faults w)))]
             (with_faults (snd (next_transfer (faults w))) w)) s
  else s.

Definition is_write (e : Event) : bool :=
  match e with EvWrite _ _ _ => true | _ => false end.

Definition is_delay (e : Event) : bool :=
  match e with EvDelay _ => true | _ => false end.

(** An operation of the environment that leaves the device's registers as
    they are and writes nothing on the bus. *)
Definition observes {A : Type} (f : World -> A * World) : Prop :=
  forall w : World,
    regs (snd (f w)) = regs w
    /\ exists evs : list Event,
         trace (snd (f w)) = trace w ++ evs /\ existsb is_write evs = false.

(** A member function that leaves the device's registers as they are and
    writes nothing on the bus, in every state. *)
Definition read_only {A : Type} (c : M A) : Prop :=
  forall s : Sys,
    regs (world (snd (c s))) = regs (world s)
    /\ exists evs : list Event,
         trace (world (snd (c s))) = trace (world s) ++ evs
         /\ existsb is_write evs = false.

(** A member function that, run without a bound transport, makes no bus
    transaction: the device and the bus are as before, and the only events
    are delays. *)
Definition offline {A : Type} (c : M A) : Prop :=
  forall s : Sys,
    bound (this s) = false ->
    bound (this (snd (c s))) = false
    /\ regs (world (snd (c s))) = regs (world s)
    /\ faults (world (snd (c s))) = faults (world s)
    /\ exists evs : list Event,
         trace (world (snd (c s))) = trace (world s) ++ evs
         /\ forallb is_delay evs = true.

(** What [getEvent] reports for a raw value at a cached range: gauss times
    100, in [float]. *)
Definition microtesla_of_raw (r : lis3mdl_range_t) (raw : Z) : spec_float :=
  Float32.mul (gauss_of_raw r raw) (Float32.of_int 100).

(** A member function that, run on a bound driver while the next [n] bus
    transfers fail, attempts the operations [ops] and with them uses up
    exactly those [n] failures, leaving the device's registers and the
    binding as they were. *)
Definition on_dead_bus {A : Type} (n : nat) (ops : list Op) (c : M A) : Prop :=
  forall (s : Sys) (f : list nat),
    bound (this s) = true ->
    faults (world s) = repeat O n ++ f ->
    bound (this (snd (c s))) = true
    /\ faults (world (snd (c s))) = f
    /\ regs (world (snd (c s))) = regs (world s)
    /\ performed s (snd (c s)) ops.

(** From [s] to [s'] the registers at the addresses not listed are as they
    were. *)
Definition registers_kept_except (addrs : list Z) (s s' : Sys) : Prop :=
  forall a : Z, ~ In a addrs -> regs (world s') a = regs (world s) a.

(** From [s] to [s'] the byte at [addr] kept every bit outside the field of
    [bits] bits at offset [shift]. *)
Definition bits_kept_outside (addr bits shift : Z) (s s' : Sys) : Prop :=
  forall n : Z,
    0 <= n < 8 -> n < shift \/ shift + bits <= n ->
    Z.testbit (device_byte addr s') n = Z.testbit (device_byte addr s) n.

(* ------------------------------------------------------------------ *)
(** ** A concrete device and driver, for the instances *)

(** A device that identifies as an LIS3MDL and holds the raw sample
    (1000, -2000, 500) in its output registers. *)
Definition example_regs : Z -> Z :=
  fun a =>
    if a =? LIS3MDL_REG_WHO_AM_I then 0x3D
    else if a =? LIS3MDL_REG_OUT_X_L then 0xE8          (* 1000 = 0x03E8 *)
    else if a =? LIS3MDL_REG_OUT_X_L + 1 then 0x03
    else if a =? LIS3MDL_REG_OUT_X_L + 2 then 0x30      (* -2000 = 0xF830 *)
    else if a =? LIS3MDL_REG_OUT_X_L + 3 then 0xF8
    else if a =? LIS3MDL_REG_OUT_X_L + 4 then 0xF4      (* 500 = 0x01F4 *)
    else if a =? LIS3MDL_REG_OUT_X_L + 5 then 0x01
    else 0.

Definition example_world : World :=
  {| regs := example_regs; faults := []; garbage := [1; 2; 3; 4; 5; 6];
     clock := 0; trace := [] |}.

(** The driver object as constructed: no transport, range cache at its
    initialiser. *)
Definition fresh_driver : Adafruit_LIS3MDL :=
  {| x := 0; y := 0; z := 0;
     x_gauss := S754_zero false; y_gauss := S754_zero false;
     z_gauss := S754_zero false;
     rangeBuffered := LIS3MDL_RANGE_4_GAUSS;
     i2c_dev := None; spi_dev := None; _sensorID := 0 |}.

(** The driver bound to the I2C device at the default address. *)
Definition example_driver : Adafruit_LIS3MDL :=
  set_i2c_dev (Some (I2CDevice 0x1C 0)) fresh_driver.

Definition example_state : Sys :=
  {| this := example_driver; world := example_world |}.

(** The same, with the next bus transfer failing. *)
Definition failing_state : Sys :=
  {| this := example_driver; world := with_faults [O] example_world |}.

(** The example state with the second bus transfer failing: a bit-field
    write reads its register and then fails to write it back. *)
Definition write_failing_state : Sys :=
  {| this := example_driver; world := with_faults [1%nat] example_world |}.

(** The example device with a driver that was never bound. *)
Definition unbound_state : Sys :=
  {| this := fresh_driver; world := example_world |}.

(** The example state on a bus where the next transfer succeeds and the
    sixteen after it fail. *)
Definition deaf_state : Sys :=
  {| this := example_driver;
     world := with_faults (1%nat :: repeat O 16) example_world |}.

(** The example driver with 16 gauss cached, before a device whose X and Y
    output registers hold the largest and the smallest raw value. *)
Definition saturated_state : Sys :=
  on_this (set_rangeBuffered LIS3MDL_RANGE_16_GAUSS)
    (with_sample [0xFF; 0x7F; 0x00; 0x80; 0x00; 0x00] example_state).

(** The example state with the SOFT_RST bit of control register 2 reading
    as one. *)
Definition reset_pending_state : Sys :=
  on_world (with_regs (store LIS3MDL_REG_CTRL_REG2 0x04 example_regs))
    example_state.

(** The example driver with 16 gauss cached, before a device whose output
    registers hold the raw sample (0, 0, 0). *)
Definition still_state : Sys :=
  on_this (set_rangeBuffered LIS3MDL_RANGE_16_GAUSS)
    (with_sample [0x00; 0x00; 0x00; 0x00; 0x00; 0x00] example_state).

(** The example state when [millis()] has passed 2^31. *)
Definition late_state : Sys :=
  on_world (with_clock (2 ^ 31 + 5)) example_state.

(** A soft reset that restores the power-on contents but leaves the
    SOFT_RST bit set. *)
Definition sticky_reset (m : Z -> Z) : Z -> Z :=
  store LIS3MDL_REG_CTRL_REG2 0x04 (power_on_defaults m).

(** The example device and a driver never bound, on a bus where the
    handshake and the identity read succeed and the sixteen transfers after
    them fail. *)
Definition flaky_state : Sys :=
  {| this := fresh_driver;
     world := with_faults (2%nat :: repeat O 16) example_world |}.

Section Driver.

(** What the device does to its register file when the SOFT_RST bit
    (bit 2 of control register 2) is written as one.  The driver's code
    does not depend on it, so it stays a parameter. *)
Variable soft_reset : (Z -> Z) -> Z -> Z.

(* ------------------------------------------------------------------ *)
(** ** The device behind the bus *)

(** Modelled from the spec: a register is "an addressable byte-span on the
    device holding configuration or data"; a written byte is stored, and
    storing a one in SOFT_RST makes the device reset itself. *)
Definition dev_write_byte (a v : Z) (m : Z -> Z) : Z -> Z :=
  let m' := store a v m in
  if (a =? LIS3MDL_REG_CTRL_REG2) && Z.testbit v 2 then soft_reset m' else m'.

(** Modelled from the spec: multi-byte transfers auto-increment the
    register address. *)
Fixpoint dev_write (a : Z) (data : list Z) (m : Z -> Z) : Z -> Z :=
  match data with
  | [] => m
  | v :: rest => dev_write (a + 1) rest (dev_write_byte a v m)
  end.

Definition dev_read (a : Z) (len : nat) (m : Z -> Z) : list Z :=
  map (fun i => uint8 (m (a + Z.of_nat i))) (seq 0 len).

(** Modelled from the spec: [readBytes(registerAddress, count) -> bytes|fail]
    of the bound transport. *)
Definition transfer_read (addr : Z) (len : nat) (w : World)
  : option (list Z) * World :=
  let (ok, f') := next_transfer (faults w) in
  let w' := log [EvRead addr len ok] (with_faults f' w) in
  if ok then (Some (dev_read addr len (regs w)), w') else (None, w').

(** Modelled from the spec: [writeBytes(registerAddress, bytes) -> ok|fail]. *)
Definition transfer_write (addr : Z) (data : list Z) (w : World)
  : bool * World :=
  let (ok, f') := next_transfer (faults w) in
  let w' := log [EvWrite addr data ok] (with_faults f' w) in
  if ok then (true, with_regs (dev_write addr data (regs w)) w') else (false, w').

(** Modelled from the spec: [open() -> ok|fail], the bus handshake of
    [Adafruit_I2CDevice::begin] and [Adafruit_SPIDevice::begin]. *)
Definition transport_begin (w : World) : bool * World :=
  let (ok, f') := next_transfer (faults w) in
  (ok, log [EvBegin ok] (with_faults f' w)).

(* ------------------------------------------------------------------ *)
(** ** Adafruit_BusIO_Register and Adafruit_BusIO_RegisterBits *)

Record Adafruit_BusIO_Register := mkRegister {
  reg_i2cdevice : option Adafruit_I2CDevice;
  reg_spidevice : option Adafruit_SPIDevice;
  reg_address : Z;
  reg_width : nat }.

Record Adafruit_BusIO_RegisterBits := mkRegisterBits {
  bits_register : Adafruit_BusIO_Register;
  bits_bits : Z;
  bits_shift : Z }.

(** A register object can reach the device when it was built from a
    non-null transport pointer. *)
Definition has_transport (r : Adafruit_BusIO_Register) : bool :=
  match reg_i2cdevice r, reg_spidevice r with
  | None, None => false
  | _, _ => true
  end.

(** Modelled from the spec: [bool Adafruit_BusIO_Register::read(buffer, len)];
    it fails when no transport is bound or the transfer fails. *)
Definition Register_read_buffer (r : Adafruit_BusIO_Register) (len : nat)
  (w : World) : option (list Z) * World :=
  if has_transport r then transfer_read (reg_address r) len w else (None, w).

(** Modelled from the spec: [uint32_t Adafruit_BusIO_Register::read()]; the
    register's bytes least significant first; a failed transfer reads as
    [(uint32_t)-1]. *)
Definition Register_read (r : Adafruit_BusIO_Register) (w : World) : Z * World :=
  match Register_read_buffer r (reg_width r) w with
  | (Some buf, w') => (le_value buf, w')
  | (None, w') => (0xFFFFFFFF, w')
  end.

(** Modelled from the spec: [bool Adafruit_BusIO_Register::write(value)],
    a plain overwrite of the register's bytes. *)
Definition Register_write (r : Adafruit_BusIO_Register) (value : Z) (w : World)
  : bool * World :=
  if has_transport r
  then transfer_write (reg_address r) (le_bytes (reg_width r) value) w
  else (false, w).

(** Modelled from the spec: "read the register, shift right by offset, mask
    to width bits". *)
Definition RegisterBits_read (b : Adafruit_BusIO_RegisterBits) (w : World)
  : Z * World :=
  let (val, w') := Register_read (bits_register b) w in
  (field_extract (bits_bits b) (bits_shift b) val, w').

(** Modelled from the spec: "read the register, clear the target bits, OR
    in (value & mask) << offset, write the register back". *)
Definition RegisterBits_write (b : Adafruit_BusIO_RegisterBits) (data : Z)
  (w : World) : bool * World :=
  let (val, w') := Register_read (bits_register b) w in
  Register_write (bits_register b)
    (field_insert (bits_bits b) (bits_shift b) data val) w'.

(** The constructor call every member function makes:
    [Adafruit_BusIO_Register(i2c_dev, spi_dev, AD8_HIGH_TOREAD_AD7_HIGH_TOINC,
    addr, width)]. *)
Definition Register (addr : Z) (width : nat) : M Adafruit_BusIO_Register :=
  d <- get_this ;;
  ret {| reg_i2cdevice := i2c_dev d; reg_spidevice := spi_dev d;
         reg_address := addr; reg_width := width |}.

Definition RegisterBits (r : Adafruit_BusIO_Register) (bits shift : Z)
  : Adafruit_BusIO_RegisterBits :=
  {| bits_register := r; bits_bits := bits; bits_shift := shift |}.

(* ------------------------------------------------------------------ *)
(** ** Member functions of [Adafruit_LIS3MDL], in the order of the source *)

(** [lis3mdl_range_t Adafruit_LIS3MDL::getRange(void)] *)
Definition getRange : M lis3mdl_range_t :=
  CTRL_REG2 <- Register LIS3MDL_REG_CTRL_REG2 1 ;;
  let rangebits := RegisterBits CTRL_REG2 2 5 in
  v <- env (RegisterBits_read rangebits) ;;
  set_this (set_rangeBuffered (range_of_value v)) ;;;
  d <- get_this ;;
  ret (rangeBuffered d).

(** [void Adafruit_LIS3MDL::reset(void)] *)
Definition reset : M unit :=
  CTRL_REG2 <- Register LIS3MDL_REG_CTRL_REG2 1 ;;
  let resetbits := RegisterBits CTRL_REG2 1 2 in
  env (RegisterBits_write resetbits 0x1) ;;;
  delay 10 ;;;
  getRange ;;;
  ret tt.

(** A local array that is not initialised: [uint8_t buffer[len]]. *)
Definition local_buffer (len : nat) : M (list Z) :=
  env (fun w => (map (fun i => uint8 (nth i (garbage w) 0)) (seq 0 len), w)).

(** [reg.read(buffer, len)]: the buffer is filled only when the transfer
    succeeds. *)
Definition read_into (r : Adafruit_BusIO_Register) (buffer : list Z) (len : nat)
  : M (bool * list Z) :=
  res <- env (Register_read_buffer r len) ;;
  match res with
  | Some bytes => ret (true, bytes)
  | None => ret (false, buffer)
  end.

(** [void Adafruit_LIS3MDL::read(void)] *)
Definition read : M unit :=
  buffer <- local_buffer 6 ;;
  XYZDataReg <- Register LIS3MDL_REG_OUT_X_L 6 ;;
  res <- read_into XYZDataReg buffer 6 ;;
  let buffer := snd res in
  let vx := int16 (nth 0 buffer 0) in
  let vx := int16 (Z.lor vx (Z.shiftl (nth 1 buffer 0) 8)) in
  let vy := int16 (nth 2 buffer 0) in
  let vy := int16 (Z.lor vy (Z.shiftl (nth 3 buffer 0) 8)) in
  let vz := int16 (nth 4 buffer 0) in
  let vz := int16 (Z.lor vz (Z.shiftl (nth 5 buffer 0) 8)) in
  set_this (set_raw vx vy vz) ;;;
  d <- get_this ;;
  let scale := Float32.of_int 1 in (* LSB per gauss *)
  let scale :=
    match rangeBuffered d with
    | LIS3MDL_RANGE_16_GAUSS => Float32.of_int 1711
    | LIS3MDL_RANGE_12_GAUSS => Float32.of_int 2281
    | LIS3MDL_RANGE_8_GAUSS => Float32.of_int 3421
    | LIS3MDL_RANGE_4_GAUSS => Float32.of_int 6842
    end in
  set_this (set_gauss (Float32.div (Float32.of_int (x d)) scale)
                      (Float32.div (Float32.of_int (y d)) scale)
                      (Float32.div (Float32.of_int (z d)) scale)).

(** [bool Adafruit_LIS3MDL::getEvent(sensors_event_t *event)] *)
Definition getEvent : M (bool * sensors_event_t) :=
  d <- get_this ;;
  now <- millis ;;
  read ;;;
  d' <- get_this ;;
  ret (true,
       {| version := sizeof_sensors_event_t;
          sensor_id := _sensorID d;
          type := SENSOR_TYPE_MAGNETIC_FIELD;
          timestamp := int32 now;  (* millis() stored in an int32_t *)
          magnetic_x := Float32.mul (x_gauss d') (Float32.of_int 100);
          magnetic_y := Float32.mul (y_gauss d') (Float32.of_int 100);
          magnetic_z := Float32.mul (z_gauss d') (Float32.of_int 100) |}).

(** [void Adafruit_LIS3MDL::getSensor(sensor_t *sensor)]; [sizeof_name] is
    [sizeof(sensor->name)], at least 1.  The result is the object left
    behind the pointer. *)
Definition getSensor (sizeof_name : nat) : M Sensor.sensor_t :=
  d <- get_this ;;
  (* Clear the sensor_t object *)
  let name := repeat zero sizeof_name in
  (* Insert the sensor name in the fixed length char array *)
  let name := strncpy name "LIS3MDL" (sizeof_name - 1) in
  let name := assign (sizeof_name - 1) zero name in
  ret {| Sensor.name := name;
         Sensor.version := 1;
         Sensor.sensor_id := _sensorID d;
         Sensor.type := SENSOR_TYPE_MAGNETIC_FIELD;
         Sensor.min_delay := 0;
         Sensor.min_value := Float32.of_int (-1600); (* -16 gauss in uTesla *)
         Sensor.max_value := Float32.of_int 1600;    (* +16 gauss in uTesla *)
         Sensor.resolution :=
           Float32.of_double
             (Float64.div (Float64.of_int 15) (Float64.of_int 1000)) (* 0.015 *)
      |}.

(** [void Adafruit_LIS3MDL::setPerformanceMode(lis3mdl_performancemode_t)] *)
Definition setPerformanceMode (mode : lis3mdl_performancemode_t) : M unit :=
  (* write xy *)
  CTRL_REG1 <- Register LIS3MDL_REG_CTRL_REG1 1 ;;
  let performancemodebits := RegisterBits CTRL_REG1 2 5 in
  env (RegisterBits_write performancemodebits (performancemode_value mode)) ;;;
  (* write z *)
  CTRL_REG4 <- Register LIS3MDL_REG_CTRL_REG4 1 ;;
  let performancemodezbits := RegisterBits CTRL_REG4 2 2 in
  env (RegisterBits_write performancemodezbits (performancemode_value mode)) ;;;
  ret tt.

(** [lis3mdl_performancemode_t Adafruit_LIS3MDL::getPerformanceMode(void)] *)
Definition getPerformanceMode : M lis3mdl_performancemode_t :=
  CTRL_REG1 <- Register LIS3MDL_REG_CTRL_REG1 1 ;;
  let performancemodebits := RegisterBits CTRL_REG1 2 5 in
  v <- env (RegisterBits_read performancemodebits) ;;
  ret (performancemode_of_value v).

Definition dataRate_eqb (a b : lis3mdl_dataRate_t) : bool :=
  dataRate_value a =? dataRate_value b.

Definition when (c : bool) (body : M unit) : M unit :=
  if c then body else ret tt.

(** [void Adafruit_LIS3MDL::setDataRate(lis3mdl_dataRate_t dataRate)] *)
Definition setDataRate (dataRate : lis3mdl_dataRate_t) : M unit :=
  when (dataRate_eqb dataRate LIS3MDL_DATARATE_155_HZ)
    (* set OP to UHP *)
    (setPerformanceMode LIS3MDL_ULTRAHIGHMODE) ;;;
  when (dataRate_eqb dataRate LIS3MDL_DATARATE_300_HZ)
    (* set OP to HP *)
    (setPerformanceMode LIS3MDL_HIGHMODE) ;;;
  when (dataRate_eqb dataRate LIS3MDL_DATARATE_560_HZ)
    (* set OP to MP *)
    (setPerformanceMode LIS3MDL_MEDIUMMODE) ;;;
  when (dataRate_eqb dataRate LIS3MDL_DATARATE_1000_HZ)
    (* set OP to LP *)
    (setPerformanceMode LIS3MDL_LOWPOWERMODE) ;;;
  delay 10 ;;;
  CTRL_REG1 <- Register LIS3MDL_REG_CTRL_REG1 1 ;;
  let dataratebits := RegisterBits CTRL_REG1 4 1 in (* includes FAST_ODR *)
  env (RegisterBits_write dataratebits (dataRate_value dataRate)) ;;;
  ret tt.

(** [lis3mdl_dataRate_t Adafruit_LIS3MDL::getDataRate(void)]: the four-bit
    field, cast to the enumeration; the result is the enumeration's value. *)
Definition getDataRate : M Z :=
  CTRL_REG1 <- Register LIS3MDL_REG_CTRL_REG1 1 ;;
  let dataratebits := RegisterBits CTRL_REG1 4 1 in (* includes FAST_ODR *)
  env (RegisterBits_read dataratebits).

(** [void Adafruit_LIS3MDL::setOperationMode(lis3mdl_operationmode_t mode)] *)
Definition setOperationMode (mode : lis3mdl_operationmode_t) : M unit :=
  CTRL_REG3 <- Register LIS3MDL_REG_CTRL_REG3 1 ;;
  let opmodebits := RegisterBits CTRL_REG3 2 0 in
  env (RegisterBits_write opmodebits (operationmode_value mode)) ;;;
  ret tt.

(** [lis3mdl_operationmode_t Adafruit_LIS3MDL::getOperationMode(void)]: the
    two-bit field, cast to the enumeration. *)
Definition getOperationMode : M Z :=
  CTRL_REG3 <- Register LIS3MDL_REG_CTRL_REG3 1 ;;
  let opmodebits := RegisterBits CTRL_REG3 2 0 in
  env (RegisterBits_read opmodebits).

(** [void Adafruit_LIS3MDL::setRange(lis3mdl_range_t range)] *)
Definition setRange (range : lis3mdl_range_t) : M unit :=
  CTRL_REG2 <- Register LIS3MDL_REG_CTRL_REG2 1 ;;
  let rangebits := RegisterBits CTRL_REG2 2 5 in
  env (RegisterBits_write rangebits (range_value range)) ;;;
  set_this (set_rangeBuffered range).

(** [void Adafruit_LIS3MDL::setIntThreshold(uint16_t value)] *)
Definition setIntThreshold (value : Z) : M unit :=
  let value := Z.land (uint16 value) 0x7FFF in (* high bit must be 0! *)
  INT_THS <- Register LIS3MDL_REG_INT_THS_L 2 ;;
  env (Register_write INT_THS value) ;;;
  ret tt.

(** [uint16_t Adafruit_LIS3MDL::getIntThreshold(void)] *)
Definition getIntThreshold : M Z :=
  INT_THS <- Register LIS3MDL_REG_INT_THS_L 2 ;;
  v <- env (Register_read INT_THS) ;;
  ret (uint16 v).

(** [void Adafruit_LIS3MDL::configInterrupt(bool enableX, bool enableY,
    bool enableZ, bool polarity, bool latch, bool enableInt)] *)
Definition configInterrupt (enableX enableY enableZ polarity latch enableInt : bool)
  : M unit :=
  let value := 0x08 in (* set default bits, see table 36 *)
  let value := uint8 (Z.lor value (Z.shiftl (Z.b2z enableX) 7)) in
  let value := uint8 (Z.lor value (Z.shiftl (Z.b2z enableY) 6)) in
  let value := uint8 (Z.lor value (Z.shiftl (Z.b2z enableZ) 5)) in
  let value := uint8 (Z.lor value (Z.shiftl (Z.b2z polarity) 2)) in
  let value := uint8 (Z.lor value (Z.shiftl (Z.b2z latch) 1)) in
  let value := uint8 (Z.lor value (Z.b2z enableInt)) in
  INT_CFG <- Register LIS3MDL_REG_INT_CFG 1 ;;
  env (Register_write INT_CFG value) ;;;
  ret tt.

(** [void Adafruit_LIS3MDL::selfTest(bool flag)] *)
Definition selfTest (flag : bool) : M unit :=
  CTRL_REG1 <- Register LIS3MDL_REG_CTRL_REG1 1 ;;
  let stbit := RegisterBits CTRL_REG1 1 0 in
  env (RegisterBits_write stbit (Z.b2z flag)) ;;;
  ret tt.

(** [int Adafruit_LIS3MDL::magneticFieldAvailable(void)] *)
Definition magneticFieldAvailable : M Z :=
  REG_STATUS <- Register LIS3MDL_REG_STATUS 1 ;;
  v <- env (Register_read REG_STATUS) ;;
  ret (if Z.land v 0x08 =? 0 then 0 else 1).

(** [float Adafruit_LIS3MDL::magneticFieldSampleRate(void)]: the [switch]
    over the value [getDataRate] returns; [return 0] when no case matches. *)
Definition magneticFieldSampleRate : M spec_float :=
  rate <- getDataRate ;;
  ret (if rate =? dataRate_value LIS3MDL_DATARATE_0_625_HZ
       then float_lit 5 (-3)                                     (* 0.625f *)
       else if rate =? dataRate_value LIS3MDL_DATARATE_1_25_HZ
       then float_lit 5 (-2)                                     (* 1.25f *)
       else if rate =? dataRate_value LIS3MDL_DATARATE_2_5_HZ
       then float_lit 5 (-1)                                     (* 2.5f *)
       else if rate =? dataRate_value LIS3MDL_DATARATE_5_HZ
       then float_lit 5 0                                        (* 5.0f *)
       else if rate =? dataRate_value LIS3MDL_DATARATE_10_HZ
       then float_lit 10 0                                       (* 10.0f *)
       else if rate =? dataRate_value LIS3MDL_DATARATE_20_HZ
       then float_lit 20 0                                       (* 20.0f *)
       else if rate =? dataRate_value LIS3MDL_DATARATE_40_HZ
       then float_lit 40 0                                       (* 40.0f *)
       else if rate =? dataRate_value LIS3MDL_DATARATE_80_HZ
       then float_lit 80 0                                       (* 80.0f *)
       else if rate =? dataRate_value LIS3MDL_DATARATE_155_HZ
       then float_lit 155 0                                      (* 155.0f *)
       else if rate =? dataRate_value LIS3MDL_DATARATE_300_HZ
       then float_lit 300 0                                      (* 300.0f *)
       else if rate =? dataRate_value LIS3MDL_DATARATE_560_HZ
       then float_lit 560 0                                      (* 560.0f *)
       else if rate =? dataRate_value LIS3MDL_DATARATE_1000_HZ
       then float_lit 1000 0                                     (* 1000.0f *)
       else Float32.of_int 0).

(** [int Adafruit_LIS3MDL::readMagneticField(float &x, float &y, float &z)]:
    the result is the returned [int] and the three values left in the
    references. *)
Definition readMagneticField : M (Z * (spec_float * spec_float * spec_float)) :=
  data <- local_buffer 6 ;;
  XYZDataReg <- Register LIS3MDL_REG_OUT_X_L 6 ;;
  res <- read_into XYZDataReg data 6 ;;
  if negb (fst res) then
    ret (0, (NAN, NAN, NAN))
  else
    let data := snd res in
    let data0 := int16 (le_value [nth 0 data 0; nth 1 data 0]) in
    let data1 := int16 (le_value [nth 2 data 0; nth 3 data 0]) in
    let data2 := int16 (le_value [nth 4 data 0; nth 5 data 0]) in
    ret (1, (field_of_raw data0, field_of_raw data1, field_of_raw data2)).

(** [bool Adafruit_LIS3MDL::_init(void)] *)
Definition _init : M bool :=
  (* Check connection *)
  chip_id <- Register LIS3MDL_REG_WHO_AM_I 1 ;;
  id <- env (Register_read chip_id) ;;
  (* make sure we're talking to the right chip *)
  if negb (id =? 0x3D) then
    (* No LIS3MDL detected ... return false *)
    ret false
  else
    reset ;;;
    (* set high quality performance mode *)
    setPerformanceMode LIS3MDL_ULTRAHIGHMODE ;;;
    (* 155Hz default rate *)
    setDataRate LIS3MDL_DATARATE_155_HZ ;;;
    (* lowest range *)
    setRange LIS3MDL_RANGE_4_GAUSS ;;;
    setOperationMode LIS3MDL_CONTINUOUSMODE ;;;
    ret true.

(** [if (i2c_dev) delete i2c_dev; if (spi_dev) delete spi_dev;] *)
Definition delete_transports : M unit :=
  d <- get_this ;;
  match i2c_dev d with
  | Some dev => env (fun w => (tt, log [EvDelete_I2C dev] w))
  | None => ret tt
  end ;;;
  match spi_dev d with
  | Some dev => env (fun w => (tt, log [EvDelete_SPI dev] w))
  | None => ret tt
  end.

(** [bool Adafruit_LIS3MDL::begin_I2C(uint8_t i2c_address, TwoWire *wire)] *)
Definition begin_I2C (i2c_address : Z) (wire : Z) : M bool :=
  delete_transports ;;;
  set_this (set_spi_dev None) ;;;
  set_this (set_i2c_dev (Some (I2CDevice (uint8 i2c_address) wire))) ;;;
  ok <- env transport_begin ;;
  if negb ok then ret false
  else _init.

(** [boolean Adafruit_LIS3MDL::begin_SPI(uint8_t cs_pin, SPIClass *theSPI,
    uint32_t frequency)] *)
Definition begin_SPI (cs_pin : Z) (theSPI : Z) (frequency : Z) : M bool :=
  delete_transports ;;;
  set_this (set_i2c_dev None) ;;;
  set_this (set_spi_dev (Some (SPIDevice_hw (uint8 cs_pin)
                                 (uint32 frequency)     (* frequency *)
                                 SPI_BITORDER_MSBFIRST  (* bit order *)
                                 SPI_MODE0              (* data mode *)
                                 theSPI))) ;;;
  ok <- env transport_begin ;;
  if negb ok then ret false
  else _init.

(** [bool Adafruit_LIS3MDL::begin_SPI(int8_t cs_pin, int8_t sck_pin,
    int8_t miso_pin, int8_t mosi_pin, uint32_t frequency)] *)
Definition begin_SPI_soft (cs_pin sck_pin miso_pin mosi_pin : Z) (frequency : Z)
  : M bool :=
  delete_transports ;;;
  set_this (set_i2c_dev None) ;;;
  set_this (set_spi_dev (Some (SPIDevice_sw cs_pin sck_pin miso_pin mosi_pin
                                 (uint32 frequency)     (* frequency *)
                                 SPI_BITORDER_MSBFIRST  (* bit order *)
                                 SPI_MODE0))) ;;;       (* data mode *)
  ok <- env transport_begin ;;
  if negb ok then ret false
  else _init.


(* ------------------------------------------------------------------ *)
(** ** States reached on a working bus *)

(** After the one-byte register at [addr] was read and rewritten with [b]. *)
Definition wrote (addr b : Z) (s : Sys) : Sys :=
  on_world (fun w => with_regs (dev_write_byte addr b (regs w))
                       (log [EvRead addr 1 true; EvWrite addr [b] true] w)) s.

(** After a bit-field write: the register is read, the field replaced. *)
Definition wrote_field (addr bits shift data : Z) (s : Sys) : Sys :=
  wrote addr (uint8 (field_insert bits shift data (device_byte addr s))) s.

(** After [setPerformanceMode(mode)]. *)
Definition performance_set (mode : lis3mdl_performancemode_t) (s : Sys) : Sys :=
  wrote_field LIS3MDL_REG_CTRL_REG4 2 2 (performancemode_value mode)
    (wrote_field LIS3MDL_REG_CTRL_REG1 2 5 (performancemode_value mode) s).

(** The six bytes [read] and [readMagneticField] decode: the device's
    output registers when the transfer succeeds, what the uninitialised
    buffer held otherwise. *)
Definition sample_buffer (s : Sys) : list Z :=
  if transfer_ok s
  then dev_read LIS3MDL_REG_OUT_X_L 6 (regs (world s))
  else map (fun i => uint8 (nth i (garbage (world s)) 0)) (seq 0 6).

(** The state after the attempt to read the six output registers. *)
Definition after_sample_read (s : Sys) : Sys :=
  if bound (this s)
  then on_world (fun w =>
         log [EvRead LIS3MDL_REG_OUT_X_L 6 (fst (next_transfer (faults w)))]
             (with_faults (snd (next_transfer (faults w))) w)) s
  else s.

(** The decoding of [read]: [x = buffer[i]; x |= buffer[i + 1] << 8]. *)
Definition decode_sample (buffer : list Z) (i : nat) : Z :=
  int16 (Z.lor (int16 (nth i buffer 0)) (Z.shiftl (nth (S i) buffer 0) 8)).

(** The members after [read] decoded [buffer]. *)
Definition sample_stored (buffer : list Z) (d : Adafruit_LIS3MDL)
  : Adafruit_LIS3MDL :=
  let d1 := set_raw (decode_sample buffer 0) (decode_sample buffer 2)
                    (decode_sample buffer 4) d in
  let scale := Float32.of_int (lsb_per_gauss (rangeBuffered d1)) in
  set_gauss (Float32.div (Float32.of_int (x d1)) scale)
            (Float32.div (Float32.of_int (y d1)) scale)
            (Float32.div (Float32.of_int (z d1)) scale) d1.

(** After [len] bytes at [addr] were read. *)
Definition did_read (addr : Z) (len : nat) (s : Sys) : Sys :=
  on_world (log [EvRead addr len true]) s.

(** After [delay(ms)]. *)
Definition delayed (ms : Z) (s : Sys) : Sys :=
  on_world (fun w => log [EvDelay ms] (with_clock (clock w + ms) w)) s.

(** The first step of [_init]: the read of the identity register. *)
Definition chip_id_read : M Z :=
  chip_id <- Register LIS3MDL_REG_WHO_AM_I 1 ;;
  env (Register_read chip_id).

(** After [setRange(range)]. *)
Definition range_set (range : lis3mdl_range_t) (s : Sys) : Sys :=
  on_this (set_rangeBuffered range)
    (wrote_field LIS3MDL_REG_CTRL_REG2 2 5 (range_value range) s).

(** After [setDataRate(dataRate)]. *)
Definition dataRate_set (dataRate : lis3mdl_dataRate_t) (s : Sys) : Sys :=
  wrote_field LIS3MDL_REG_CTRL_REG1 4 1 (dataRate_value dataRate)
    (delayed 10
       match paired_mode dataRate with
       | Some mode => performance_set mode s
       | None => s
       end).

(** After the default configuration [_init] applies once the device was
    reset. *)
Definition defaults_set (s : Sys) : Sys :=
  wrote_field LIS3MDL_REG_CTRL_REG3 2 0
    (operationmode_value LIS3MDL_CONTINUOUSMODE)
    (range_set LIS3MDL_RANGE_4_GAUSS
       (dataRate_set LIS3MDL_DATARATE_155_HZ
          (performance_set LIS3MDL_ULTRAHIGHMODE s))).

(** After [reset()]. *)
Definition reset_done (s : Sys) : Sys :=
  let m := delayed 10 (wrote_field LIS3MDL_REG_CTRL_REG2 1 2 1 s) in
  on_this (set_rangeBuffered (device_range m))
    (did_read LIS3MDL_REG_CTRL_REG2 1 m).

(** What [_init] does after the identity check passed. *)
Definition configure : M bool :=
  reset ;;;
  setPerformanceMode LIS3MDL_ULTRAHIGHMODE ;;;
  setDataRate LIS3MDL_DATARATE_155_HZ ;;;
  setRange LIS3MDL_RANGE_4_GAUSS ;;;
  setOperationMode LIS3MDL_CONTINUOUSMODE ;;;
  ret true.

(** The bus operations of a successful [_init], in order. *)
Definition init_ops : list Op :=
  [OpRead LIS3MDL_REG_WHO_AM_I;
   (* reset *)
   OpRead LIS3MDL_REG_CTRL_REG2; OpWrite LIS3MDL_REG_CTRL_REG2; OpDelay 10;
   OpRead LIS3MDL_REG_CTRL_REG2;
   (* setPerformanceMode *)
   OpRead LIS3MDL_REG_CTRL_REG1; OpWrite LIS3MDL_REG_CTRL_REG1;
   OpRead LIS3MDL_REG_CTRL_REG4; OpWrite LIS3MDL_REG_CTRL_REG4;
   (* setDataRate *)
   OpRead LIS3MDL_REG_CTRL_REG1; OpWrite LIS3MDL_REG_CTRL_REG1;
   OpRead LIS3MDL_REG_CTRL_REG4; OpWrite LIS3MDL_REG_CTRL_REG4;
   OpDelay 10;
   OpRead LIS3MDL_REG_CTRL_REG1; OpWrite LIS3MDL_REG_CTRL_REG1;
   (* setRange *)
   OpRead LIS3MDL_REG_CTRL_REG2; OpWrite LIS3MDL_REG_CTRL_REG2;
   (* setOperationMode *)
   OpRead LIS3MDL_REG_CTRL_REG3; OpWrite LIS3MDL_REG_CTRL_REG3].

(** What a bind on a working bus leaves, from state [s] to result [r]: it
    succeeds exactly when the identity register holds 0x3D; then the
    device and the cache are at 4 gauss and the next [read] divides by
    6842; otherwise the driver stays bound to a device it did not
    configure, with the range cache it had. *)
Definition brought_up (s : Sys) (r : bool * Sys) : Prop :=
  let s1 := snd r in
  let d := this (snd (read s1)) in
  fst r = (device_byte LIS3MDL_REG_WHO_AM_I s =? 0x3D)
  /\ ready s1
  /\ (if device_byte LIS3MDL_REG_WHO_AM_I s =? 0x3D
      then rangeBuffered (this s1) = LIS3MDL_RANGE_4_GAUSS
           /\ device_range s1 = LIS3MDL_RANGE_4_GAUSS
           /\ x_gauss d = Float32.div (Float32.of_int (x d)) (Float32.of_int 6842)
           /\ y_gauss d = Float32.div (Float32.of_int (y d)) (Float32.of_int 6842)
           /\ z_gauss d = Float32.div (Float32.of_int (z d)) (Float32.of_int 6842)
      else regs (world s1) = regs (world s)
           /\ rangeBuffered (this s1) = rangeBuffered (this s)).

(* ------------------------------------------------------------------ *)
(** ** Bit-field arithmetic *)

Lemma field_mask_ones bits : field_mask bits = Z.ones bits.
Proof. unfold field_mask. rewrite Z.ones_equiv, Z.shiftl_1_l. lia. Qed.

Ltac field_unfold :=
  unfold field_extract, field_insert, uint8, uint32;
  rewrite ?field_mask_ones;
  change 0xFF with (Z.ones 8); change 0xFFFFFFFF with (Z.ones 32).

Ltac field_blast := field_unfold; Z.bitblast.
Ltac field_bit := field_unfold; Z.bitblast_core.

Lemma field_extract_insert bits shift data val :
  0 <= shift -> 0 <= bits -> shift + bits <= 8 ->
  field_extract bits shift (uint8 (field_insert bits shift data val))
  = Z.land data (field_mask bits).
Proof. intros. field_blast. Qed.

Lemma field_extract_insert_other bits shift bits' shift' data val :
  0 <= shift -> 0 <= bits -> 0 <= shift' -> 0 <= bits' ->
  shift' + bits' <= 8 ->
  shift' + bits' <= shift \/ shift + bits <= shift' ->
  field_extract bits' shift' (uint8 (field_insert bits shift data val))
  = field_extract bits' shift' val.
Proof. intros. field_blast. Qed.

Lemma testbit_insert_other bits shift data val n :
  0 <= shift -> 0 <= bits -> 0 <= n < 8 ->
  n < shift \/ shift + bits <= n ->
  Z.testbit (uint8 (field_insert bits shift data val)) n = Z.testbit val n.
Proof. intros. field_bit. Qed.

Lemma testbit_insert_same bits shift data val n :
  0 <= shift -> 0 <= bits -> shift + bits <= 8 -> shift <= n < shift + bits ->
  Z.testbit (uint8 (field_insert bits shift data val)) n
  = Z.testbit data (n - shift).
Proof. intros. field_bit. Qed.

Lemma uint8_idem v : uint8 (uint8 v) = uint8 v.
Proof. unfold uint8. change 0xFF with (Z.ones 8). Z.bitblast. Qed.

Lemma uint8_range v : 0 <= uint8 v < 256.
Proof.
  unfold uint8. change 0xFF with (Z.ones 8). rewrite Z.land_ones by lia.
  apply Z.mod_pos_bound. reflexivity.
Qed.

(* ------------------------------------------------------------------ *)
(** ** The bus layer on a working bus *)

Lemma le_value_single b : le_value [b] = b.
Proof. simpl. apply Z.lor_0_r. Qed.

Lemma with_faults_nil w : faults w = [] -> with_faults [] w = w.
Proof. destruct w; simpl; intros ->; reflexivity. Qed.

Lemma log_log evs evs' w : log evs' (log evs w) = log (evs ++ evs') w.
Proof. unfold log; simpl. now rewrite app_assoc. Qed.

Lemma Register_read_ready (r : Adafruit_BusIO_Register) w :
  has_transport r = true -> faults w = [] -> reg_width r = 1%nat ->
  Register_read r w
  = (uint8 (regs w (reg_address r)), log [EvRead (reg_address r) 1 true] w).
Proof.
  intros Ht Hf Hw. unfold Register_read, Register_read_buffer, transfer_read.
  rewrite Ht, Hw, Hf. cbn [next_transfer].
  rewrite with_faults_nil by assumption.
  unfold dev_read. cbn [seq map]. rewrite le_value_single.
  now rewrite Z.add_0_r.
Qed.

Lemma Register_write_ready (r : Adafruit_BusIO_Register) v w :
  has_transport r = true -> faults w = [] -> reg_width r = 1%nat ->
  Register_write r v w
  = (true, with_regs (dev_write_byte (reg_address r) (uint8 v) (regs w))
             (log [EvWrite (reg_address r) [uint8 v] true] w)).
Proof.
  intros Ht Hf Hw. unfold Register_write, transfer_write.
  rewrite Ht, Hw, Hf. cbn [next_transfer le_bytes dev_write].
  now rewrite with_faults_nil by assumption.
Qed.

Lemma env_RegisterBits_read r bits shift s :
  has_transport r = true -> reg_width r = 1%nat -> faults (world s) = [] ->
  env (RegisterBits_read (RegisterBits r bits shift)) s
  = (device_field (reg_address r) bits shift s, did_read (reg_address r) 1 s).
Proof.
  intros Hb Hw Hf. unfold env, RegisterBits_read, RegisterBits.
  cbn [bits_register bits_bits bits_shift].
  rewrite Register_read_ready by assumption.
  reflexivity.
Qed.

Lemma env_RegisterBits_write r bits shift data s :
  has_transport r = true -> reg_width r = 1%nat -> faults (world s) = [] ->
  env (RegisterBits_write (RegisterBits r bits shift) data) s
  = (true, wrote_field (reg_address r) bits shift data s).
Proof.
  intros Hb Hw Hf. unfold env, RegisterBits_write, RegisterBits.
  cbn [bits_register bits_bits bits_shift].
  rewrite Register_read_ready by assumption.
  rewrite Register_write_ready by assumption.
  unfold wrote_field, wrote, on_world, device_byte.
  rewrite log_log. reflexivity.
Qed.

Lemma ready_wrote addr b s : ready s -> ready (wrote addr b s).
Proof. intros [? ?]; split; assumption. Qed.

Lemma ready_wrote_field addr bits shift data s :
  ready s -> ready (wrote_field addr bits shift data s).
Proof. apply ready_wrote. Qed.

Lemma ready_did_read addr len s : ready s -> ready (did_read addr len s).
Proof. intros [? ?]; split; assumption. Qed.

Lemma ready_delayed ms s : ready s -> ready (delayed ms s).
Proof. intros [? ?]; split; assumption. Qed.

Lemma ready_on_this_range r s : ready s -> ready (on_this (set_rangeBuffered r) s).
Proof. intros [? ?]; split; assumption. Qed.

Lemma delay_eq ms s : delay ms s = (tt, delayed ms s).
Proof. reflexivity. Qed.

Create HintDb ready.
#[local] Hint Resolve ready_wrote ready_wrote_field ready_did_read ready_delayed
  ready_on_this_range : ready.

(** *** Member functions on a working bus *)

Ltac ready_side :=
  first [ reflexivity
        | match goal with
          | H : ready _ |- _ => first [ exact (proj1 H) | exact (proj2 H) ]
          end ].

Ltac start :=
  cbv beta iota zeta delta [bind Register get_this set_this ret when].

Ltac step :=
  first [ rewrite delay_eq
        | rewrite env_RegisterBits_write by ready_side
        | rewrite env_RegisterBits_read by ready_side ];
  cbv beta iota zeta delta [reg_address].

Lemma setRange_ready range s :
  ready s ->
  setRange range s
  = (tt, on_this (set_rangeBuffered range)
           (wrote_field LIS3MDL_REG_CTRL_REG2 2 5 (range_value range) s)).
Proof. intros H. unfold setRange. start. step. reflexivity. Qed.

Lemma getRange_ready s :
  ready s ->
  getRange s
  = (device_range s,
     on_this (set_rangeBuffered (device_range s))
       (did_read LIS3MDL_REG_CTRL_REG2 1 s)).
Proof. intros H. unfold getRange. start. step. reflexivity. Qed.

Lemma setPerformanceMode_ready mode s :
  ready s ->
  setPerformanceMode mode s
  = (tt, performance_set mode s).
Proof. intros H. unfold setPerformanceMode. start. step. step. reflexivity. Qed.


Lemma getPerformanceMode_ready s :
  ready s ->
  getPerformanceMode s
  = (performancemode_of_value (device_performance_xy s),
     did_read LIS3MDL_REG_CTRL_REG1 1 s).
Proof. intros H. unfold getPerformanceMode. start. step. reflexivity. Qed.

Lemma getDataRate_ready s :
  ready s ->
  getDataRate s = (device_dataRate s, did_read LIS3MDL_REG_CTRL_REG1 1 s).
Proof. intros H. unfold getDataRate. start. step. reflexivity. Qed.

Lemma setOperationMode_ready mode s :
  ready s ->
  setOperationMode mode s
  = (tt, wrote_field LIS3MDL_REG_CTRL_REG3 2 0 (operationmode_value mode) s).
Proof. intros H. unfold setOperationMode. start. step. reflexivity. Qed.

Lemma getOperationMode_ready s :
  ready s ->
  getOperationMode s = (device_operationmode s, did_read LIS3MDL_REG_CTRL_REG3 1 s).
Proof. intros H. unfold getOperationMode. start. step. reflexivity. Qed.

Lemma reset_ready s :
  ready s ->
  reset s
  = (tt, snd (getRange (delayed 10 (wrote_field LIS3MDL_REG_CTRL_REG2 1 2 1 s)))).
Proof.
  intros H. unfold reset. start. step. step.
  rewrite getRange_ready by auto with ready. reflexivity.
Qed.

(** The state after the rate field was written. *)
Lemma setDataRate_tail dataRate s :
  ready s ->
  (delay 10 ;;;
   CTRL_REG1 <- Register LIS3MDL_REG_CTRL_REG1 1 ;;
   env (RegisterBits_write (RegisterBits CTRL_REG1 4 1) (dataRate_value dataRate)) ;;;
   ret tt) s
  = (tt, wrote_field LIS3MDL_REG_CTRL_REG1 4 1 (dataRate_value dataRate)
           (delayed 10 s)).
Proof. intros H. start. step. step. reflexivity. Qed.


Lemma ready_performance_set mode s : ready s -> ready (performance_set mode s).
Proof. intros [? ?]; split; assumption. Qed.

#[local] Hint Resolve ready_performance_set : ready.

Lemma setDataRate_ready dataRate s :
  ready s ->
  setDataRate dataRate s
  = (tt, wrote_field LIS3MDL_REG_CTRL_REG1 4 1 (dataRate_value dataRate)
           (delayed 10
              match paired_mode dataRate with
              | Some mode => performance_set mode s
              | None => s
              end)).
Proof.
  intros H. rewrite <- setDataRate_tail by (destruct dataRate; auto with ready).
  unfold setDataRate.
  destruct dataRate; cbv [dataRate_eqb dataRate_value Z.eqb Pos.eqb when paired_mode];
    unfold bind at 1 2 3 4; cbv beta iota delta [ret];
    rewrite ?setPerformanceMode_ready by exact H; reflexivity.
Qed.


(* ------------------------------------------------------------------ *)
(** ** What the device holds after a write *)

Lemma regs_wrote a b s :
  quiet a b = true ->
  regs (world (wrote a b s)) = store a b (regs (world s)).
Proof.
  unfold quiet, wrote, on_world, dev_write_byte; cbn [world regs with_regs].
  intros Hq. apply negb_true_iff in Hq. now rewrite Hq.
Qed.

Lemma device_byte_wrote_same a b s :
  quiet a b = true -> device_byte a (wrote a b s) = uint8 b.
Proof.
  intros Hq. unfold device_byte. rewrite regs_wrote by assumption.
  unfold store. now rewrite Z.eqb_refl.
Qed.

Lemma device_byte_wrote_other a a' b s :
  quiet a b = true -> a' <> a ->
  device_byte a' (wrote a b s) = device_byte a' s.
Proof.
  intros Hq Hne. unfold device_byte. rewrite regs_wrote by assumption.
  unfold store. apply Z.eqb_neq in Hne. now rewrite Hne.
Qed.

Lemma device_field_wrote_field a bits shift data s :
  quiet a (uint8 (field_insert bits shift data (device_byte a s))) = true ->
  0 <= shift -> 0 <= bits -> shift + bits <= 8 ->
  device_field a bits shift (wrote_field a bits shift data s)
  = Z.land data (field_mask bits).
Proof.
  intros Hq Hs Hb Hw. unfold device_field, wrote_field.
  rewrite device_byte_wrote_same, uint8_idem by assumption.
  now apply field_extract_insert.
Qed.

Lemma device_field_wrote_field_disjoint a bits shift bits' shift' data s :
  quiet a (uint8 (field_insert bits shift data (device_byte a s))) = true ->
  0 <= shift -> 0 <= bits -> 0 <= shift' -> 0 <= bits' ->
  shift' + bits' <= 8 ->
  shift' + bits' <= shift \/ shift + bits <= shift' ->
  device_field a bits' shift' (wrote_field a bits shift data s)
  = device_field a bits' shift' s.
Proof.
  intros Hq ? ? ? ? ? ?. unfold device_field, wrote_field.
  rewrite device_byte_wrote_same, uint8_idem by assumption.
  now apply field_extract_insert_other.
Qed.

Lemma device_field_wrote_field_other a a' bits shift bits' shift' data s :
  quiet a (uint8 (field_insert bits shift data (device_byte a s))) = true ->
  a' <> a ->
  device_field a' bits' shift' (wrote_field a bits shift data s)
  = device_field a' bits' shift' s.
Proof.
  intros Hq Hne. unfold device_field, wrote_field.
  now rewrite device_byte_wrote_other by assumption.
Qed.

Lemma quiet_range_write data s :
  reset_idle s ->
  quiet LIS3MDL_REG_CTRL_REG2
    (uint8 (field_insert 2 5 data (device_byte LIS3MDL_REG_CTRL_REG2 s))) = true.
Proof.
  intros Hidle. unfold quiet. rewrite Z.eqb_refl. cbn [andb].
  rewrite testbit_insert_other by lia. unfold reset_idle in Hidle.
  now rewrite Hidle.
Qed.

Lemma range_roundtrip r :
  range_of_value (Z.land (range_value r) (field_mask 2)) = r.
Proof. destruct r; reflexivity. Qed.

Lemma performancemode_value_masked mode :
  Z.land (performancemode_value mode) (field_mask 2) = performancemode_value mode.
Proof. destruct mode; reflexivity. Qed.

Lemma dataRate_value_masked r :
  Z.land (dataRate_value r) (field_mask 4) = dataRate_value r.
Proof. destruct r; reflexivity. Qed.

(** The two performance-mode fields after [setPerformanceMode]. *)
Lemma performance_set_fields mode s :
  device_performance_xy (performance_set mode s) = performancemode_value mode
  /\ device_performance_z (performance_set mode s) = performancemode_value mode.
Proof.
  unfold device_performance_xy, device_performance_z, performance_set. split.
  - rewrite device_field_wrote_field_other by (reflexivity || discriminate).
    rewrite device_field_wrote_field by (reflexivity || lia).
    apply performancemode_value_masked.
  - rewrite device_field_wrote_field by (reflexivity || lia).
    apply performancemode_value_masked.
Qed.


Lemma added_performance_set mode s :
  exists b1 b4,
    added s (performance_set mode s)
      [EvRead LIS3MDL_REG_CTRL_REG1 1 true; EvWrite LIS3MDL_REG_CTRL_REG1 [b1] true;
       EvRead LIS3MDL_REG_CTRL_REG4 1 true; EvWrite LIS3MDL_REG_CTRL_REG4 [b4] true]
    /\ field_extract 2 5 b1 = performancemode_value mode
    /\ field_extract 2 2 b4 = performancemode_value mode.
Proof.
  eexists _, _. split; [|split].
  - unfold added, performance_set, wrote_field, wrote, on_world.
    cbn [world trace log with_regs]. rewrite <- app_assoc. reflexivity.
  - rewrite field_extract_insert by lia. apply performancemode_value_masked.
  - rewrite field_extract_insert by lia. apply performancemode_value_masked.
Qed.

(* ------------------------------------------------------------------ *)
(** ** Performance mode *)

(** C6. For every performance mode, on a working bus, [setPerformanceMode]
    rewrites control register 1 and control register 4 so that the two-bit
    field at offset 5 of the first (X/Y) and the two-bit field at offset 2
    of the second (Z) both hold the mode's value; [getPerformanceMode]
    reads control register 1 only and returns its X/Y field, so after
    [setPerformanceMode m] the two fields on the device are identical and
    [getPerformanceMode] returns [m]. *)
Theorem setPerformanceMode_keeps_fields_identical
  (mode : lis3mdl_performancemode_t) (s : Sys) :
  ready s ->
  let s' := snd (setPerformanceMode mode s) in
  (exists b1 b4,
      added s s'
        [EvRead LIS3MDL_REG_CTRL_REG1 1 true; EvWrite LIS3MDL_REG_CTRL_REG1 [b1] true;
         EvRead LIS3MDL_REG_CTRL_REG4 1 true; EvWrite LIS3MDL_REG_CTRL_REG4 [b4] true]
      /\ field_extract 2 5 b1 = performancemode_value mode
      /\ field_extract 2 2 b4 = performancemode_value mode)
  /\ device_performance_xy s' = performancemode_value mode
  /\ device_performance_z s' = performancemode_value mode
  /\ device_performance_xy s' = device_performance_z s'
  /\ fst (getPerformanceMode s') = mode
  /\ added s' (snd (getPerformanceMode s')) [EvRead LIS3MDL_REG_CTRL_REG1 1 true]
  /\ (forall t : Sys, ready t ->
        fst (getPerformanceMode t)
        = performancemode_of_value (device_performance_xy t)).
Proof.
  intros H s'. subst s'. rewrite setPerformanceMode_ready by assumption.
  cbn [snd]. destruct (performance_set_fields mode s) as [Hxy Hz].
  split; [apply added_performance_set|].
  split; [exact Hxy|]. split; [exact Hz|]. split; [congruence|].
  rewrite getPerformanceMode_ready by auto with ready. cbn [fst snd].
  split; [|split].
  - rewrite Hxy. destruct mode; reflexivity.
  - reflexivity.
  - intros t Ht. now rewrite getPerformanceMode_ready.
Qed.


(* ------------------------------------------------------------------ *)
(** ** Data rate *)

(** The state after the rate field was written, seen from [m], the state
    before the settling delay. *)
Lemma rate_written rate m :
  let s' := wrote_field LIS3MDL_REG_CTRL_REG1 4 1 (dataRate_value rate)
              (delayed 10 m) in
  device_dataRate s' = dataRate_value rate
  /\ device_performance_xy s' = device_performance_xy m
  /\ device_performance_z s' = device_performance_z m
  /\ clock (world s') = clock (world m) + 10
  /\ exists b,
      added m s' [EvDelay 10; EvRead LIS3MDL_REG_CTRL_REG1 1 true;
                  EvWrite LIS3MDL_REG_CTRL_REG1 [b] true]
      /\ field_extract 4 1 b = dataRate_value rate.
Proof.
  intros s'. subst s'.
  unfold device_dataRate, device_performance_xy, device_performance_z.
  split; [|split; [|split; [|split]]].
  - rewrite device_field_wrote_field by (reflexivity || lia).
    apply dataRate_value_masked.
  - rewrite device_field_wrote_field_disjoint by (reflexivity || lia).
    reflexivity.
  - rewrite device_field_wrote_field_other by (reflexivity || discriminate).
    reflexivity.
  - reflexivity.
  - eexists. split.
    + unfold added, wrote_field, wrote, delayed, on_world.
      cbn [world trace log with_regs with_clock]. rewrite <- app_assoc.
      reflexivity.
    + rewrite field_extract_insert by lia. apply dataRate_value_masked.
Qed.

Lemma added_app s m s' evs evs' :
  added s m evs -> added m s' evs' -> added s s' (evs ++ evs').
Proof. unfold added. intros H1 H2. now rewrite H2, H1, app_assoc. Qed.

Lemma added_nil s : added s s [].
Proof. unfold added. now rewrite app_nil_r. Qed.

(** C2. For every data rate, on a working bus: [setDataRate] first runs
    [setPerformanceMode] with the paired mode when the rate is one of the
    four fast-ODR rates (155 Hz with ultra-high, 300 Hz with high, 560 Hz
    with medium, 1000 Hz with low power), so that [getPerformanceMode]
    then returns the paired mode; for the other eight rates nothing is
    written before the delay and both performance-mode fields are left as
    they were; in both cases [delay(10)] comes before the read-modify-write
    that leaves the rate's value, unchanged, in the four-bit field at
    offset 1 of control register 1. *)
Theorem setDataRate_sets_paired_mode (dataRate : lis3mdl_dataRate_t) (s : Sys) :
  ready s ->
  let s' := snd (setDataRate dataRate s) in
  exists (evs : list Event) (b : Z),
    added s s' (evs ++ [EvDelay 10; EvRead LIS3MDL_REG_CTRL_REG1 1 true;
                        EvWrite LIS3MDL_REG_CTRL_REG1 [b] true])
    /\ clock (world s') = clock (world s) + 10
    /\ field_extract 4 1 b = dataRate_value dataRate
    /\ device_dataRate s' = dataRate_value dataRate
    /\ fst (getDataRate s') = dataRate_value dataRate
    /\ match paired_mode dataRate with
       | Some mode =>
           map op_of evs
           = [OpRead LIS3MDL_REG_CTRL_REG1; OpWrite LIS3MDL_REG_CTRL_REG1;
              OpRead LIS3MDL_REG_CTRL_REG4; OpWrite LIS3MDL_REG_CTRL_REG4]
           /\ fst (getPerformanceMode s') = mode
           /\ device_performance_xy s' = performancemode_value mode
           /\ device_performance_z s' = performancemode_value mode
       | None =>
           evs = []
           /\ fst (getPerformanceMode s') = fst (getPerformanceMode s)
           /\ device_performance_xy s' = device_performance_xy s
           /\ device_performance_z s' = device_performance_z s
       end.
Proof.
  intros H s'. subst s'. rewrite setDataRate_ready by assumption. cbn [snd].
  set (m := match paired_mode dataRate with
            | Some mode => performance_set mode s
            | None => s
            end).
  assert (Hm : ready m) by (subst m; destruct (paired_mode dataRate); auto with ready).
  destruct (rate_written dataRate m) as (Hrate & Hxy & Hz & Hclock & b & Hadd & Hb).
  set (s' := wrote_field _ _ _ _ _) in *.
  assert (Hs' : ready s') by (subst s'; auto with ready).
  clearbody s'.
  assert (Hpre : exists evs, added s m evs /\ clock (world m) = clock (world s)
            /\ match paired_mode dataRate with
               | Some mode =>
                   map op_of evs
                   = [OpRead LIS3MDL_REG_CTRL_REG1; OpWrite LIS3MDL_REG_CTRL_REG1;
                      OpRead LIS3MDL_REG_CTRL_REG4; OpWrite LIS3MDL_REG_CTRL_REG4]
               | None => evs = []
               end).
  { subst m. destruct (paired_mode dataRate) as [mode|].
    - destruct (added_performance_set mode s) as (b1 & b4 & Ha & _).
      eexists. split; [exact Ha|]. split; reflexivity.
    - exists []. split; [apply added_nil|]. split; reflexivity. }
  destruct Hpre as (evs & Hevs & Hclk & Hshape).
  exists evs, b.
  split; [eapply added_app; eassumption|].
  split; [congruence|]. split; [exact Hb|]. split; [exact Hrate|].
  split; [rewrite getDataRate_ready by assumption; exact Hrate|].
  rewrite getPerformanceMode_ready by assumption. cbn [fst].
  subst m. destruct (paired_mode dataRate) as [mode|].
  - destruct (performance_set_fields mode s) as [Hpxy Hpz].
    split; [exact Hshape|]. rewrite Hxy, Hz, Hpxy, Hpz.
    split; [destruct mode; reflexivity|]. split; reflexivity.
  - split; [exact Hshape|].
    rewrite getPerformanceMode_ready by assumption. cbn [fst].
    rewrite Hxy. split; [reflexivity|]. split; [reflexivity|assumption].
Qed.


(* ------------------------------------------------------------------ *)
(** ** Reading a sample *)

Lemma sample_read_eq s :
  (buffer <- local_buffer 6 ;;
   XYZDataReg <- Register LIS3MDL_REG_OUT_X_L 6 ;;
   read_into XYZDataReg buffer 6) s
  = ((transfer_ok s, sample_buffer s), after_sample_read s).
Proof.
  unfold transfer_ok, sample_buffer, transfer_ok, after_sample_read, bound,
    on_world.
  cbv beta iota zeta delta [bind Register get_this ret local_buffer read_into env
                            Register_read_buffer has_transport transfer_read
                            reg_i2cdevice reg_spidevice reg_address].
  destruct s as [d w]; cbn [this world].
  destruct (i2c_dev d), (spi_dev d);
    destruct (next_transfer (faults w)) as [[|] f'];
    reflexivity.
Qed.

Lemma read_eq s :
  read s = (tt, on_this (sample_stored (sample_buffer s)) (after_sample_read s)).
Proof.
  pose proof (sample_read_eq s) as E. unfold read.
  cbv beta iota zeta delta [bind] in E |- *. 
  destruct (local_buffer 6 s) as [buffer s1].
  destruct (Register LIS3MDL_REG_OUT_X_L 6 s1) as [r s2].
  rewrite E. cbv beta iota zeta delta [snd set_this get_this].
  unfold on_this, sample_stored. cbn [this world rangeBuffered set_raw].
  destruct (rangeBuffered (this (after_sample_read s))); reflexivity.
Qed.


(* ------------------------------------------------------------------ *)
(** ** The two conversions, checked on every sixteen-bit sample *)

Lemma all_from_spec n start P :
  all_from n start P = true ->
  forall v, start <= v < start + Z.of_nat n -> P v = true.
Proof.
  revert start. induction n as [|n IH]; intros start Hall v Hv.
  - simpl in Hv. lia.
  - cbn [all_from] in Hall. destruct (P start) eqn:E; [|discriminate].
    destruct (Z.eq_dec v start) as [->|Hne]; [exact E|].
    apply (IH (start + 1) Hall). lia.
Qed.

(** *** Sign symmetry

    The sign of a [float] result is computed apart from its magnitude, so
    each conversion commutes with negation and the check of a negative
    sample is the check of its opposite. *)

Lemma binary_round_aux_opp prec emax s m e l :
  binary_round_aux prec emax (negb s) m e l
  = SFopp (binary_round_aux prec emax s m e l).
Proof.
  unfold binary_round_aux.
  destruct (shr_fexp prec emax m e l) as [mrs' e'].
  destruct (shr_fexp prec emax _ e' loc_Exact) as [mrs'' e''].
  destruct (shr_m mrs''); [reflexivity| |reflexivity].
  destruct (e'' <=? emax - prec); reflexivity.
Qed.

Lemma binary_round_opp prec emax s m e :
  binary_round prec emax (negb s) m e = SFopp (binary_round prec emax s m e).
Proof.
  unfold binary_round.
  destruct (shl_align m e _) as [mz ez]. apply binary_round_aux_opp.
Qed.

Lemma SFopp_involutive f : SFopp (SFopp f) = f.
Proof. destruct f; cbn [SFopp]; rewrite ?negb_involutive; reflexivity. Qed.

Lemma binary_normalize_opp prec emax n e :
  n <> 0 ->
  binary_normalize prec emax (- n) e false
  = SFopp (binary_normalize prec emax n e false).
Proof.
  intros Hn. destruct n as [|p|p]; [congruence| |]; cbn [Z.opp binary_normalize].
  - apply (binary_round_opp prec emax false).
  - rewrite (binary_round_opp prec emax false). cbn [negb].
    now rewrite SFopp_involutive.
Qed.

Lemma SFdiv_opp_l prec emax a b :
  SFdiv prec emax (SFopp a) b = SFopp (SFdiv prec emax a b).
Proof.
  destruct a as [sa|sa| |sa ma ea], b as [sb|sb| |sb mb eb];
    cbn [SFopp SFdiv]; rewrite <- ?negb_xorb_l; try reflexivity.
  destruct (SFdiv_core_binary _ _ _ _ _ _) as [[mz ez] lz].
  apply binary_round_aux_opp.
Qed.

Lemma SFmul_opp_l prec emax a b :
  SFmul prec emax (SFopp a) b = SFopp (SFmul prec emax a b).
Proof.
  destruct a as [sa|sa| |sa ma ea], b as [sb|sb| |sb mb eb];
    cbn [SFopp SFmul]; rewrite <- ?negb_xorb_l; try reflexivity.
  apply binary_round_aux_opp.
Qed.

Lemma of_double_opp d : Float32.of_double (SFopp d) = SFopp (Float32.of_double d).
Proof.
  destruct d as [s|s| |s m e]; try reflexivity.
  unfold Float32.of_double. cbn [SFopp].
  destruct s; cbn [negb cond_Zopp Z.opp binary_normalize].
  - rewrite (binary_round_opp _ _ false). cbn [negb].
    now rewrite SFopp_involutive.
  - apply (binary_round_opp _ _ false).
Qed.

Lemma gauss_of_raw_opp r raw :
  raw <> 0 -> gauss_of_raw r (- raw) = SFopp (gauss_of_raw r raw).
Proof.
  intros H. unfold gauss_of_raw, Float32.div, Float32.of_int.
  rewrite binary_normalize_opp by assumption. apply SFdiv_opp_l.
Qed.

Lemma field_of_raw_opp raw :
  raw <> 0 -> field_of_raw (- raw) = SFopp (field_of_raw raw).
Proof.
  intros H. unfold field_of_raw, Float64.div, Float64.mul, Float64.of_int.
  rewrite binary_normalize_opp by assumption.
  rewrite !SFmul_opp_l, SFdiv_opp_l. apply of_double_opp.
Qed.

Lemma field_of_raw_avr_opp raw :
  raw <> 0 -> field_of_raw_avr (- raw) = SFopp (field_of_raw_avr raw).
Proof.
  intros H. unfold field_of_raw_avr, Float32.div, Float32.mul, Float32.of_int.
  rewrite binary_normalize_opp by assumption.
  rewrite !SFmul_opp_l. apply SFdiv_opp_l.
Qed.

Lemma sf_eqb_opp a b : sf_eqb (SFopp a) (SFopp b) = sf_eqb a b.
Proof.
  destruct a as [sa|sa| |sa ma ea], b as [sb|sb| |sb mb eb];
    cbn [SFopp sf_eqb]; try reflexivity;
    destruct sa, sb; reflexivity.
Qed.

Lemma SF2Q_opp f : SF2Q (SFopp f) = option_map Qopp (SF2Q f).
Proof.
  destruct f as [s|s| |s m e]; try reflexivity.
  cbn [SFopp SF2Q option_map].
  assert (E : cond_Zopp (negb s) (Zpos m) = - cond_Zopp s (Zpos m))
    by (destruct s; reflexivity).
  rewrite E. destruct (0 <=? e); unfold Qopp; cbn [Qnum Qden];
    [rewrite Z.mul_opp_l|]; reflexivity.
Qed.

Lemma denotesb_opp f n d : denotesb (SFopp f) (- n # d) = denotesb f (n # d).
Proof.
  unfold denotesb. rewrite SF2Q_opp.
  destruct (SF2Q f) as [q|]; [|reflexivity]. cbn [option_map].
  apply eq_true_iff_eq. rewrite !Qeq_bool_iff.
  change (- n # d)%Q with (- (n # d))%Q.
  split; intros H; [apply Qopp_comp in H; now rewrite !Qopp_involutive in H
                   |now rewrite H].
Qed.

Lemma withinb_opp f n d tol :
  withinb (SFopp f) (- n # d) tol = withinb f (n # d) tol.
Proof.
  unfold withinb. rewrite SF2Q_opp.
  destruct (SF2Q f) as [q|]; [|reflexivity]. cbn [option_map].
  apply eq_true_iff_eq. rewrite !Qle_bool_iff.
  change (- n # d)%Q with (- (n # d))%Q.
  assert (E : (- q - - (n # d) == - (q - (n # d)))%Q) by ring.
  rewrite E, Qabs_opp. reflexivity.
Qed.

Lemma forallb_eq {A : Type} (f g : A -> bool) (l : list A) :
  (forall a, f a = g a) -> forallb f l = forallb g l.
Proof.
  intros H. induction l as [|a l IH]; [reflexivity|].
  cbn [forallb]. now rewrite H, IH.
Qed.

Lemma conversions_check_opp raw :
  conversions_check (- raw) = conversions_check raw.
Proof.
  destruct (Z.eq_dec raw 0) as [->|Hnz]; [reflexivity|].
  unfold conversions_check. cbv zeta.
  rewrite field_of_raw_opp, field_of_raw_avr_opp by assumption.
  rewrite sf_eqb_opp.
  replace (- raw * 4 * 100) with (- (raw * 4 * 100)) by ring.
  rewrite denotesb_opp.
  f_equal. apply forallb_eq. intros r.
  rewrite gauss_of_raw_opp, withinb_opp, sf_eqb_opp, Z.abs_opp by assumption.
  f_equal. f_equal. destruct raw; reflexivity.
Qed.

(** *** The sweep over the magnitudes *)

Lemma conversions_checked :
  all_from (Z.to_nat 32769) 0 conversions_check = true.
Proof. vm_cast_no_check (eq_refl true). Qed.


Lemma int16_range v : -32768 <= int16 v <= 32767.
Proof.
  unfold int16, uint16. change 0xFFFF with (Z.ones 16).
  rewrite Z.land_ones by lia.
  pose proof (Z.mod_pos_bound v (2 ^ 16) ltac:(reflexivity)) as Hb.
  change (2 ^ 16) with 65536 in *.
  destruct (Z.ltb_spec (v mod 65536) 0x8000); lia.
Qed.

Lemma conversions_int16 raw :
  -32768 <= raw <= 32767 -> conversions_check raw = true.
Proof.
  intros H.
  assert (Hpos : forall v, 0 <= v <= 32768 -> conversions_check v = true).
  { intros v Hv. apply (all_from_spec _ _ _ conversions_checked).
    rewrite Z2Nat.id by lia. lia. }
  destruct (Z.le_gt_cases 0 raw) as [Hle|Hlt].
  - apply Hpos. lia.
  - rewrite <- (Z.opp_involutive raw), conversions_check_opp. apply Hpos. lia.
Qed.

Lemma denotesb_denotes f q : denotesb f q = true -> denotes f q.
Proof.
  unfold denotesb, denotes. destruct (SF2Q f); [|discriminate].
  apply Qeq_bool_iff.
Qed.

Lemma withinb_within f q tol : withinb f q tol = true -> within f q tol.
Proof.
  unfold withinb, within. destruct (SF2Q f); [|discriminate].
  apply Qle_bool_iff.
Qed.

Lemma sf_eqb_refl f : sf_eqb f f = true.
Proof.
  destruct f; cbn [sf_eqb]; rewrite ?Bool.eqb_reflx, ?Pos.eqb_refl, ?Z.eqb_refl;
    reflexivity.
Qed.

(** [data * 4.0 * 100.0 / 32768.0] is computed without rounding. *)
Lemma field_conversion_exact raw :
  -32768 <= raw <= 32767 ->
  denotes (field_of_raw raw) (raw * 4 * 100 # 32768).
Proof.
  intros H. pose proof (conversions_int16 raw H) as Hc.
  unfold conversions_check in Hc. rewrite !andb_true_iff in Hc.
  apply denotesb_denotes, Hc.
Qed.

Lemma sf_eqb_eq a b : sf_eqb a b = true -> a = b.
Proof.
  destruct a as [s | s | | s m e], b as [s' | s' | | s' m' e'];
    cbn [sf_eqb]; try discriminate; try reflexivity.
  - intros H. apply Bool.eqb_prop in H. now subst.
  - intros H. apply Bool.eqb_prop in H. now subst.
  - rewrite !andb_true_iff. intros [[Hs Hm] He].
    apply Bool.eqb_prop in Hs. apply Pos.eqb_eq in Hm. apply Z.eqb_eq in He.
    now subst.
Qed.

(** The width of [double] does not matter to [readMagneticField]. *)
Lemma field_conversion_same_on_avr raw :
  -32768 <= raw <= 32767 -> field_of_raw_avr raw = field_of_raw raw.
Proof.
  intros H. pose proof (conversions_int16 raw H) as Hc.
  unfold conversions_check in Hc. rewrite !andb_true_iff in Hc.
  apply sf_eqb_eq, Hc.
Qed.

Lemma conversions_at_range r raw :
  -32768 <= raw <= 32767 ->
  withinb (gauss_of_raw r raw) (raw # Z.to_pos (lsb_per_gauss r))
          (Z.abs raw # Z.to_pos (lsb_per_gauss r) * 2 ^ 24)
  && ((raw =? 0) || negb (sf_eqb (gauss_of_raw r raw) (field_of_raw raw))) = true.
Proof.
  intros H. pose proof (conversions_int16 raw H) as Hc.
  unfold conversions_check in Hc. rewrite !andb_true_iff in Hc.
  destruct Hc as [_ Hc]. rewrite forallb_forall in Hc.
  apply (Hc r). destruct r; cbn [In all_ranges]; auto.
Qed.

(** [(float)raw / scale] is the quotient, up to one rounding. *)
Lemma gauss_conversion_accurate r raw :
  -32768 <= raw <= 32767 ->
  within (gauss_of_raw r raw) (raw # Z.to_pos (lsb_per_gauss r))
         (Z.abs raw # Z.to_pos (lsb_per_gauss r) * 2 ^ 24).
Proof.
  intros H. pose proof (conversions_at_range r raw H) as Hc.
  apply andb_true_iff in Hc. apply withinb_within, Hc.
Qed.

Lemma conversions_differ r raw :
  -32768 <= raw <= 32767 -> raw <> 0 ->
  gauss_of_raw r raw <> field_of_raw raw.
Proof.
  intros H Hnz Heq. pose proof (conversions_at_range r raw H) as Hc.
  apply andb_true_iff in Hc. destruct Hc as [_ Hc].
  apply Z.eqb_neq in Hnz. rewrite Hnz, Heq, sf_eqb_refl in Hc. discriminate.
Qed.

(** The two conversions agree at zero and nowhere else. *)
Lemma conversions_agree_iff r raw :
  -32768 <= raw <= 32767 ->
  gauss_of_raw r raw = field_of_raw raw <-> raw = 0.
Proof.
  intros H. split.
  - intros Heq. destruct (Z.eq_dec raw 0) as [E|N]; [exact E|].
    exfalso. exact (conversions_differ r raw H N Heq).
  - intros ->. destruct r; reflexivity.
Qed.

(** *** [read] on a working bus *)

Lemma transfer_ok_ready s : ready s -> transfer_ok s = true.
Proof. intros [Hb Hf]. unfold transfer_ok. now rewrite Hb, Hf. Qed.

Lemma sample_buffer_ready s :
  ready s -> sample_buffer s = dev_read LIS3MDL_REG_OUT_X_L 6 (regs (world s)).
Proof. intros H. unfold sample_buffer. now rewrite transfer_ok_ready. Qed.

Lemma after_sample_read_ready s :
  ready s -> after_sample_read s = did_read LIS3MDL_REG_OUT_X_L 6 s.
Proof.
  intros [Hb Hf]. unfold after_sample_read, did_read, on_world.
  rewrite Hb, Hf. cbn [next_transfer fst snd].
  now rewrite with_faults_nil.
Qed.

Lemma int16_uint8 v : int16 (uint8 v) = uint8 v.
Proof.
  unfold int16. replace (uint16 (uint8 v)) with (uint8 v).
  - pose proof (uint8_range v). cbv zeta.
    destruct (Z.ltb_spec (uint8 v) 0x8000); [reflexivity|lia].
  - unfold uint16, uint8. change 0xFF with (Z.ones 8).
    change 0xFFFF with (Z.ones 16). Z.bitblast.
Qed.

Lemma decode_bytes u v :
  int16 (Z.lor (int16 (uint8 u)) (Z.shiftl (uint8 v) 8))
  = int16 (le_value [uint8 u; uint8 v]).
Proof.
  rewrite int16_uint8. cbn [le_value].
  now rewrite Z.shiftl_0_l, Z.lor_0_r.
Qed.

Lemma decode_sample_device s :
  let buffer := dev_read LIS3MDL_REG_OUT_X_L 6 (regs (world s)) in
  decode_sample buffer 0 = device_sample LIS3MDL_REG_OUT_X_L s
  /\ decode_sample buffer 2 = device_sample (LIS3MDL_REG_OUT_X_L + 2) s
  /\ decode_sample buffer 4 = device_sample (LIS3MDL_REG_OUT_X_L + 4) s.
Proof.
  unfold decode_sample, dev_read, device_sample, device_byte.
  cbn [seq map nth]. rewrite !decode_bytes. repeat split; reflexivity.
Qed.


Lemma read_ready s :
  ready s ->
  read s
  = (tt, on_this (sample_stored (dev_read LIS3MDL_REG_OUT_X_L 6 (regs (world s))))
           (did_read LIS3MDL_REG_OUT_X_L 6 s)).
Proof.
  intros H. rewrite read_eq.
  now rewrite sample_buffer_ready, after_sample_read_ready.
Qed.

(* ------------------------------------------------------------------ *)
(** ** Conversion of [read] *)

(** C1 (amended). For every range setting, on a working bus, [read] makes
    one six-byte read of the output registers, decodes three little-endian
    signed sixteen-bit samples and stores each divided, in [float], by the
    scale constant of the cached range (6842, 3421, 2281, 1711 for 4, 8, 12,
    16 gauss); the device's range register is not read.  Each stored value
    is within one rounding (2^-24, relatively) of raw / scale.  In
    particular the raw sample (1000, -2000, 500) at 4 gauss yields, to four
    decimals, (0.1462, -0.2923, 0.0731). *)
Theorem read_divides_by_cached_scale (s : Sys) :
  ready s ->
  let s' := snd (read s) in
  let d := this s' in
  let r := rangeBuffered (this s) in
  let scale := lsb_per_gauss r in
  added s s' [EvRead LIS3MDL_REG_OUT_X_L 6 true]
  /\ rangeBuffered d = r
  /\ x d = device_sample LIS3MDL_REG_OUT_X_L s
  /\ y d = device_sample (LIS3MDL_REG_OUT_X_L + 2) s
  /\ z d = device_sample (LIS3MDL_REG_OUT_X_L + 4) s
  /\ x_gauss d = Float32.div (Float32.of_int (x d)) (Float32.of_int scale)
  /\ y_gauss d = Float32.div (Float32.of_int (y d)) (Float32.of_int scale)
  /\ z_gauss d = Float32.div (Float32.of_int (z d)) (Float32.of_int scale)
  /\ within (x_gauss d) (x d # Z.to_pos scale) (Z.abs (x d) # Z.to_pos scale * 2 ^ 24)
  /\ within (y_gauss d) (y d # Z.to_pos scale) (Z.abs (y d) # Z.to_pos scale * 2 ^ 24)
  /\ within (z_gauss d) (z d # Z.to_pos scale) (Z.abs (z d) # Z.to_pos scale * 2 ^ 24)
  /\ (r = LIS3MDL_RANGE_4_GAUSS -> x d = 1000 -> y d = -2000 -> z d = 500 ->
      rounds_to (x_gauss d) 1462 10000
      /\ rounds_to (y_gauss d) (-2923) 10000
      /\ rounds_to (z_gauss d) 731 10000).
Proof.
  intros H s' d r scale. subst s' d scale.
  rewrite read_ready by assumption.
  destruct (decode_sample_device s) as (Hx & Hy & Hz).
  cbn [snd on_this this sample_stored set_gauss set_raw
       x y z x_gauss y_gauss z_gauss rangeBuffered].
  change (rangeBuffered (this (did_read LIS3MDL_REG_OUT_X_L 6 s))) with r.
  rewrite Hx, Hy, Hz.
  assert (Hacc : forall raw, within (gauss_of_raw r (int16 raw))
                   (int16 raw # Z.to_pos (lsb_per_gauss r))
                   (Z.abs (int16 raw) # Z.to_pos (lsb_per_gauss r) * 2 ^ 24))
    by (intros raw; apply gauss_conversion_accurate, int16_range).
  repeat (split; [first [reflexivity | apply Hacc]|]).
  intros -> -> -> ->. vm_compute. repeat split.
Qed.


(* ------------------------------------------------------------------ *)
(** ** The range cache *)

Lemma setRange_device_range r s :
  ready s -> reset_idle s ->
  device_range (snd (setRange r s)) = r.
Proof.
  intros H Hidle. rewrite setRange_ready by assumption. cbn [snd].
  unfold device_range.
  change (device_field LIS3MDL_REG_CTRL_REG2 2 5
            (on_this (set_rangeBuffered r)
               (wrote_field LIS3MDL_REG_CTRL_REG2 2 5 (range_value r) s)))
    with (device_field LIS3MDL_REG_CTRL_REG2 2 5
            (wrote_field LIS3MDL_REG_CTRL_REG2 2 5 (range_value r) s)).
  rewrite device_field_wrote_field by (auto using quiet_range_write; lia).
  apply range_roundtrip.
Qed.

Lemma ready_setRange r s : ready s -> ready (snd (setRange r s)).
Proof. intros H. rewrite setRange_ready by assumption. auto with ready. Qed.

(** C3. On a working bus, after [setRange], [getRange] or [reset] the cached
    range equals the range field the device holds: [setRange r] (with no
    soft reset pending) leaves [r] in both, so that a following [getRange]
    returns [r] and the next [read] divides the device's raw sample by
    [r]'s scale constant;
    [getRange] caches and returns the device's field; [reset] sets the
    reset bit by a read-modify-write of control register 2, calls
    [delay(10)], then reads the register again and caches the range it
    finds, whatever the device's reset did to it. *)
Theorem cached_range_equals_device_range (s : Sys) :
  ready s ->
  (forall r : lis3mdl_range_t,
      reset_idle s ->
      let s' := snd (setRange r s) in
      let d := this (snd (read s')) in
      rangeBuffered (this s') = r
      /\ device_range s' = r
      /\ fst (getRange s') = r
      /\ rangeBuffered (this (snd (getRange s'))) = r
      /\ x d = device_sample LIS3MDL_REG_OUT_X_L s'
      /\ y d = device_sample (LIS3MDL_REG_OUT_X_L + 2) s'
      /\ z d = device_sample (LIS3MDL_REG_OUT_X_L + 4) s'
      /\ x_gauss d = Float32.div (Float32.of_int (x d))
                                 (Float32.of_int (lsb_per_gauss r))
      /\ y_gauss d = Float32.div (Float32.of_int (y d))
                                 (Float32.of_int (lsb_per_gauss r))
      /\ z_gauss d = Float32.div (Float32.of_int (z d))
                                 (Float32.of_int (lsb_per_gauss r)))
  /\ (let s' := snd (getRange s) in
      rangeBuffered (this s') = device_range s'
      /\ fst (getRange s) = device_range s'
      /\ device_range s' = device_range s)
  /\ (let s' := snd (reset s) in
      rangeBuffered (this s') = device_range s'
      /\ exists b : Z,
          added s s' [EvRead LIS3MDL_REG_CTRL_REG2 1 true;
                      EvWrite LIS3MDL_REG_CTRL_REG2 [b] true;
                      EvDelay 10;
                      EvRead LIS3MDL_REG_CTRL_REG2 1 true]
          /\ Z.testbit b 2 = true).
Proof.
  intros H. split; [|split].
  - intros r Hidle s' d. subst d.
    pose proof (setRange_device_range r s H Hidle) as Hdev.
    pose proof (ready_setRange r s H) as Hr. fold s' in Hdev, Hr.
    assert (Hcache : rangeBuffered (this s') = r)
      by (subst s'; rewrite setRange_ready by assumption; reflexivity).
    clearbody s'.
    rewrite getRange_ready, read_ready by assumption.
    destruct (decode_sample_device s') as (Hx & Hy & Hz).
    cbn [fst snd on_this this sample_stored set_gauss set_raw set_rangeBuffered
         x y z x_gauss y_gauss z_gauss rangeBuffered] in *.
    change (rangeBuffered (this (did_read LIS3MDL_REG_OUT_X_L 6 s')))
      with (rangeBuffered (this s')).
    rewrite Hcache, Hdev, Hx, Hy, Hz. repeat split; reflexivity.
  - rewrite getRange_ready by assumption. cbn [fst snd]. repeat split; reflexivity.
  - rewrite reset_ready by assumption.
    rewrite getRange_ready by auto with ready. cbn [fst snd].
    split; [reflexivity|]. eexists. split.
    + unfold added, on_this, did_read, delayed, wrote_field, wrote, on_world.
      cbn [world trace log with_regs with_clock]. rewrite <- !app_assoc.
      reflexivity.
    + rewrite testbit_insert_same by lia. reflexivity.
Qed.


(* ------------------------------------------------------------------ *)
(** ** [readMagneticField] *)

Lemma readMagneticField_eq s :
  readMagneticField s
  = (if transfer_ok s then (1, field_sample s) else (0, (NAN, NAN, NAN)),
     after_sample_read s).
Proof.
  pose proof (sample_read_eq s) as E. unfold readMagneticField.
  cbv beta iota zeta delta [bind] in E |- *.
  destruct (local_buffer 6 s) as [buffer s1].
  destruct (Register LIS3MDL_REG_OUT_X_L 6 s1) as [r s2].
  rewrite E. cbn [fst snd]. unfold sample_buffer.
  destruct (transfer_ok s); cbn [negb]; [|reflexivity].
  unfold ret, field_sample, device_sample, device_byte, dev_read.
  cbn [seq map nth]. reflexivity.
Qed.

(** C5. On a working bus, whatever range is configured, [readMagneticField]
    makes its own six-byte read of the output registers, leaves the driver
    object (and so the range cache) untouched and returns, for each axis,
    exactly raw * 4 * 100 / 32768; the result does not change with the
    cached range; a raw value of 1000 gives 12.207 to three decimals.
    [read], run on the same device with range [r] cached, stores the same
    raw values and their [float] quotients by [r]'s scale constant; on
    each axis the two results are equal exactly when the raw value is
    zero, for every range - in particular for the ranges other than
    4 gauss. *)
Theorem readMagneticField_assumes_4_gauss (s : Sys) :
  ready s ->
  let out := fst (readMagneticField s) in
  let s' := snd (readMagneticField s) in
  let rawx := device_sample LIS3MDL_REG_OUT_X_L s in
  let rawy := device_sample (LIS3MDL_REG_OUT_X_L + 2) s in
  let rawz := device_sample (LIS3MDL_REG_OUT_X_L + 4) s in
  out = (1, (field_of_raw rawx, field_of_raw rawy, field_of_raw rawz))
  /\ added s s' [EvRead LIS3MDL_REG_OUT_X_L 6 true]
  /\ this s' = this s
  /\ denotes (field_of_raw rawx) (rawx * 4 * 100 # 32768)
  /\ denotes (field_of_raw rawy) (rawy * 4 * 100 # 32768)
  /\ denotes (field_of_raw rawz) (rawz * 4 * 100 # 32768)
  /\ (forall r : lis3mdl_range_t,
        fst (readMagneticField (on_this (set_rangeBuffered r) s)) = out)
  /\ rounds_to (field_of_raw 1000) 12207 1000
  /\ (forall r : lis3mdl_range_t,
        let d := this (snd (read (on_this (set_rangeBuffered r) s))) in
        (x d = rawx /\ y d = rawy /\ z d = rawz)
        /\ x_gauss d = gauss_of_raw r rawx
        /\ y_gauss d = gauss_of_raw r rawy
        /\ z_gauss d = gauss_of_raw r rawz
        /\ (x_gauss d = field_of_raw rawx <-> rawx = 0)
        /\ (y_gauss d = field_of_raw rawy <-> rawy = 0)
        /\ (z_gauss d = field_of_raw rawz <-> rawz = 0)).
Proof.
  intros H out s' rawx rawy rawz. subst out s'.
  rewrite readMagneticField_eq, transfer_ok_ready, after_sample_read_ready
    by assumption.
  cbn [fst snd].
  split; [reflexivity|]. split; [reflexivity|]. split; [reflexivity|].
  split; [apply field_conversion_exact, int16_range|].
  split; [apply field_conversion_exact, int16_range|].
  split; [apply field_conversion_exact, int16_range|].
  split.
  { intros r. assert (Hr : ready (on_this (set_rangeBuffered r) s))
      by auto with ready.
    rewrite readMagneticField_eq, transfer_ok_ready by assumption.
    reflexivity. }
  split; [vm_compute; repeat split|].
  intros r.
  assert (Hr : ready (on_this (set_rangeBuffered r) s)) by auto with ready.
  rewrite read_ready by assumption.
  destruct (decode_sample_device (on_this (set_rangeBuffered r) s))
    as (Hx & Hy & Hz).
  cbn [snd on_this this sample_stored set_gauss set_raw set_rangeBuffered
       x y z x_gauss y_gauss z_gauss rangeBuffered world] in *.
  rewrite Hx, Hy, Hz.
  split; [repeat split|].
  split; [reflexivity|]. split; [reflexivity|]. split; [reflexivity|].
  split; [|split].
  - exact (conversions_agree_iff r rawx (int16_range _)).
  - exact (conversions_agree_iff r rawy (int16_range _)).
  - exact (conversions_agree_iff r rawz (int16_range _)).
Qed.





(* ------------------------------------------------------------------ *)
(** ** Unreported read failures *)

Lemma this_after_sample_read s : this (after_sample_read s) = this s.
Proof. unfold after_sample_read. destruct (bound (this s)); reflexivity. Qed.

Lemma getEvent_eq s :
  getEvent s
  = ((true, event_of (clock (world s))
              (sample_stored (sample_buffer s) (this s))),
     on_this (sample_stored (sample_buffer s)) (after_sample_read s)).
Proof.
  unfold getEvent.
  cbv beta iota zeta delta [bind get_this millis env ret].
  destruct s as [d w]. cbn [this world].
  rewrite read_eq.
  unfold on_this. cbn [this world].
  pose proof (this_after_sample_read {| this := d; world := w |}) as Ht.
  cbn [this] in Ht. rewrite Ht. reflexivity.
Qed.

Lemma sample_buffer_shape s :
  exists f : nat -> Z,
    sample_buffer s = map (fun i => uint8 (f i)) (seq 0 6).
Proof.
  unfold sample_buffer, dev_read. destruct (transfer_ok s); eexists; reflexivity.
Qed.

Lemma sample_buffer_with_sample s :
  sample_buffer (with_sample (sample_buffer s) s) = sample_buffer s.
Proof.
  destruct (sample_buffer_shape s) as [f Hf]. rewrite Hf.
  unfold sample_buffer at 1.
  replace (transfer_ok _) with true by reflexivity.
  unfold dev_read, with_sample, buffer_regs. cbn [world regs with_faults with_regs].
  cbn [seq map]. 
  repeat match goal with
  | |- context [Z.to_nat ?e] =>
      let n := eval vm_compute in (Z.to_nat e) in
      change (Z.to_nat e) with n
  end.
  cbn [nth]. now rewrite !uint8_idem.
Qed.

(** C8. [read] returns nothing and [getEvent] returns [true] in every
    state, whether or not the six-byte read succeeded: both store and
    report what is decoded from the buffer, which holds the device's bytes
    after a successful read and whatever the uninitialised buffer held
    after a failed one; the event is stamped with [millis()] as the
    [int32_t] member holds it.  For every run there is a run with a successful
    read that returns the same event and leaves the same measurement
    members, so the caller cannot tell a fresh sample from a failed read. *)
Theorem getEvent_always_true (s : Sys) :
  fst (read s) = tt
  /\ fst (fst (getEvent s)) = true
  /\ this (snd (read s)) = sample_stored (sample_buffer s) (this s)
  /\ fst (getEvent s)
     = (true, event_of (clock (world s))
                (sample_stored (sample_buffer s) (this s)))
  /\ timestamp (snd (fst (getEvent s))) = int32 (clock (world s))
  /\ exists s2 : Sys,
      transfer_ok s2 = true
      /\ fst (getEvent s2) = fst (getEvent s)
      /\ measurement (this (snd (read s2))) = measurement (this (snd (read s))).
Proof.
  rewrite getEvent_eq, read_eq. cbn [fst snd on_this this].
  rewrite this_after_sample_read.
  repeat (split; [reflexivity|]).
  exists (with_sample (sample_buffer s) s).
  split; [reflexivity|].
  rewrite getEvent_eq, read_eq. cbn [fst snd on_this this].
  rewrite this_after_sample_read, sample_buffer_with_sample.
  split; reflexivity.
Qed.


(* ------------------------------------------------------------------ *)
(** ** Interrupt configuration *)

Lemma configInterrupt_eq enableX enableY enableZ polarity latch enableInt s :
  configInterrupt enableX enableY enableZ polarity latch enableInt s
  = (tt, snd (env (Register_write
                     {| reg_i2cdevice := i2c_dev (this s);
                        reg_spidevice := spi_dev (this s);
                        reg_address := LIS3MDL_REG_INT_CFG; reg_width := 1 |}
                     (int_cfg_byte enableX enableY enableZ polarity latch
                                   enableInt)) s)).
Proof.
  unfold configInterrupt. start.
  destruct enableX, enableY, enableZ, polarity, latch, enableInt;
    repeat match goal with
    | |- context [Register_write _ ?v] =>
        lazymatch v with
        | Zpos _ => fail
        | _ => let v' := eval vm_compute in v in change v with v'
        end
    end;
    match goal with
    | |- (let (_, s') := ?c in (tt, s')) = _ => destruct c; reflexivity
    end.
Qed.

Lemma int_cfg_byte_facts enableX enableY enableZ polarity latch enableGlobal :
  let byte := int_cfg_byte enableX enableY enableZ polarity latch enableGlobal in
  uint8 byte = byte
  /\ Z.testbit byte 3 = true
  /\ byte = 8 + 128 * Z.b2z enableX + 64 * Z.b2z enableY + 32 * Z.b2z enableZ
            + 4 * Z.b2z polarity + 2 * Z.b2z latch + Z.b2z enableGlobal.
Proof.
  destruct enableX, enableY, enableZ, polarity, latch, enableGlobal;
    repeat split; reflexivity.
Qed.

(** C7. For every combination of the six flags, with a transport bound,
    [configInterrupt] makes one bus transaction: a write to the
    interrupt-configuration register of the single byte
    [0x08 | enableX<<7 | enableY<<6 | enableZ<<5 | polarity<<2 | latch<<1 |
    enableGlobal]; the register is not read first, and when the write
    succeeds the register holds that byte whatever it held before and no
    other register changes.  Bit 3, the fixed bit, is always set. *)
Theorem configInterrupt_plain_overwrite
  (enableX enableY enableZ polarity latch enableGlobal : bool) (s : Sys) :
  bound (this s) = true ->
  let s' := snd (configInterrupt enableX enableY enableZ polarity latch
                                 enableGlobal s) in
  let byte := int_cfg_byte enableX enableY enableZ polarity latch enableGlobal in
  let ok := fst (next_transfer (faults (world s))) in
  added s s' [EvWrite LIS3MDL_REG_INT_CFG [byte] ok]
  /\ regs (world s')
     = (if ok then store LIS3MDL_REG_INT_CFG byte (regs (world s))
        else regs (world s))
  /\ (if ok then device_byte LIS3MDL_REG_INT_CFG s' = byte else True)
  /\ this s' = this s
  /\ Z.testbit byte 3 = true
  /\ byte = 8 + 128 * Z.b2z enableX + 64 * Z.b2z enableY + 32 * Z.b2z enableZ
            + 4 * Z.b2z polarity + 2 * Z.b2z latch + Z.b2z enableGlobal.
Proof.
  intros Hb s' byte ok. subst s' ok.
  destruct (int_cfg_byte_facts enableX enableY enableZ polarity latch
              enableGlobal) as (Hu & Hbit & Hsum).
  fold byte in Hu, Hbit, Hsum.
  rewrite configInterrupt_eq. fold byte. clearbody byte.
  unfold env, Register_write, has_transport, transfer_write, added, device_byte.
  cbn [reg_i2cdevice reg_spidevice reg_address reg_width le_bytes snd].
  unfold bound in Hb. rewrite Hb, Hu.
  destruct (next_transfer (faults (world s))) as [[|] f'];
    cbn [fst snd this world regs trace log with_regs with_faults dev_write];
    repeat split; assumption.
Qed.


(* ------------------------------------------------------------------ *)
(** ** Initialisation *)

Lemma device_byte_on_this a f s : device_byte a (on_this f s) = device_byte a s.
Proof. reflexivity. Qed.

Lemma device_byte_did_read a a' len s :
  device_byte a (did_read a' len s) = device_byte a s.
Proof. reflexivity. Qed.

Lemma device_byte_delayed a ms s : device_byte a (delayed ms s) = device_byte a s.
Proof. reflexivity. Qed.

Ltac dev_simpl :=
  repeat first
    [ rewrite device_byte_on_this
    | rewrite device_byte_did_read
    | rewrite device_byte_delayed
    | rewrite device_byte_wrote_same by first [reflexivity | assumption]
    | rewrite device_byte_wrote_other
        by first [reflexivity | assumption | discriminate] ].

Ltac dev_unfold :=
  unfold defaults_set, range_set, dataRate_set, performance_set, wrote_field,
    device_range, device_operationmode, device_dataRate,
    device_performance_xy, device_performance_z, device_field, reset_idle;
  cbn [paired_mode].

Lemma ready_range_set r s : ready s -> ready (range_set r s).
Proof. intros [? ?]; split; assumption. Qed.

Lemma ready_dataRate_set r s : ready s -> ready (dataRate_set r s).
Proof. intros H. unfold dataRate_set. destruct (paired_mode r); auto with ready. Qed.

#[local] Hint Resolve ready_range_set ready_dataRate_set : ready.

Lemma reset_idle_before_range s :
  reset_idle s ->
  reset_idle (dataRate_set LIS3MDL_DATARATE_155_HZ
                (performance_set LIS3MDL_ULTRAHIGHMODE s)).
Proof. dev_unfold. intros H. dev_simpl. exact H. Qed.

(** The settings the device holds after the default configuration. *)
Lemma defaults_set_fields s :
  reset_idle s ->
  let s' := defaults_set s in
  device_performance_xy s' = performancemode_value LIS3MDL_ULTRAHIGHMODE
  /\ device_performance_z s' = performancemode_value LIS3MDL_ULTRAHIGHMODE
  /\ device_dataRate s' = dataRate_value LIS3MDL_DATARATE_155_HZ
  /\ device_range s' = LIS3MDL_RANGE_4_GAUSS
  /\ rangeBuffered (this s') = LIS3MDL_RANGE_4_GAUSS
  /\ device_operationmode s' = operationmode_value LIS3MDL_CONTINUOUSMODE.
Proof.
  intros Hidle s'. subst s'.
  pose proof (quiet_range_write (range_value LIS3MDL_RANGE_4_GAUSS) _
                (reset_idle_before_range s Hidle)) as Hq.
  revert Hq. dev_unfold. intros Hq.
  repeat split.
  - dev_simpl. rewrite !uint8_idem.
    rewrite field_extract_insert_other by lia.
    rewrite field_extract_insert by lia. reflexivity.
  - dev_simpl. rewrite !uint8_idem.
    rewrite field_extract_insert by lia. reflexivity.
  - dev_simpl. rewrite !uint8_idem.
    rewrite field_extract_insert by lia. reflexivity.
  - dev_simpl. rewrite !uint8_idem.
    rewrite field_extract_insert by lia. reflexivity.
  - dev_simpl. rewrite !uint8_idem.
    rewrite field_extract_insert by lia. reflexivity.
Qed.


Lemma init_eq s :
  _init s
  = (let (id, s0) := chip_id_read s in
     if id =? 0x3D then configure s0 else (false, s0)).
Proof.
  unfold _init, chip_id_read, configure.
  cbv beta iota zeta delta [bind].
  destruct (Register LIS3MDL_REG_WHO_AM_I 1 s) as [r s1].
  destruct (env (Register_read r) s1) as [id s0].
  destruct (id =? 0x3D); reflexivity.
Qed.

Lemma configure_true s : fst (configure s) = true.
Proof.
  unfold configure. cbv beta iota zeta delta [bind].
  destruct (reset s) as [? s1].
  destruct (setPerformanceMode _ s1) as [? s2].
  destruct (setDataRate _ s2) as [? s3].
  destruct (setRange _ s3) as [? s4].
  destruct (setOperationMode _ s4) as [? s5].
  reflexivity.
Qed.

Lemma chip_id_read_eq s :
  chip_id_read s
  = (if transfer_ok s then device_byte LIS3MDL_REG_WHO_AM_I s else 0xFFFFFFFF,
     if bound (this s)
     then on_world (fun w =>
            log [EvRead LIS3MDL_REG_WHO_AM_I 1 (fst (next_transfer (faults w)))]
                (with_faults (snd (next_transfer (faults w))) w)) s
     else s).
Proof.
  unfold chip_id_read, transfer_ok, bound, on_world, device_byte.
  cbv beta iota zeta delta [bind Register get_this ret env Register_read
                            Register_read_buffer has_transport transfer_read
                            reg_i2cdevice reg_spidevice reg_address reg_width].
  destruct s as [d w]; cbn [this world].
  destruct (i2c_dev d), (spi_dev d);
    destruct (next_transfer (faults w)) as [[|] f'];
    cbn [andb fst snd dev_read seq map]; rewrite ?le_value_single, ?Z.add_0_r;
    reflexivity.
Qed.

Lemma chip_id_read_ready s :
  ready s ->
  chip_id_read s
  = (device_byte LIS3MDL_REG_WHO_AM_I s, did_read LIS3MDL_REG_WHO_AM_I 1 s).
Proof.
  intros H. rewrite chip_id_read_eq, transfer_ok_ready by assumption.
  destruct H as [Hb Hf]. rewrite Hb. unfold did_read, on_world.
  rewrite Hf. cbn [next_transfer fst snd]. now rewrite with_faults_nil.
Qed.

Lemma reset_ready' s : ready s -> reset s = (tt, reset_done s).
Proof.
  intros H. rewrite reset_ready by assumption.
  rewrite getRange_ready by auto with ready. reflexivity.
Qed.

Lemma ready_reset_done s : ready s -> ready (reset_done s).
Proof. intros [? ?]; split; assumption. Qed.

Lemma ready_defaults_set s : ready s -> ready (defaults_set s).
Proof. intros [? ?]; split; assumption. Qed.

#[local] Hint Resolve ready_reset_done ready_defaults_set : ready.

Lemma configure_ready s :
  ready s -> configure s = (true, defaults_set (reset_done s)).
Proof.
  intros H. unfold configure.
  unfold bind at 1. rewrite reset_ready' by assumption.
  unfold bind at 1. rewrite setPerformanceMode_ready by auto with ready.
  unfold bind at 1. rewrite setDataRate_ready by auto with ready.
  unfold bind at 1. rewrite setRange_ready by auto with ready.
  unfold bind at 1. rewrite setOperationMode_ready by auto with ready.
  reflexivity.
Qed.

Lemma reset_idle_reset_done s :
  (forall m : Z -> Z,
      Z.testbit (uint8 (soft_reset m LIS3MDL_REG_CTRL_REG2)) 2 = false) ->
  reset_idle (reset_done s).
Proof.
  intros Hclr. unfold reset_idle, reset_done. cbv zeta. dev_simpl.
  unfold wrote_field, wrote, device_byte at 1, on_world, dev_write_byte.
  cbn [world regs with_regs]. rewrite Z.eqb_refl.
  rewrite testbit_insert_same by lia. cbn [andb Z.sub Z.testbit Z.odd].
  apply Hclr.
Qed.

Lemma performed_app s m s' ops ops' :
  performed s m ops -> performed m s' ops' -> performed s s' (ops ++ ops').
Proof.
  intros (e1 & H1 & <-) (e2 & H2 & <-). exists (e1 ++ e2). split.
  - now rewrite H2, H1, app_assoc.
  - apply map_app.
Qed.

Lemma performed_wrote_field a bits shift data s :
  performed s (wrote_field a bits shift data s) [OpRead a; OpWrite a].
Proof. eexists. split; reflexivity. Qed.

Lemma performed_did_read a len s : performed s (did_read a len s) [OpRead a].
Proof. eexists. split; reflexivity. Qed.

Lemma performed_delayed ms s : performed s (delayed ms s) [OpDelay ms].
Proof. eexists. split; reflexivity. Qed.

Lemma performed_on_this f s ops m :
  performed s m ops -> performed s (on_this f m) ops.
Proof. intros H. exact H. Qed.

Lemma performed_performance_set mode s :
  performed s (performance_set mode s)
    [OpRead LIS3MDL_REG_CTRL_REG1; OpWrite LIS3MDL_REG_CTRL_REG1;
     OpRead LIS3MDL_REG_CTRL_REG4; OpWrite LIS3MDL_REG_CTRL_REG4].
Proof.
  unfold performance_set.
  eapply (performed_app _ _ _ [_; _] [_; _]); apply performed_wrote_field.
Qed.

Lemma performed_reset_done s :
  performed s (reset_done s)
    [OpRead LIS3MDL_REG_CTRL_REG2; OpWrite LIS3MDL_REG_CTRL_REG2; OpDelay 10;
     OpRead LIS3MDL_REG_CTRL_REG2].
Proof.
  unfold reset_done. cbv zeta. apply performed_on_this.
  eapply (performed_app _ _ _ [_; _] [_; _]); [apply performed_wrote_field|].
  eapply (performed_app _ _ _ [_] [_]);
    [apply performed_delayed|apply performed_did_read].
Qed.

Lemma performed_defaults_set s :
  performed s (defaults_set s)
    [OpRead LIS3MDL_REG_CTRL_REG1; OpWrite LIS3MDL_REG_CTRL_REG1;
     OpRead LIS3MDL_REG_CTRL_REG4; OpWrite LIS3MDL_REG_CTRL_REG4;
     OpRead LIS3MDL_REG_CTRL_REG1; OpWrite LIS3MDL_REG_CTRL_REG1;
     OpRead LIS3MDL_REG_CTRL_REG4; OpWrite LIS3MDL_REG_CTRL_REG4;
     OpDelay 10;
     OpRead LIS3MDL_REG_CTRL_REG1; OpWrite LIS3MDL_REG_CTRL_REG1;
     OpRead LIS3MDL_REG_CTRL_REG2; OpWrite LIS3MDL_REG_CTRL_REG2;
     OpRead LIS3MDL_REG_CTRL_REG3; OpWrite LIS3MDL_REG_CTRL_REG3].
Proof.
  unfold defaults_set, range_set, dataRate_set. cbn [paired_mode].
  eapply (performed_app _ _ _ [_; _; _; _] (_ :: _));
    [apply performed_performance_set|].
  eapply (performed_app _ _ _ [_; _; _; _] (_ :: _));
    [apply performed_performance_set|].
  eapply (performed_app _ _ _ [_] (_ :: _)); [apply performed_delayed|].
  eapply (performed_app _ _ _ [_; _] (_ :: _)); [apply performed_wrote_field|].
  eapply (performed_app _ _ _ [_; _] [_; _]);
    [apply performed_on_this, performed_wrote_field|].
  apply performed_wrote_field.
Qed.

Lemma performed_init s :
  performed s (defaults_set (reset_done (did_read LIS3MDL_REG_WHO_AM_I 1 s)))
    init_ops.
Proof.
  eapply (performed_app _ _ _ [_] (_ :: _)); [apply performed_did_read|].
  eapply (performed_app _ _ _ [_; _; _; _] (_ :: _));
    [apply performed_reset_done|].
  apply performed_defaults_set.
Qed.


(** C4. [_init] first reads the identity register.  If the value read is
    not 0x3D it returns false, having written no register and changed
    nothing in the driver object.  Otherwise it returns true after running
    reset, then setting performance mode ultra-high, data rate 155 Hz,
    range 4 gauss and operation mode continuous, in that order.  On a
    working bus, with a device whose reset bit clears itself, the state
    after a successful initialisation is performance ultra-high (both
    fields), rate 155 Hz, range 4 gauss (device and cache), mode
    continuous. *)
Theorem init_verifies_identity_then_sets_defaults (s : Sys) :
  ready s ->
  (forall m : Z -> Z,
      Z.testbit (uint8 (soft_reset m LIS3MDL_REG_CTRL_REG2)) 2 = false) ->
  let s' := snd (_init s) in
  (if device_byte LIS3MDL_REG_WHO_AM_I s =? 0x3D
   then fst (_init s) = true
        /\ performed s s' init_ops
        /\ fst (getPerformanceMode s') = LIS3MDL_ULTRAHIGHMODE
        /\ device_performance_z s' = performancemode_value LIS3MDL_ULTRAHIGHMODE
        /\ fst (getDataRate s') = dataRate_value LIS3MDL_DATARATE_155_HZ
        /\ fst (getRange s') = LIS3MDL_RANGE_4_GAUSS
        /\ rangeBuffered (this s') = LIS3MDL_RANGE_4_GAUSS
        /\ fst (getOperationMode s') = operationmode_value LIS3MDL_CONTINUOUSMODE
   else fst (_init s) = false
        /\ added s s' [EvRead LIS3MDL_REG_WHO_AM_I 1 true]
        /\ regs (world s') = regs (world s)
        /\ this s' = this s)
  /\ (forall t : Sys,
        let t' := snd (_init t) in
        fst (_init t) = (fst (chip_id_read t) =? 0x3D)
        /\ (if fst (chip_id_read t) =? 0x3D
            then _init t = configure (snd (chip_id_read t))
            else regs (world t') = regs (world t)
                 /\ this t' = this t
                 /\ added t t'
                      (if bound (this t)
                       then [EvRead LIS3MDL_REG_WHO_AM_I 1
                               (fst (next_transfer (faults (world t))))]
                       else []))).
Proof.
  intros H Hclr s'. subst s'. split.
  - rewrite init_eq, chip_id_read_ready by assumption.
    destruct (device_byte LIS3MDL_REG_WHO_AM_I s =? 0x3D).
    + rewrite configure_ready by auto with ready. cbn [fst snd].
      set (s0 := reset_done (did_read LIS3MDL_REG_WHO_AM_I 1 s)).
      assert (Hr : ready (defaults_set s0)) by (subst s0; auto with ready).
      destruct (defaults_set_fields s0 (reset_idle_reset_done _ Hclr))
        as (Hxy & Hz & Hrate & Hrange & Hcache & Hmode).
      split; [reflexivity|]. split; [apply performed_init|].
      rewrite getPerformanceMode_ready, getDataRate_ready, getRange_ready,
        getOperationMode_ready by assumption.
      cbn [fst]. rewrite Hxy.
      repeat split; assumption.
    + cbn [fst snd]. repeat split.
  - intros t. rewrite init_eq.
    destruct (chip_id_read t) as [id t0] eqn:E. cbn [fst].
    destruct (id =? 0x3D) eqn:Eid.
    + split; [apply configure_true|reflexivity].
    + cbn [fst snd]. split; [reflexivity|].
      rewrite chip_id_read_eq in E. injection E as _ <-.
      unfold added. destruct (bound (this t)); cbn [on_world world this regs trace log with_faults];
        repeat split; now rewrite ?app_nil_r.
Qed.


(* ------------------------------------------------------------------ *)
(** ** Transport binding *)

Lemma orderly_ret {A} (a : A) : orderly (ret a).
Proof. intros s. repeat split. exists []. now rewrite app_nil_r. Qed.

Lemma orderly_bind {A B} (c : M A) (k : A -> M B) :
  orderly c -> (forall a, orderly (k a)) -> orderly (bind c k).
Proof.
  intros Hc Hk s. unfold bind. specialize (Hc s).
  destruct (c s) as [a s1]. cbn [snd] in Hc.
  destruct Hc as (Hi & Hs & e1 & He1).
  destruct (Hk a s1) as (Hi' & Hs' & e2 & He2).
  split; [congruence|]. split; [congruence|].
  exists (e1 ++ e2). now rewrite He2, He1, app_assoc.
Qed.

Lemma orderly_get_this : orderly get_this.
Proof. intros s. repeat split. exists []. now rewrite app_nil_r. Qed.

Lemma orderly_set_rangeBuffered r : orderly (set_this (set_rangeBuffered r)).
Proof. intros s. repeat split. exists []. now rewrite app_nil_r. Qed.

Lemma orderly_env {A} (f : World -> A * World) : grows f -> orderly (env f).
Proof.
  intros Hf s. unfold env. specialize (Hf (world s)).
  destruct (f (world s)) as [a w]. cbn [snd this world] in *.
  repeat split. exact Hf.
Qed.

Lemma orderly_delay ms : orderly (delay ms).
Proof. apply orderly_env. intros w. eexists. reflexivity. Qed.

Lemma orderly_Register addr width : orderly (Register addr width).
Proof.
  apply orderly_bind; [apply orderly_get_this|intros; apply orderly_ret].
Qed.

Lemma orderly_when c body : orderly body -> orderly (when c body).
Proof. intros H. destruct c; [exact H|apply orderly_ret]. Qed.

Lemma grows_Register_read_buffer r len : grows (Register_read_buffer r len).
Proof.
  intros w. unfold Register_read_buffer, transfer_read.
  destruct (has_transport r); [|exists []; now rewrite app_nil_r].
  destruct (next_transfer (faults w)) as [[|] f']; eexists; reflexivity.
Qed.

Lemma grows_Register_read r : grows (Register_read r).
Proof.
  intros w. unfold Register_read.
  destruct (grows_Register_read_buffer r (reg_width r) w) as [evs H].
  destruct (Register_read_buffer r (reg_width r) w) as [[buf|] w'];
    exists evs; exact H.
Qed.

Lemma grows_Register_write r v : grows (Register_write r v).
Proof.
  intros w. unfold Register_write, transfer_write.
  destruct (has_transport r); [|exists []; now rewrite app_nil_r].
  destruct (next_transfer (faults w)) as [[|] f']; eexists; reflexivity.
Qed.

Lemma grows_RegisterBits_read b : grows (RegisterBits_read b).
Proof.
  intros w. unfold RegisterBits_read.
  destruct (grows_Register_read (bits_register b) w) as [evs H].
  destruct (Register_read (bits_register b) w) as [v w']. exists evs. exact H.
Qed.

Lemma grows_RegisterBits_write b data : grows (RegisterBits_write b data).
Proof.
  intros w. unfold RegisterBits_write.
  destruct (grows_Register_read (bits_register b) w) as [e1 H1].
  destruct (Register_read (bits_register b) w) as [v w']. cbn [snd] in H1.
  destruct (grows_Register_write (bits_register b)
              (field_insert (bits_bits b) (bits_shift b) data v) w') as [e2 H2].
  exists (e1 ++ e2). now rewrite H2, H1, app_assoc.
Qed.

Create HintDb orderly.
#[local] Hint Resolve orderly_ret orderly_get_this orderly_set_rangeBuffered
  orderly_delay orderly_Register orderly_when orderly_env
  grows_Register_read grows_Register_write grows_RegisterBits_read
  grows_RegisterBits_write : orderly.

Ltac orderly :=
  repeat first [ apply orderly_bind; [|intros ?] | progress auto with orderly ].

Lemma orderly_getRange : orderly getRange.
Proof. unfold getRange. orderly. Qed.

Lemma orderly_reset : orderly reset.
Proof. unfold reset. pose proof orderly_getRange. orderly. Qed.

Lemma orderly_setPerformanceMode mode : orderly (setPerformanceMode mode).
Proof. unfold setPerformanceMode. orderly. Qed.

Lemma orderly_setDataRate rate : orderly (setDataRate rate).
Proof.
  unfold setDataRate. pose proof orderly_setPerformanceMode. orderly.
Qed.

Lemma orderly_setRange r : orderly (setRange r).
Proof. unfold setRange. orderly. Qed.

Lemma orderly_setOperationMode m : orderly (setOperationMode m).
Proof. unfold setOperationMode. orderly. Qed.

Lemma orderly_init : orderly _init.
Proof.
  unfold _init.
  pose proof orderly_reset. pose proof orderly_setPerformanceMode.
  pose proof orderly_setDataRate. pose proof orderly_setRange.
  pose proof orderly_setOperationMode.
  apply orderly_bind; [auto with orderly|intros r].
  apply orderly_bind; [auto with orderly|intros id].
  destruct (negb (id =? 0x3D)); orderly.
Qed.


Lemma trace_released d w : trace (released d w) = trace w ++ deletions d.
Proof.
  unfold released, deletions.
  destruct (i2c_dev d), (spi_dev d); cbn [trace log app];
    rewrite <- ?app_assoc, ?app_nil_r; reflexivity.
Qed.

Lemma begin_I2C_eq i2c_address wire s :
  begin_I2C i2c_address wire s
  = (if fst (next_transfer (faults (world s)))
     then _init (handshaken (Some (I2CDevice (uint8 i2c_address) wire)) None s)
     else (false, handshaken (Some (I2CDevice (uint8 i2c_address) wire)) None s)).
Proof.
  unfold begin_I2C, delete_transports, handshaken, released.
  cbv beta iota zeta delta [bind get_this set_this ret env transport_begin].
  destruct s as [d w]. cbn [this world].
  destruct (i2c_dev d), (spi_dev d);
    cbn [this world faults log];
    destruct (next_transfer (faults w)) as [[|] f']; reflexivity.
Qed.

Lemma begin_SPI_eq cs_pin theSPI frequency s :
  let dev := SPIDevice_hw (uint8 cs_pin) (uint32 frequency)
               SPI_BITORDER_MSBFIRST SPI_MODE0 theSPI in
  begin_SPI cs_pin theSPI frequency s
  = (if fst (next_transfer (faults (world s)))
     then _init (handshaken None (Some dev) s)
     else (false, handshaken None (Some dev) s)).
Proof.
  unfold begin_SPI, delete_transports, handshaken, released.
  cbv beta iota zeta delta [bind get_this set_this ret env transport_begin].
  destruct s as [d w]. cbn [this world].
  destruct (i2c_dev d), (spi_dev d);
    cbn [this world faults log];
    destruct (next_transfer (faults w)) as [[|] f']; reflexivity.
Qed.

Lemma begin_SPI_soft_eq cs_pin sck_pin miso_pin mosi_pin frequency s :
  let dev := SPIDevice_sw cs_pin sck_pin miso_pin mosi_pin (uint32 frequency)
               SPI_BITORDER_MSBFIRST SPI_MODE0 in
  begin_SPI_soft cs_pin sck_pin miso_pin mosi_pin frequency s
  = (if fst (next_transfer (faults (world s)))
     then _init (handshaken None (Some dev) s)
     else (false, handshaken None (Some dev) s)).
Proof.
  unfold begin_SPI_soft, delete_transports, handshaken, released.
  cbv beta iota zeta delta [bind get_this set_this ret env transport_begin].
  destruct s as [d w]. cbn [this world].
  destruct (i2c_dev d), (spi_dev d);
    cbn [this world faults log];
    destruct (next_transfer (faults w)) as [[|] f']; reflexivity.
Qed.

Lemma bind_outcome_intro i2c spi s r :
  r = (if fst (next_transfer (faults (world s)))
       then _init (handshaken i2c spi s)
       else (false, handshaken i2c spi s)) ->
  bind_outcome _init i2c spi s r.
Proof.
  intros ->. unfold bind_outcome. cbv zeta.
  destruct (fst (next_transfer (faults (world s)))) eqn:Eok.
  - destruct (orderly_init (handshaken i2c spi s)) as (Hi & Hs & evs & He).
    split; [exact Hi|]. split; [exact Hs|]. split; [reflexivity|].
    exists evs. split; [|exact I].
    rewrite He. unfold handshaken. cbn [world trace log with_faults].
    rewrite Eok, trace_released, <- !app_assoc. reflexivity.
  - cbn [fst snd]. split; [reflexivity|]. split; [reflexivity|].
    split; [reflexivity|]. exists []. split.
    + unfold handshaken. cbn [world trace log with_faults].
      rewrite Eok, trace_released, <- !app_assoc. reflexivity.
    + repeat split. unfold handshaken, released. cbn [world regs log with_faults].
      destruct (i2c_dev (this s)), (spi_dev (this s)); reflexivity.
Qed.

(** C10. After every attempted bind - [begin_I2C] and both [begin_SPI]
    variants - whether it succeeds or not, the slot of the requested
    transport holds the new transport and the other slot is null.  Every
    bind first deletes whatever either slot held, then makes the bus
    handshake; when the handshake fails it returns false at once: no
    register is read or written. *)
Theorem begin_leaves_exactly_one_transport (s : Sys) :
  (forall i2c_address wire : Z,
      bind_outcome _init (Some (I2CDevice (uint8 i2c_address) wire)) None s
        (begin_I2C i2c_address wire s))
  /\ (forall cs_pin theSPI frequency : Z,
        bind_outcome _init None
          (Some (SPIDevice_hw (uint8 cs_pin) (uint32 frequency)
                   SPI_BITORDER_MSBFIRST SPI_MODE0 theSPI)) s
          (begin_SPI cs_pin theSPI frequency s))
  /\ (forall cs_pin sck_pin miso_pin mosi_pin frequency : Z,
        bind_outcome _init None
          (Some (SPIDevice_sw cs_pin sck_pin miso_pin mosi_pin
                   (uint32 frequency) SPI_BITORDER_MSBFIRST SPI_MODE0)) s
          (begin_SPI_soft cs_pin sck_pin miso_pin mosi_pin frequency s)).
Proof.
  split; [|split]; intros; apply bind_outcome_intro.
  - apply begin_I2C_eq.
  - apply begin_SPI_eq.
  - apply begin_SPI_soft_eq.
Qed.

(* ------------------------------------------------------------------ *)
(** ** Operations that only read *)

Lemma read_only_ret {A} (a : A) : read_only (ret a).
Proof. intros s. split; [reflexivity|]. exists []. now rewrite app_nil_r. Qed.

Lemma read_only_bind {A B} (c : M A) (k : A -> M B) :
  read_only c -> (forall a, read_only (k a)) -> read_only (bind c k).
Proof.
  intros Hc Hk s. unfold bind. specialize (Hc s).
  destruct (c s) as [a s1]. cbn [snd] in Hc.
  destruct Hc as (Hr & e1 & He1 & Hw1).
  destruct (Hk a s1) as (Hr' & e2 & He2 & Hw2).
  split; [congruence|]. exists (e1 ++ e2). split.
  - now rewrite He2, He1, app_assoc.
  - now rewrite existsb_app, Hw1, Hw2.
Qed.

Lemma read_only_get_this : read_only get_this.
Proof. intros s. split; [reflexivity|]. exists []. now rewrite app_nil_r. Qed.

Lemma read_only_set_this f : read_only (set_this f).
Proof. intros s. split; [reflexivity|]. exists []. now rewrite app_nil_r. Qed.

Lemma read_only_env {A} (f : World -> A * World) : observes f -> read_only (env f).
Proof.
  intros Hf s. unfold env. specialize (Hf (world s)).
  destruct (f (world s)) as [a w]. exact Hf.
Qed.

Lemma read_only_Register addr width : read_only (Register addr width).
Proof.
  apply read_only_bind; [apply read_only_get_this|intros; apply read_only_ret].
Qed.

Lemma observes_Register_read_buffer r len : observes (Register_read_buffer r len).
Proof.
  intros w. unfold Register_read_buffer, transfer_read.
  destruct (has_transport r).
  - destruct (next_transfer (faults w)) as [[|] f']; (split; [reflexivity|]);
      eexists; split; reflexivity.
  - split; [reflexivity|]. exists []. now rewrite app_nil_r.
Qed.

Lemma observes_Register_read r : observes (Register_read r).
Proof.
  intros w. unfold Register_read.
  pose proof (observes_Register_read_buffer r (reg_width r) w) as H.
  destruct (Register_read_buffer r (reg_width r) w) as [[buf|] w']; exact H.
Qed.

Lemma observes_RegisterBits_read b : observes (RegisterBits_read b).
Proof.
  intros w. unfold RegisterBits_read.
  pose proof (observes_Register_read (bits_register b) w) as H.
  destruct (Register_read (bits_register b) w) as [v w']. exact H.
Qed.

Lemma read_only_local_buffer len : read_only (local_buffer len).
Proof.
  apply read_only_env. intros w. split; [reflexivity|].
  exists []. now rewrite app_nil_r.
Qed.

Lemma read_only_millis : read_only millis.
Proof.
  apply read_only_env. intros w. split; [reflexivity|].
  exists []. now rewrite app_nil_r.
Qed.

Lemma read_only_read_into r buffer len : read_only (read_into r buffer len).
Proof.
  unfold read_into. apply read_only_bind.
  - apply read_only_env, observes_Register_read_buffer.
  - intros [bytes|]; apply read_only_ret.
Qed.

Create HintDb read_only.
#[local] Hint Resolve read_only_ret read_only_get_this read_only_set_this
  read_only_env read_only_Register observes_Register_read
  observes_Register_read_buffer observes_RegisterBits_read read_only_local_buffer read_only_millis
  read_only_read_into : read_only.

Ltac read_only :=
  repeat first [ progress cbv zeta
               | solve [auto with read_only]
               | apply read_only_bind; [|intros ?] ].

Lemma read_only_getDataRate : read_only getDataRate.
Proof. unfold getDataRate. read_only. Qed.

Lemma read_only_read : read_only read.
Proof. unfold read. read_only. Qed.

(** X1. The operations that are meant to read never change the device:
    in every state - whatever the transport, whatever fails on the bus -
    [getRange], [getPerformanceMode], [getDataRate], [getOperationMode],
    [getIntThreshold], [magneticFieldAvailable], [magneticFieldSampleRate],
    [read], [getEvent] and [readMagneticField] leave every device register
    as it was and put no write on the bus. *)
Theorem readers_never_write :
  read_only getRange
  /\ read_only getPerformanceMode
  /\ read_only getDataRate
  /\ read_only getOperationMode
  /\ read_only getIntThreshold
  /\ read_only magneticFieldAvailable
  /\ read_only magneticFieldSampleRate
  /\ read_only read
  /\ read_only getEvent
  /\ read_only readMagneticField.
Proof.
  pose proof read_only_getDataRate. pose proof read_only_read.
  repeat match goal with |- _ /\ _ => split end.
  - unfold getRange. read_only.
  - unfold getPerformanceMode. read_only.
  - assumption.
  - unfold getOperationMode. read_only.
  - unfold getIntThreshold. read_only.
  - unfold magneticFieldAvailable. read_only.
  - unfold magneticFieldSampleRate. read_only.
  - assumption.
  - unfold getEvent. read_only.
  - unfold readMagneticField. read_only.
    destruct (negb (fst a1)); read_only.
Qed.

(* ------------------------------------------------------------------ *)
(** ** Register reads in every state *)

Lemma env_Register_read_eq r s :
  reg_width r = 1%nat -> has_transport r = bound (this s) ->
  env (Register_read r) s
  = (register_value (reg_address r) s, attempted_read (reg_address r) 1 s).
Proof.
  intros Hw Hb.
  unfold env, Register_read, Register_read_buffer, transfer_read,
    register_value, attempted_read, transfer_ok, on_world, device_byte.
  rewrite Hw, Hb. destruct s as [d w]; cbn [this world].
  destruct (bound d); [|reflexivity].
  destruct (next_transfer (faults w)) as [[|] f'];
    cbn [andb fst snd dev_read seq map];
    rewrite ?le_value_single, ?Z.add_0_r; reflexivity.
Qed.

Lemma env_RegisterBits_read_eq r bits shift s :
  reg_width r = 1%nat -> has_transport r = bound (this s) ->
  env (RegisterBits_read (RegisterBits r bits shift)) s
  = (field_extract bits shift (register_value (reg_address r) s),
     attempted_read (reg_address r) 1 s).
Proof.
  intros Hw Hb. pose proof (env_Register_read_eq r s Hw Hb) as E.
  unfold env, RegisterBits_read, RegisterBits in *.
  cbn [bits_register bits_bits bits_shift].
  destruct (Register_read r (world s)) as [v w'].
  injection E as -> <-. reflexivity.
Qed.

Ltac read_step :=
  rewrite env_RegisterBits_read_eq by reflexivity;
  cbv beta iota zeta delta [reg_address].

Lemma getRange_eq s :
  getRange s
  = (range_of_value (field_extract 2 5 (register_value LIS3MDL_REG_CTRL_REG2 s)),
     on_this (set_rangeBuffered
                (range_of_value
                   (field_extract 2 5 (register_value LIS3MDL_REG_CTRL_REG2 s))))
       (attempted_read LIS3MDL_REG_CTRL_REG2 1 s)).
Proof. unfold getRange. start. read_step. reflexivity. Qed.

Lemma getPerformanceMode_eq s :
  getPerformanceMode s
  = (performancemode_of_value
       (field_extract 2 5 (register_value LIS3MDL_REG_CTRL_REG1 s)),
     attempted_read LIS3MDL_REG_CTRL_REG1 1 s).
Proof. unfold getPerformanceMode. start. read_step. reflexivity. Qed.

Lemma getDataRate_eq s :
  getDataRate s
  = (field_extract 4 1 (register_value LIS3MDL_REG_CTRL_REG1 s),
     attempted_read LIS3MDL_REG_CTRL_REG1 1 s).
Proof. unfold getDataRate. start. read_step. reflexivity. Qed.

Lemma getOperationMode_eq s :
  getOperationMode s
  = (field_extract 2 0 (register_value LIS3MDL_REG_CTRL_REG3 s),
     attempted_read LIS3MDL_REG_CTRL_REG3 1 s).
Proof. unfold getOperationMode. start. read_step. reflexivity. Qed.

Lemma magneticFieldAvailable_eq s :
  magneticFieldAvailable s
  = (if Z.land (register_value LIS3MDL_REG_STATUS s) 0x08 =? 0 then 0 else 1,
     attempted_read LIS3MDL_REG_STATUS 1 s).
Proof.
  unfold magneticFieldAvailable. start.
  rewrite env_Register_read_eq by reflexivity. reflexivity.
Qed.

Lemma register_value_failed addr s :
  transfer_ok s = false -> register_value addr s = 0xFFFFFFFF.
Proof. intros H. unfold register_value. now rewrite H. Qed.

Lemma magneticFieldSampleRate_fst s :
  fst (magneticFieldSampleRate s)
  = (let rate := fst (getDataRate s) in
     if rate =? dataRate_value LIS3MDL_DATARATE_0_625_HZ then float_lit 5 (-3)
     else if rate =? dataRate_value LIS3MDL_DATARATE_1_25_HZ then float_lit 5 (-2)
     else if rate =? dataRate_value LIS3MDL_DATARATE_2_5_HZ then float_lit 5 (-1)
     else if rate =? dataRate_value LIS3MDL_DATARATE_5_HZ then float_lit 5 0
     else if rate =? dataRate_value LIS3MDL_DATARATE_10_HZ then float_lit 10 0
     else if rate =? dataRate_value LIS3MDL_DATARATE_20_HZ then float_lit 20 0
     else if rate =? dataRate_value LIS3MDL_DATARATE_40_HZ then float_lit 40 0
     else if rate =? dataRate_value LIS3MDL_DATARATE_80_HZ then float_lit 80 0
     else if rate =? dataRate_value LIS3MDL_DATARATE_155_HZ then float_lit 155 0
     else if rate =? dataRate_value LIS3MDL_DATARATE_300_HZ then float_lit 300 0
     else if rate =? dataRate_value LIS3MDL_DATARATE_560_HZ then float_lit 560 0
     else if rate =? dataRate_value LIS3MDL_DATARATE_1000_HZ then float_lit 1000 0
     else Float32.of_int 0).
Proof.
  unfold magneticFieldSampleRate, bind, ret.
  destruct (getDataRate s) as [rate s']. reflexivity.
Qed.

Lemma device_dataRate_range s : 0 <= device_dataRate s < 16.
Proof.
  unfold device_dataRate, device_field, field_extract.
  rewrite field_mask_ones, Z.land_ones by lia.
  apply Z.mod_pos_bound. reflexivity.
Qed.

(** X2. On a working bus [magneticFieldSampleRate] reports the nominal
    frequency of the rate the device holds: after [setDataRate r] it
    returns exactly the frequency the header documents for [r], for each
    of the twelve rates; when the rate field holds one of the four values
    that are no enumerator (9, 11, 13, 15) it returns 0. *)
Theorem magneticFieldSampleRate_reports_nominal_rate (s : Sys) :
  ready s ->
  (forall r : lis3mdl_dataRate_t,
      denotes (fst (magneticFieldSampleRate (snd (setDataRate r s)))) (rate_hz r))
  /\ (forall r : lis3mdl_dataRate_t,
        device_dataRate s = dataRate_value r ->
        denotes (fst (magneticFieldSampleRate s)) (rate_hz r))
  /\ ((forall r : lis3mdl_dataRate_t, device_dataRate s <> dataRate_value r) ->
      fst (magneticFieldSampleRate s) = Float32.of_int 0).
Proof.
  intros H.
  assert (Hat : forall t r, ready t -> device_dataRate t = dataRate_value r ->
                denotes (fst (magneticFieldSampleRate t)) (rate_hz r)).
  { intros t r Ht Hr. rewrite magneticFieldSampleRate_fst.
    rewrite getDataRate_ready by assumption. cbn [fst]. rewrite Hr.
    destruct r; vm_compute; reflexivity. }
  split; [|split].
  - intros r. apply Hat.
    + rewrite setDataRate_ready by assumption. cbn [snd].
      destruct (paired_mode r); auto with ready.
    + rewrite setDataRate_ready by assumption. cbn [snd].
      apply (rate_written r).
  - intros r. now apply Hat.
  - intros Hne. rewrite magneticFieldSampleRate_fst.
    rewrite getDataRate_ready by assumption. cbn [fst].
    pose proof (device_dataRate_range s) as Hrange.
    pose proof (Hne LIS3MDL_DATARATE_0_625_HZ).
    pose proof (Hne LIS3MDL_DATARATE_1_25_HZ).
    pose proof (Hne LIS3MDL_DATARATE_2_5_HZ).
    pose proof (Hne LIS3MDL_DATARATE_5_HZ).
    pose proof (Hne LIS3MDL_DATARATE_10_HZ).
    pose proof (Hne LIS3MDL_DATARATE_20_HZ).
    pose proof (Hne LIS3MDL_DATARATE_40_HZ).
    pose proof (Hne LIS3MDL_DATARATE_80_HZ).
    pose proof (Hne LIS3MDL_DATARATE_155_HZ).
    pose proof (Hne LIS3MDL_DATARATE_300_HZ).
    pose proof (Hne LIS3MDL_DATARATE_560_HZ).
    pose proof (Hne LIS3MDL_DATARATE_1000_HZ).
    cbn [dataRate_value] in *.
    repeat match goal with
    | |- context [?a =? ?b] =>
        destruct (Z.eqb_spec a b); [contradiction|]
    end.
    reflexivity.
Qed.

Lemma land_8 b : Z.land b 0x08 = if Z.testbit b 3 then 0x08 else 0.
Proof.
  apply Z.bits_inj'. intros n Hn. rewrite Z.land_spec.
  change 0x08 with (2 ^ 3). rewrite Z.pow2_bits_eqb by lia.
  destruct (Z.eqb_spec 3 n) as [<-|Hne].
  - destruct (Z.testbit b 3).
    + now rewrite Z.pow2_bits_eqb by lia.
    + now rewrite Z.bits_0.
  - rewrite andb_false_r. destruct (Z.testbit b 3).
    + rewrite Z.pow2_bits_eqb by lia. symmetry. now apply Z.eqb_neq.
    + now rewrite Z.bits_0.
Qed.

(** X3. [magneticFieldAvailable] returns 1 when bit 3 of the status
    register is set and 0 when it is clear - and, because a failed register
    read yields all ones, it returns 1 whenever the read fails (no
    transport bound, or a failed transfer). *)
Theorem magneticFieldAvailable_tests_status_bit (s : Sys) :
  fst (magneticFieldAvailable s)
  = (if transfer_ok s
     then if Z.testbit (device_byte LIS3MDL_REG_STATUS s) 3 then 1 else 0
     else 1).
Proof.
  rewrite magneticFieldAvailable_eq. cbn [fst]. unfold register_value.
  destruct (transfer_ok s); [|reflexivity].
  rewrite land_8. destruct (Z.testbit _ 3); reflexivity.
Qed.

(* ------------------------------------------------------------------ *)
(** ** Interrupt threshold *)

Lemma le_value_le_bytes_2 v : le_value (le_bytes 2 v) = uint16 v.
Proof.
  cbn [le_bytes le_value]. rewrite Z.shiftl_0_l, Z.lor_0_r.
  unfold uint8, uint16. change 0xFF with (Z.ones 8).
  change 0xFFFF with (Z.ones 16). Z.bitblast.
Qed.

Lemma threshold_masked v :
  uint16 (Z.land (uint16 v) 0x7FFF) = Z.land (uint16 v) 0x7FFF
  /\ Z.testbit (uint8 (Z.shiftr (Z.land (uint16 v) 0x7FFF) 8)) 7 = false
  /\ (0 <= v < 0x8000 -> Z.land (uint16 v) 0x7FFF = v).
Proof.
  unfold uint16, uint8. change 0xFF with (Z.ones 8).
  change 0xFFFF with (Z.ones 16). change 0x7FFF with (Z.ones 15).
  split; [Z.bitblast|]. split; [Z.bitblast_core|].
  intros Hv. rewrite !Z.land_ones by lia. change (2 ^ 15) with 0x8000.
  change (2 ^ 16) with 0x10000.
  rewrite (Z.mod_small v 0x10000) by lia. apply Z.mod_small. lia.
Qed.

Lemma setIntThreshold_ready v s :
  ready s ->
  let value := Z.land (uint16 v) 0x7FFF in
  setIntThreshold v s
  = (tt, on_world (fun w =>
           with_regs (store (LIS3MDL_REG_INT_THS_L + 1) (uint8 (Z.shiftr value 8))
                        (store LIS3MDL_REG_INT_THS_L (uint8 value) (regs w)))
             (log [EvWrite LIS3MDL_REG_INT_THS_L (le_bytes 2 value) true] w)) s).
Proof.
  intros [Hb Hf] value. unfold setIntThreshold. fold value. start.
  unfold env, Register_write, has_transport, transfer_write, on_world.
  cbn [reg_i2cdevice reg_spidevice reg_address reg_width].
  unfold bound in Hb. rewrite Hb, Hf. cbn [next_transfer].
  rewrite with_faults_nil by assumption. reflexivity.
Qed.

Lemma getIntThreshold_ready s :
  ready s ->
  getIntThreshold s
  = (uint16 (le_value [device_byte LIS3MDL_REG_INT_THS_L s;
                       device_byte (LIS3MDL_REG_INT_THS_L + 1) s]),
     did_read LIS3MDL_REG_INT_THS_L 2 s).
Proof.
  intros [Hb Hf]. unfold getIntThreshold. start.
  unfold env, Register_read, Register_read_buffer, has_transport, transfer_read,
    did_read, on_world, device_byte.
  cbn [reg_i2cdevice reg_spidevice reg_address reg_width].
  unfold bound in Hb. rewrite Hb, Hf. cbn [next_transfer].
  rewrite with_faults_nil by assumption.
  unfold dev_read. cbn [seq map]. rewrite Z.add_0_r. reflexivity.
Qed.

(** X4. On a working bus [setIntThreshold v] makes one two-byte write at
    the threshold register, low byte first, of [v] with its top bit
    cleared - without reading the register first and without touching any
    other register; bit 7 of the high byte is never set.  A following
    [getIntThreshold] returns [v & 0x7FFF]: every value below 0x8000 comes
    back unchanged. *)
Theorem setIntThreshold_clears_top_bit (v : Z) (s : Sys) :
  ready s ->
  let value := Z.land (uint16 v) 0x7FFF in
  let s' := snd (setIntThreshold v s) in
  added s s' [EvWrite LIS3MDL_REG_INT_THS_L
                [uint8 value; uint8 (Z.shiftr value 8)] true]
  /\ device_byte LIS3MDL_REG_INT_THS_L s' = uint8 value
  /\ device_byte (LIS3MDL_REG_INT_THS_L + 1) s' = uint8 (Z.shiftr value 8)
  /\ Z.testbit (device_byte (LIS3MDL_REG_INT_THS_L + 1) s') 7 = false
  /\ (forall a : Z,
        a <> LIS3MDL_REG_INT_THS_L -> a <> LIS3MDL_REG_INT_THS_L + 1 ->
        regs (world s') a = regs (world s) a)
  /\ fst (getIntThreshold s') = value
  /\ (0 <= v < 0x8000 -> fst (getIntThreshold s') = v).
Proof.
  intros H value s'. subst s'.
  pose proof (setIntThreshold_ready v s H) as E. cbv zeta in E. fold value in E.
  rewrite E. cbn [snd]. clear E.
  set (s' := on_world _ s).
  assert (Hr : ready s') by (destruct H; split; assumption).
  assert (Hlo : device_byte LIS3MDL_REG_INT_THS_L s' = uint8 value)
    by (unfold device_byte; cbn; apply uint8_idem).
  assert (Hhi : device_byte (LIS3MDL_REG_INT_THS_L + 1) s'
                = uint8 (Z.shiftr value 8))
    by (unfold device_byte; cbn; apply uint8_idem).
  destruct (threshold_masked v) as (Hm & Hbit & Hsmall). fold value in Hm, Hbit, Hsmall.
  assert (Hget : fst (getIntThreshold s') = value).
  { rewrite getIntThreshold_ready by assumption. cbn [fst].
    rewrite Hlo, Hhi. change [uint8 value; uint8 (Z.shiftr value 8)]
      with (le_bytes 2 value).
    rewrite le_value_le_bytes_2. now rewrite !Hm. }
  repeat match goal with |- _ /\ _ => split end; try assumption.
  - reflexivity.
  - now rewrite Hhi.
  - intros a H1 H2. subst s'. unfold on_world, store.
    cbn [world regs with_regs].
    apply Z.eqb_neq in H1, H2. now rewrite H2, H1.
  - intros Hv. rewrite Hget. now apply Hsmall.
Qed.

(* ------------------------------------------------------------------ *)
(** ** Getters when the register read fails *)

Lemma getIntThreshold_failed s :
  transfer_ok s = false -> fst (getIntThreshold s) = 0xFFFF.
Proof.
  unfold transfer_ok, bound, getIntThreshold. start.
  unfold env, Register_read, Register_read_buffer, has_transport, transfer_read.
  cbn [reg_i2cdevice reg_spidevice reg_address reg_width].
  destruct (i2c_dev (this s)), (spi_dev (this s));
    destruct (next_transfer (faults (world s))) as [[|] f'];
    cbn [andb fst]; intros Hok; try discriminate Hok; reflexivity.
Qed.

(** X5. When the register read fails - no transport bound, or a failed
    transfer - the getters do not report it: the read yields all ones, so
    [getRange] returns 16 gauss and caches it (the next [read] divides by
    1711 whatever range the device is in), [getPerformanceMode] returns
    ultra-high, [getDataRate] returns 15, which is no enumerator,
    [getOperationMode] returns 3 (power-down), [getIntThreshold] returns
    0xFFFF and [magneticFieldSampleRate] returns 0. *)
Theorem getters_on_failed_read (s : Sys) :
  transfer_ok s = false ->
  fst (getRange s) = LIS3MDL_RANGE_16_GAUSS
  /\ rangeBuffered (this (snd (getRange s))) = LIS3MDL_RANGE_16_GAUSS
  /\ x_gauss (this (snd (read (snd (getRange s)))))
     = Float32.div (Float32.of_int (x (this (snd (read (snd (getRange s)))))))
                   (Float32.of_int 1711)
  /\ fst (getPerformanceMode s) = LIS3MDL_ULTRAHIGHMODE
  /\ fst (getDataRate s) = 15
  /\ fst (getOperationMode s) = operationmode_value LIS3MDL_POWERDOWNMODE
  /\ fst (getIntThreshold s) = 0xFFFF
  /\ fst (magneticFieldSampleRate s) = Float32.of_int 0.
Proof.
  intros Hok.
  rewrite magneticFieldSampleRate_fst.
  rewrite getRange_eq, getPerformanceMode_eq, getDataRate_eq, getOperationMode_eq.
  rewrite !register_value_failed by assumption. cbn [fst snd].
  rewrite read_eq. cbn [snd on_this this].
  rewrite this_after_sample_read.
  repeat match goal with |- _ /\ _ => split end; try reflexivity.
  now apply getIntThreshold_failed.
Qed.

(* ------------------------------------------------------------------ *)
(** ** What a setter leaves alone *)

Lemma wrote_field_frame a bits shift data s :
  quiet a (uint8 (field_insert bits shift data (device_byte a s))) = true ->
  0 <= shift -> 0 <= bits ->
  registers_kept_except [a] s (wrote_field a bits shift data s)
  /\ bits_kept_outside a bits shift s (wrote_field a bits shift data s).
Proof.
  intros Hq Hs Hb. split.
  - intros a' Hin. unfold wrote_field. rewrite regs_wrote by assumption.
    unfold store. destruct (Z.eqb_spec a' a) as [->|]; [|reflexivity].
    exfalso. apply Hin. now left.
  - intros n Hn Hout. unfold wrote_field.
    rewrite device_byte_wrote_same, uint8_idem by assumption.
    now apply testbit_insert_other.
Qed.

Lemma registers_kept_trans l1 l2 s m s' :
  registers_kept_except l1 s m -> registers_kept_except l2 m s' ->
  registers_kept_except (l1 ++ l2) s s'.
Proof.
  intros H1 H2 a Hin. rewrite H2, H1; [reflexivity| |];
    intros Hin'; apply Hin, in_or_app; auto.
Qed.

Lemma device_byte_kept l s s' a :
  registers_kept_except l s s' -> ~ In a l -> device_byte a s' = device_byte a s.
Proof. intros H Hin. unfold device_byte. now rewrite H. Qed.

Lemma field_extract_bits bits shift v v' :
  0 <= shift -> 0 <= bits -> shift + bits <= 8 ->
  (forall n, shift <= n < shift + bits -> Z.testbit v' n = Z.testbit v n) ->
  field_extract bits shift v' = field_extract bits shift v.
Proof.
  intros Hs Hb Hw Hbits. unfold field_extract. rewrite field_mask_ones.
  apply Z.bits_inj'. intros n Hn.
  rewrite !Z.land_spec, !Z.shiftr_spec by assumption.
  destruct (Z.ltb_spec n bits).
  - rewrite Hbits by lia. reflexivity.
  - rewrite Z.ones_spec_high by lia. now rewrite !andb_false_r.
Qed.

Lemma selfTest_ready flag s :
  ready s ->
  selfTest flag s = (tt, wrote_field LIS3MDL_REG_CTRL_REG1 1 0 (Z.b2z flag) s).
Proof. intros H. unfold selfTest. start. step. reflexivity. Qed.

(** X6. On a working bus [setOperationMode m] followed by
    [getOperationMode] returns [m]'s value, for each of the three modes.
    The setter rewrites control register 3 only, and of that register only
    bits 0 and 1; it changes nothing in the driver object. *)
Theorem setOperationMode_round_trip (mode : lis3mdl_operationmode_t) (s : Sys) :
  ready s ->
  let s' := snd (setOperationMode mode s) in
  fst (getOperationMode s') = operationmode_value mode
  /\ device_operationmode s' = operationmode_value mode
  /\ performed s s' [OpRead LIS3MDL_REG_CTRL_REG3; OpWrite LIS3MDL_REG_CTRL_REG3]
  /\ registers_kept_except [LIS3MDL_REG_CTRL_REG3] s s'
  /\ bits_kept_outside LIS3MDL_REG_CTRL_REG3 2 0 s s'
  /\ this s' = this s.
Proof.
  intros H s'. subst s'. rewrite setOperationMode_ready by assumption.
  cbn [snd].
  destruct (wrote_field_frame LIS3MDL_REG_CTRL_REG3 2 0
              (operationmode_value mode) s) as [Hregs Hbits];
    [reflexivity|lia|lia|].
  assert (Hdev : device_operationmode
                   (wrote_field LIS3MDL_REG_CTRL_REG3 2 0
                      (operationmode_value mode) s)
                 = operationmode_value mode).
  { unfold device_operationmode.
    rewrite device_field_wrote_field by (reflexivity || lia).
    destruct mode; reflexivity. }
  rewrite getOperationMode_ready by auto with ready. cbn [fst].
  repeat match goal with |- _ /\ _ => split end; try assumption.
  - apply performed_wrote_field.
  - reflexivity.
Qed.

(** X7. On a working bus [selfTest flag] leaves [flag] in bit 0 of control
    register 1 and keeps the other seven bits, so the data rate and the
    X/Y performance mode held in the same register survive; no other
    register changes. *)
Theorem selfTest_sets_only_bit_0 (flag : bool) (s : Sys) :
  ready s ->
  let s' := snd (selfTest flag s) in
  Z.testbit (device_byte LIS3MDL_REG_CTRL_REG1 s') 0 = flag
  /\ bits_kept_outside LIS3MDL_REG_CTRL_REG1 1 0 s s'
  /\ device_dataRate s' = device_dataRate s
  /\ device_performance_xy s' = device_performance_xy s
  /\ fst (getDataRate s') = fst (getDataRate s)
  /\ fst (getPerformanceMode s') = fst (getPerformanceMode s)
  /\ registers_kept_except [LIS3MDL_REG_CTRL_REG1] s s'
  /\ performed s s' [OpRead LIS3MDL_REG_CTRL_REG1; OpWrite LIS3MDL_REG_CTRL_REG1].
Proof.
  intros H s'. subst s'. rewrite selfTest_ready by assumption. cbn [snd].
  set (s' := wrote_field _ _ _ _ s).
  assert (Hr : ready s') by (subst s'; auto with ready).
  destruct (wrote_field_frame LIS3MDL_REG_CTRL_REG1 1 0 (Z.b2z flag) s)
    as [Hregs Hbits]; [reflexivity|lia|lia|]. fold s' in Hregs, Hbits.
  assert (Hrate : device_dataRate s' = device_dataRate s).
  { unfold device_dataRate, device_field. apply field_extract_bits; try lia.
    intros n Hn. apply Hbits; lia. }
  assert (Hxy : device_performance_xy s' = device_performance_xy s).
  { unfold device_performance_xy, device_field. apply field_extract_bits; try lia.
    intros n Hn. apply Hbits; lia. }
  rewrite !getDataRate_ready, !getPerformanceMode_ready by assumption.
  cbn [fst]. rewrite Hxy.
  repeat match goal with |- _ /\ _ => split end; try assumption; try reflexivity.
  - subst s'. unfold wrote_field.
    rewrite device_byte_wrote_same, uint8_idem by reflexivity.
    rewrite testbit_insert_same by lia. destruct flag; reflexivity.
  - apply performed_wrote_field.
Qed.

Lemma device_field_kept l a bits shift s s' :
  registers_kept_except l s s' -> ~ In a l ->
  device_field a bits shift s' = device_field a bits shift s.
Proof.
  intros H Hin. unfold device_field. now rewrite (device_byte_kept l s s' a).
Qed.

Lemma performance_set_frame mode s :
  registers_kept_except [LIS3MDL_REG_CTRL_REG1; LIS3MDL_REG_CTRL_REG4] s
    (performance_set mode s)
  /\ bits_kept_outside LIS3MDL_REG_CTRL_REG1 2 5 s (performance_set mode s)
  /\ bits_kept_outside LIS3MDL_REG_CTRL_REG4 2 2 s (performance_set mode s).
Proof.
  unfold performance_set.
  set (m := wrote_field LIS3MDL_REG_CTRL_REG1 2 5 (performancemode_value mode) s).
  destruct (wrote_field_frame LIS3MDL_REG_CTRL_REG1 2 5
              (performancemode_value mode) s) as [Hr1 Hb1];
    [reflexivity|lia|lia|]. fold m in Hr1, Hb1.
  destruct (wrote_field_frame LIS3MDL_REG_CTRL_REG4 2 2
              (performancemode_value mode) m) as [Hr4 Hb4];
    [reflexivity|lia|lia|].
  split; [|split].
  - apply (registers_kept_trans [_] [_] s m); assumption.
  - intros n Hn Hout.
    rewrite (device_byte_kept _ _ _ LIS3MDL_REG_CTRL_REG1 Hr4)
      by (cbn; intros [E|[]]; discriminate E).
    now apply Hb1.
  - intros n Hn Hout. rewrite Hb4 by assumption.
    now rewrite (device_byte_kept _ _ _ LIS3MDL_REG_CTRL_REG4 Hr1)
      by (cbn; intros [E|[]]; discriminate E).
Qed.

Lemma registers_kept_refl l s : registers_kept_except l s s.
Proof. intros a _. reflexivity. Qed.

Lemma dataRate_set_frame rate s :
  registers_kept_except [LIS3MDL_REG_CTRL_REG1; LIS3MDL_REG_CTRL_REG4] s
    (dataRate_set rate s)
  /\ Z.testbit (device_byte LIS3MDL_REG_CTRL_REG1 (dataRate_set rate s)) 0
     = Z.testbit (device_byte LIS3MDL_REG_CTRL_REG1 s) 0
  /\ Z.testbit (device_byte LIS3MDL_REG_CTRL_REG1 (dataRate_set rate s)) 7
     = Z.testbit (device_byte LIS3MDL_REG_CTRL_REG1 s) 7
  /\ (paired_mode rate = None ->
      registers_kept_except [LIS3MDL_REG_CTRL_REG1] s (dataRate_set rate s)
      /\ bits_kept_outside LIS3MDL_REG_CTRL_REG1 4 1 s (dataRate_set rate s)).
Proof.
  unfold dataRate_set.
  set (m := match paired_mode rate with
            | Some mode => performance_set mode s
            | None => s
            end).
  destruct (wrote_field_frame LIS3MDL_REG_CTRL_REG1 4 1 (dataRate_value rate)
              (delayed 10 m)) as [Hr Hb]; [reflexivity|lia|lia|].
  assert (Hm : registers_kept_except
                 [LIS3MDL_REG_CTRL_REG1; LIS3MDL_REG_CTRL_REG4] s m
               /\ bits_kept_outside LIS3MDL_REG_CTRL_REG1 2 5 s m).
  { subst m. destruct (paired_mode rate) as [mode|].
    - destruct (performance_set_frame mode s) as (? & ? & ?). now split.
    - split; [apply registers_kept_refl|]. intros n _ _. reflexivity. }
  destruct Hm as [Hmr Hmb].
  split; [|split; [|split]].
  - intros a Hin. rewrite Hr, <- (Hmr a Hin); [reflexivity|].
    intros [E|[]]. apply Hin. left. exact E.
  - rewrite Hb by lia. change (device_byte LIS3MDL_REG_CTRL_REG1 (delayed 10 m))
      with (device_byte LIS3MDL_REG_CTRL_REG1 m). apply Hmb; lia.
  - rewrite Hb by lia. change (device_byte LIS3MDL_REG_CTRL_REG1 (delayed 10 m))
      with (device_byte LIS3MDL_REG_CTRL_REG1 m). apply Hmb; lia.
  - intros Hnone. subst m. rewrite Hnone in *. split; assumption.
Qed.

(** X8. On a working bus, with no soft reset pending, the setters do not
    disturb each other's settings.  [setRange] rewrites only bits 5-6 of
    control register 2; [setPerformanceMode] rewrites only bits 5-6 of
    control register 1 and bits 2-3 of control register 4;
    [setDataRate] touches no register other than control registers 1 and
    4, keeps bit 0 (self test) and bit 7 of control register 1, and for
    the eight rates without a paired mode rewrites only bits 1-4 of
    control register 1.  So each leaves the settings of the others as the
    device held them, and only [setRange] changes the range cache. *)
Theorem setters_keep_other_settings (s : Sys) :
  ready s -> reset_idle s ->
  (forall r : lis3mdl_range_t,
      let s' := snd (setRange r s) in
      registers_kept_except [LIS3MDL_REG_CTRL_REG2] s s'
      /\ bits_kept_outside LIS3MDL_REG_CTRL_REG2 2 5 s s'
      /\ device_performance_xy s' = device_performance_xy s
      /\ device_performance_z s' = device_performance_z s
      /\ device_dataRate s' = device_dataRate s
      /\ device_operationmode s' = device_operationmode s)
  /\ (forall mode : lis3mdl_performancemode_t,
        let s' := snd (setPerformanceMode mode s) in
        registers_kept_except [LIS3MDL_REG_CTRL_REG1; LIS3MDL_REG_CTRL_REG4] s s'
        /\ bits_kept_outside LIS3MDL_REG_CTRL_REG1 2 5 s s'
        /\ bits_kept_outside LIS3MDL_REG_CTRL_REG4 2 2 s s'
        /\ device_dataRate s' = device_dataRate s
        /\ device_range s' = device_range s
        /\ device_operationmode s' = device_operationmode s
        /\ rangeBuffered (this s') = rangeBuffered (this s))
  /\ (forall rate : lis3mdl_dataRate_t,
        let s' := snd (setDataRate rate s) in
        registers_kept_except [LIS3MDL_REG_CTRL_REG1; LIS3MDL_REG_CTRL_REG4] s s'
        /\ Z.testbit (device_byte LIS3MDL_REG_CTRL_REG1 s') 0
           = Z.testbit (device_byte LIS3MDL_REG_CTRL_REG1 s) 0
        /\ Z.testbit (device_byte LIS3MDL_REG_CTRL_REG1 s') 7
           = Z.testbit (device_byte LIS3MDL_REG_CTRL_REG1 s) 7
        /\ device_range s' = device_range s
        /\ device_operationmode s' = device_operationmode s
        /\ rangeBuffered (this s') = rangeBuffered (this s)
        /\ (paired_mode rate = None ->
            registers_kept_except [LIS3MDL_REG_CTRL_REG1] s s'
            /\ bits_kept_outside LIS3MDL_REG_CTRL_REG1 4 1 s s')).
Proof.
  intros H Hidle.
  assert (Hnot : forall a b c : Z, a <> b -> a <> c -> ~ In a [b; c])
    by (intros a b c Hb Hc [E|[E|[]]]; congruence).
  assert (Hnot1 : forall a b : Z, a <> b -> ~ In a [b])
    by (intros a b Hb [E|[]]; congruence).
  split; [|split].
  - intros r s'. subst s'. rewrite setRange_ready by assumption. cbn [snd].
    destruct (wrote_field_frame LIS3MDL_REG_CTRL_REG2 2 5 (range_value r) s)
      as [Hr Hb]; [now apply quiet_range_write|lia|lia|].
    split; [exact Hr|]. split; [exact Hb|].
    unfold device_performance_xy, device_performance_z, device_dataRate,
      device_operationmode.
    repeat split;
      apply (device_field_kept [LIS3MDL_REG_CTRL_REG2]); try exact Hr;
      apply Hnot1; discriminate.
  - intros mode s'. subst s'. rewrite setPerformanceMode_ready by assumption.
    cbn [snd]. destruct (performance_set_frame mode s) as (Hr & Hb1 & Hb4).
    split; [exact Hr|]. split; [exact Hb1|]. split; [exact Hb4|].
    split.
    { unfold device_dataRate, device_field. apply field_extract_bits; try lia.
      intros n Hn. apply Hb1; lia. }
    unfold device_range, device_operationmode.
    rewrite !(device_field_kept _ _ _ _ _ _ Hr) by (apply Hnot; discriminate).
    repeat split.
  - intros rate s'. subst s'. rewrite setDataRate_ready by assumption.
    cbn [snd]. fold (dataRate_set rate s).
    destruct (dataRate_set_frame rate s) as (Hr & H0 & H7 & Hnone).
    split; [exact Hr|]. split; [exact H0|]. split; [exact H7|].
    unfold device_range, device_operationmode.
    rewrite !(device_field_kept _ _ _ _ _ _ Hr) by (apply Hnot; discriminate).
    split; [reflexivity|]. split; [reflexivity|]. split; [|exact Hnone].
    unfold dataRate_set. destruct (paired_mode rate); reflexivity.
Qed.

(* ------------------------------------------------------------------ *)
(** ** Setters when a transfer fails *)

Lemma setRange_caches r s : rangeBuffered (this (snd (setRange r s))) = r.
Proof.
  unfold setRange. start.
  destruct (env _ s) as [ok s1]. reflexivity.
Qed.

Lemma env_RegisterBits_write_failed_write r bits shift data s f :
  has_transport r = true -> reg_width r = 1%nat ->
  faults (world s) = 1%nat :: f ->
  env (RegisterBits_write (RegisterBits r bits shift) data) s
  = (false,
     on_world (fun w =>
       log [EvRead (reg_address r) 1 true;
            EvWrite (reg_address r)
              [uint8 (field_insert bits shift data
                        (device_byte (reg_address r) s))] false]
           (with_faults f w)) s).
Proof.
  intros Hb Hw Hf.
  unfold env, RegisterBits_write, RegisterBits, Register_read,
    Register_read_buffer, Register_write, transfer_read, transfer_write,
    on_world, device_byte.
  cbn [bits_register bits_bits bits_shift]. rewrite Hb, Hw, Hf.
  cbn [next_transfer faults log with_faults dev_read seq map le_bytes].
  rewrite le_value_single, Z.add_0_r. unfold log, with_faults.
  cbn [regs trace garbage clock faults]. rewrite <- app_assoc. reflexivity.
Qed.

Lemma env_RegisterBits_write_failed_read r bits shift data s f :
  has_transport r = true -> reg_width r = 1%nat ->
  faults (world s) = O :: f -> fst (next_transfer f) = true ->
  env (RegisterBits_write (RegisterBits r bits shift) data) s
  = (true,
     let b := uint8 (field_insert bits shift data 0xFFFFFFFF) in
     on_world (fun w =>
       with_regs (dev_write_byte (reg_address r) b (regs w))
         (log [EvRead (reg_address r) 1 false; EvWrite (reg_address r) [b] true]
              (with_faults (snd (next_transfer f)) w))) s).
Proof.
  intros Hb Hw Hf Hok.
  unfold env, RegisterBits_write, RegisterBits, Register_read,
    Register_read_buffer, Register_write, transfer_read, transfer_write,
    on_world.
  cbn [bits_register bits_bits bits_shift]. rewrite Hb, Hw, Hf.
  cbn [next_transfer faults log with_faults].
  destruct (next_transfer f) as [ok f']. cbn [fst] in Hok. subst ok.
  cbn [snd le_bytes dev_write]. unfold log, with_faults, with_regs.
  cbn [regs trace garbage clock faults]. rewrite <- app_assoc. reflexivity.
Qed.

(** X9. [setRange r] always leaves [r] in the range cache, whether or not
    the device took it.  When the register is read but the write back
    fails, the device's registers are exactly as before, so the cache and
    the device's range field can differ from then on.  The failure is not
    reported. *)
Theorem setRange_caches_without_checking
  (r : lis3mdl_range_t) (s : Sys) (f : list nat) :
  bound (this s) = true ->
  faults (world s) = 1%nat :: f ->
  let s' := snd (setRange r s) in
  rangeBuffered (this s') = r
  /\ regs (world s') = regs (world s)
  /\ device_range s' = device_range s
  /\ (exists b : Z,
        added s s' [EvRead LIS3MDL_REG_CTRL_REG2 1 true;
                    EvWrite LIS3MDL_REG_CTRL_REG2 [b] false])
  /\ fst (setRange r s) = tt
  /\ (forall t : Sys, rangeBuffered (this (snd (setRange r t))) = r).
Proof.
  intros Hb Hf s'. subst s'.
  split; [apply setRange_caches|].
  assert (E : snd (setRange r s)
              = on_this (set_rangeBuffered r)
                  (on_world (fun w =>
                     log [EvRead LIS3MDL_REG_CTRL_REG2 1 true;
                          EvWrite LIS3MDL_REG_CTRL_REG2
                            [uint8 (field_insert 2 5 (range_value r)
                                      (device_byte LIS3MDL_REG_CTRL_REG2 s))]
                            false]
                         (with_faults f w)) s)).
  { unfold setRange. start.
    rewrite (env_RegisterBits_write_failed_write _ _ _ _ _ f)
      by first [exact Hb | exact Hf | reflexivity].
    reflexivity. }
  rewrite E.
  split; [reflexivity|]. split; [reflexivity|].
  split; [eexists; reflexivity|].
  split; [destruct (setRange r s) as [[] ?]; reflexivity|].
  intros t. apply setRange_caches.
Qed.

(** X10. A read-modify-write whose read fails but whose write succeeds
    writes ones into every other bit of the register, because the failed
    read yields all ones and the result is not checked.  So
    [setOperationMode m] then leaves [0xFC | m] in control register 3, and
    [setRange r] writes [0x9F | r << 5] to control register 2 - with the
    soft-reset bit set, which makes the device reset itself. *)
Theorem setter_after_failed_read_writes_ones (s : Sys) (f : list nat) :
  bound (this s) = true ->
  faults (world s) = O :: f ->
  fst (next_transfer f) = true ->
  (forall mode : lis3mdl_operationmode_t,
      let s' := snd (setOperationMode mode s) in
      let b := Z.lor 0xFC (operationmode_value mode) in
      added s s' [EvRead LIS3MDL_REG_CTRL_REG3 1 false;
                  EvWrite LIS3MDL_REG_CTRL_REG3 [b] true]
      /\ device_byte LIS3MDL_REG_CTRL_REG3 s' = b)
  /\ (forall r : lis3mdl_range_t,
        let s' := snd (setRange r s) in
        let b := Z.lor 0x9F (Z.shiftl (range_value r) 5) in
        added s s' [EvRead LIS3MDL_REG_CTRL_REG2 1 false;
                    EvWrite LIS3MDL_REG_CTRL_REG2 [b] true]
        /\ Z.testbit b 2 = true
        /\ regs (world s')
           = soft_reset (store LIS3MDL_REG_CTRL_REG2 b (regs (world s)))
        /\ rangeBuffered (this s') = r).
Proof.
  intros Hb Hf Hok. split.
  - intros mode s' b. subst s' b. unfold setOperationMode. start.
    rewrite (env_RegisterBits_write_failed_read _ _ _ _ _ f)
      by first [exact Hb | exact Hf | exact Hok | reflexivity].
    cbv beta iota zeta. cbn [snd reg_address].
    destruct mode; split; reflexivity.
  - intros r s' b. subst s' b. unfold setRange. start.
    rewrite (env_RegisterBits_write_failed_read _ _ _ _ _ f)
      by first [exact Hb | exact Hf | exact Hok | reflexivity].
    cbv beta iota zeta. cbn [snd reg_address].
    destruct r; repeat split.
Qed.

(* ------------------------------------------------------------------ *)
(** ** A driver that was never bound *)

Lemma offline_ret {A} (a : A) : offline (ret a).
Proof.
  intros s Hb. repeat split; try assumption. exists []. now rewrite app_nil_r.
Qed.

Lemma offline_bind {A B} (c : M A) (k : A -> M B) :
  offline c -> (forall a, offline (k a)) -> offline (bind c k).
Proof.
  intros Hc Hk s Hb. unfold bind. specialize (Hc s Hb).
  destruct (c s) as [a s1]. cbn [snd] in Hc.
  destruct Hc as (Hb1 & Hr1 & Hf1 & e1 & He1 & Hd1).
  destruct (Hk a s1 Hb1) as (Hb2 & Hr2 & Hf2 & e2 & He2 & Hd2).
  split; [exact Hb2|]. split; [congruence|]. split; [congruence|].
  exists (e1 ++ e2). split.
  - now rewrite He2, He1, app_assoc.
  - now rewrite forallb_app, Hd1, Hd2.
Qed.

Lemma offline_get_this : offline get_this.
Proof.
  intros s Hb. repeat split; try assumption. exists []. now rewrite app_nil_r.
Qed.

Lemma offline_set_this f :
  (forall d, bound (f d) = bound d) -> offline (set_this f).
Proof.
  intros Hf s Hb. cbn [set_this snd this world]. rewrite Hf.
  repeat split; try assumption. exists []. now rewrite app_nil_r.
Qed.

Lemma offline_env_same {A} (f : World -> A * World) :
  (forall w, snd (f w) = w) -> offline (env f).
Proof.
  intros Hf s Hb. unfold env. specialize (Hf (world s)).
  destruct (f (world s)) as [a w]. cbn [snd] in *. subst w. cbn [this world].
  repeat split; try assumption. exists []. now rewrite app_nil_r.
Qed.

Lemma offline_delay ms : offline (delay ms).
Proof.
  intros s Hb. unfold delay, env. cbn [snd this world regs faults trace log with_clock].
  repeat split; try assumption. eexists. split; reflexivity.
Qed.

(** The register objects of an unbound driver have no transport. *)
Lemma offline_Register {B} addr width (k : Adafruit_BusIO_Register -> M B) :
  (forall r, has_transport r = false -> offline (k r)) ->
  offline (r <- Register addr width ;; k r).
Proof.
  intros Hk s Hb. unfold Register.
  cbv beta iota zeta delta [bind get_this ret].
  apply Hk; [|exact Hb]. exact Hb.
Qed.

Lemma no_transport_read_buffer r len w :
  has_transport r = false -> Register_read_buffer r len w = (None, w).
Proof. intros H. unfold Register_read_buffer. now rewrite H. Qed.

Lemma no_transport_read r w :
  has_transport r = false -> Register_read r w = (0xFFFFFFFF, w).
Proof. intros H. unfold Register_read. now rewrite no_transport_read_buffer. Qed.

Lemma no_transport_write r v w :
  has_transport r = false -> Register_write r v w = (false, w).
Proof. intros H. unfold Register_write. now rewrite H. Qed.

Lemma no_transport_bits_read r bits shift w :
  has_transport r = false ->
  snd (RegisterBits_read (RegisterBits r bits shift) w) = w.
Proof.
  intros H. unfold RegisterBits_read, RegisterBits. cbn [bits_register].
  now rewrite no_transport_read.
Qed.

Lemma no_transport_bits_write r bits shift data w :
  has_transport r = false ->
  snd (RegisterBits_write (RegisterBits r bits shift) data w) = w.
Proof.
  intros H. unfold RegisterBits_write, RegisterBits. cbn [bits_register].
  now rewrite no_transport_read, no_transport_write.
Qed.

Ltac offline_env :=
  apply offline_env_same; intros ?;
  first [ reflexivity
        | apply no_transport_bits_read; assumption
        | apply no_transport_bits_write; assumption
        | rewrite no_transport_read by assumption; reflexivity
        | rewrite no_transport_write by assumption; reflexivity
        | rewrite no_transport_read_buffer by assumption; reflexivity ].

Ltac offline :=
  repeat first
    [ progress cbv zeta
    | assumption
    | apply offline_ret
    | apply offline_delay
    | apply offline_get_this
    | apply offline_set_this; intros ?; reflexivity
    | apply offline_Register; intros ? ?
    | offline_env
    | match goal with
      | |- offline (when ?c _) => destruct c; cbv beta iota delta [when]
      | |- offline (if ?c then _ else _) => destruct c
      | |- offline (match ?c with Some _ => _ | None => _ end) => destruct c
      end
    | apply offline_bind; [|intros ?] ].

Lemma offline_getRange : offline getRange.
Proof. unfold getRange. offline. Qed.

Lemma offline_getDataRate : offline getDataRate.
Proof. unfold getDataRate. offline. Qed.

Lemma offline_setPerformanceMode mode : offline (setPerformanceMode mode).
Proof. unfold setPerformanceMode. offline. Qed.

Lemma offline_read : offline read.
Proof. unfold read, read_into, local_buffer. offline. Qed.

Lemma offline_reset : offline reset.
Proof. pose proof offline_getRange. unfold reset. offline. Qed.

Lemma offline_setDataRate rate : offline (setDataRate rate).
Proof.
  pose proof offline_setPerformanceMode. unfold setDataRate. offline.
Qed.

Lemma offline_setRange r : offline (setRange r).
Proof. unfold setRange. offline. Qed.

Lemma offline_setOperationMode m : offline (setOperationMode m).
Proof. unfold setOperationMode. offline. Qed.

(** X11. On a driver that was never bound to a transport no member
    function makes a bus transaction: the device's registers and the bus
    are as before, the only events are the delays of [reset] and
    [setDataRate], and both transport pointers stay null.  [_init] returns
    false. *)
Theorem unbound_driver_stays_off_the_bus :
  offline getRange /\ offline reset /\ offline read /\ offline getEvent
  /\ (forall mode, offline (setPerformanceMode mode))
  /\ offline getPerformanceMode
  /\ (forall rate, offline (setDataRate rate))
  /\ offline getDataRate
  /\ (forall mode, offline (setOperationMode mode))
  /\ offline getOperationMode
  /\ (forall r, offline (setRange r))
  /\ (forall v, offline (setIntThreshold v))
  /\ offline getIntThreshold
  /\ (forall eX eY eZ pol latch eInt,
        offline (configInterrupt eX eY eZ pol latch eInt))
  /\ (forall flag, offline (selfTest flag))
  /\ offline magneticFieldSampleRate
  /\ offline magneticFieldAvailable
  /\ offline readMagneticField
  /\ offline _init
  /\ (forall s, bound (this s) = false -> fst (_init s) = false).
Proof.
  pose proof offline_getRange. pose proof offline_getDataRate.
  pose proof offline_setPerformanceMode. pose proof offline_read.
  pose proof offline_reset. pose proof offline_setDataRate.
  pose proof offline_setRange. pose proof offline_setOperationMode.
  repeat match goal with |- _ /\ _ => split end; try assumption.
  - unfold getEvent, millis. offline.
  - unfold getPerformanceMode. offline.
  - unfold getOperationMode. offline.
  - intros v. unfold setIntThreshold. offline.
  - unfold getIntThreshold. offline.
  - intros. unfold configInterrupt. offline.
  - intros. unfold selfTest. offline.
  - unfold magneticFieldSampleRate. offline.
  - unfold magneticFieldAvailable. offline.
  - unfold readMagneticField, read_into, local_buffer. offline.
  - unfold _init. offline.
  - intros s Hb. rewrite init_eq, chip_id_read_eq.
    unfold transfer_ok. rewrite Hb. reflexivity.
Qed.

(* ------------------------------------------------------------------ *)
(** ** The values [read] stores, in every state *)

(** A value within one rounding of [raw / scale] is at most 20 in
    magnitude, for a scale of at least 1711. *)
Lemma bound_from_accuracy (v : Q) (raw : Z) (scale : positive) :
  -32768 <= raw <= 32767 -> 1711 <= Zpos scale ->
  (Qabs (v - (raw # scale)) <= (Z.abs raw # scale * 2 ^ 24))%Q ->
  (Qabs (v - (0 # 1)) <= 20 # 1)%Q.
Proof.
  intros Hraw Hs Hacc.
  assert (E : (v - (0 # 1) == (v - (raw # scale)) + (raw # scale))%Q) by ring.
  rewrite E.
  eapply Qle_trans; [apply Qabs_triangle|].
  eapply Qle_trans; [apply Qplus_le_compat; [exact Hacc|apply Qle_refl]|].
  change (Qabs (raw # scale)) with (Z.abs raw # scale)%Q.
  unfold Qle, Qplus. cbn [Qnum Qden].
  change (2 ^ 24)%positive with 16777216%positive.
  nia.
Qed.

Lemma gauss_bounded r raw :
  -32768 <= raw <= 32767 -> within (gauss_of_raw r raw) (0 # 1) (20 # 1).
Proof.
  intros H. pose proof (gauss_conversion_accurate r raw H) as Hacc.
  unfold within in *. destruct (SF2Q (gauss_of_raw r raw)) as [v|]; [|exact Hacc].
  apply (bound_from_accuracy v raw (Z.to_pos (lsb_per_gauss r)) H);
    [destruct r; vm_compute; discriminate|exact Hacc].
Qed.

Lemma sample_stored_values buffer d :
  let d' := sample_stored buffer d in
  let r := rangeBuffered d in
  x d' = decode_sample buffer 0
  /\ y d' = decode_sample buffer 2
  /\ z d' = decode_sample buffer 4
  /\ x_gauss d' = gauss_of_raw r (x d')
  /\ y_gauss d' = gauss_of_raw r (y d')
  /\ z_gauss d' = gauss_of_raw r (z d')
  /\ rangeBuffered d' = r.
Proof. repeat split. Qed.

Lemma decode_sample_range buffer i : -32768 <= decode_sample buffer i <= 32767.
Proof. unfold decode_sample. apply int16_range. Qed.

(** X12. In every state - failed transfers and an unbound driver
    included - [read] leaves three raw members within the range of
    [int16_t] and three gauss members that are the [float] quotients of
    the raw members by the cached range's scale constant: finite numbers
    of magnitude at most 20, never not-a-number or infinite.  The range
    cache is not changed. *)
Theorem read_stores_finite_values (s : Sys) :
  let d := this (snd (read s)) in
  let r := rangeBuffered (this s) in
  (-32768 <= x d <= 32767 /\ -32768 <= y d <= 32767 /\ -32768 <= z d <= 32767)
  /\ x_gauss d = gauss_of_raw r (x d)
  /\ y_gauss d = gauss_of_raw r (y d)
  /\ z_gauss d = gauss_of_raw r (z d)
  /\ within (x_gauss d) (0 # 1) (20 # 1)
  /\ within (y_gauss d) (0 # 1) (20 # 1)
  /\ within (z_gauss d) (0 # 1) (20 # 1)
  /\ rangeBuffered d = r.
Proof.
  intros d r. subst d r. rewrite read_eq. cbn [snd on_this this].
  rewrite this_after_sample_read.
  destruct (sample_stored_values (sample_buffer s) (this s))
    as (Hx & Hy & Hz & Hgx & Hgy & Hgz & Hr).
  cbv zeta in *. rewrite Hgx, Hgy, Hgz, Hx, Hy, Hz.
  pose proof (decode_sample_range (sample_buffer s)) as Hrange.
  repeat match goal with |- _ /\ _ => split end;
    try apply Hrange; try reflexivity; try exact Hr;
    apply gauss_bounded, Hrange.
Qed.

(* ------------------------------------------------------------------ *)
(** ** Initialisation on a bus that fails after the identity check *)

Lemma on_dead_bus_ret {A} (a : A) : on_dead_bus 0 [] (ret a).
Proof.
  intros s f Hb Hf. cbn [ret snd]. split; [exact Hb|]. split; [exact Hf|].
  split; [reflexivity|]. exists []. split; [now rewrite app_nil_r|reflexivity].
Qed.

Lemma on_dead_bus_bind {A B} n m ops ops' N OPS (c : M A) (k : A -> M B) :
  on_dead_bus n ops c -> (forall a, on_dead_bus m ops' (k a)) ->
  N = (n + m)%nat -> OPS = ops ++ ops' ->
  on_dead_bus N OPS (bind c k).
Proof.
  intros Hc Hk -> -> s f Hb Hf. unfold bind.
  rewrite repeat_app, <- app_assoc in Hf.
  specialize (Hc s _ Hb Hf). destruct (c s) as [a s1]. cbn [snd] in Hc.
  destruct Hc as (Hb1 & Hf1 & Hr1 & Hp1).
  destruct (Hk a s1 f Hb1 Hf1) as (Hb2 & Hf2 & Hr2 & Hp2).
  split; [exact Hb2|]. split; [exact Hf2|]. split; [congruence|].
  exact (performed_app _ _ _ _ _ Hp1 Hp2).
Qed.

Lemma on_dead_bus_get_this : on_dead_bus 0 [] get_this.
Proof.
  intros s f Hb Hf. cbn [get_this snd]. split; [exact Hb|]. split; [exact Hf|].
  split; [reflexivity|]. exists []. split; [now rewrite app_nil_r|reflexivity].
Qed.

Lemma on_dead_bus_set_this g :
  (forall d, bound (g d) = bound d) -> on_dead_bus 0 [] (set_this g).
Proof.
  intros Hg s f Hb Hf. cbn [set_this snd this world]. rewrite Hg.
  split; [exact Hb|]. split; [exact Hf|].
  split; [reflexivity|]. exists []. split; [now rewrite app_nil_r|reflexivity].
Qed.

Lemma on_dead_bus_delay ms : on_dead_bus 0 [OpDelay ms] (delay ms).
Proof.
  intros s f Hb Hf. unfold delay, env.
  cbn [snd this world regs faults trace log with_clock].
  split; [exact Hb|]. split; [exact Hf|]. split; [reflexivity|].
  eexists. split; reflexivity.
Qed.

(** The register objects of a bound driver have a transport. *)
Lemma on_dead_bus_Register {B} addr width n ops
  (k : Adafruit_BusIO_Register -> M B) :
  (forall r, has_transport r = true -> reg_address r = addr ->
             on_dead_bus n ops (k r)) ->
  on_dead_bus n ops (r <- Register addr width ;; k r).
Proof.
  intros Hk s f Hb Hf. unfold Register.
  cbv beta iota zeta delta [bind get_this ret].
  apply Hk; [exact Hb|reflexivity|exact Hb|exact Hf].
Qed.

Lemma on_dead_bus_bits_read r addr bits shift :
  has_transport r = true -> reg_address r = addr ->
  on_dead_bus 1 [OpRead addr] (env (RegisterBits_read (RegisterBits r bits shift))).
Proof.
  intros Ht Ha s f Hb Hf. cbn [repeat app] in Hf.
  unfold env, RegisterBits_read, RegisterBits, Register_read,
    Register_read_buffer, transfer_read.
  cbn [bits_register bits_bits bits_shift]. rewrite Ht, Hf, Ha.
  cbn [next_transfer snd this world regs faults trace log with_faults].
  split; [exact Hb|]. split; [reflexivity|]. split; [reflexivity|].
  eexists. split; reflexivity.
Qed.

Lemma on_dead_bus_bits_write r addr bits shift data :
  has_transport r = true -> reg_address r = addr ->
  on_dead_bus 2 [OpRead addr; OpWrite addr]
    (env (RegisterBits_write (RegisterBits r bits shift) data)).
Proof.
  intros Ht Ha s f Hb Hf. cbn [repeat app] in Hf.
  unfold env, RegisterBits_write, RegisterBits, Register_read,
    Register_read_buffer, Register_write, transfer_read, transfer_write.
  cbn [bits_register bits_bits bits_shift]. rewrite Ht, Hf, Ha.
  cbn [next_transfer snd this world regs faults trace log with_faults].
  split; [exact Hb|]. split; [reflexivity|]. split; [reflexivity|].
  eexists. split.
  - unfold log, with_faults. cbn [world regs trace garbage clock faults].
    rewrite <- app_assoc. reflexivity.
  - reflexivity.
Qed.

Lemma on_dead_bus_write r addr value :
  has_transport r = true -> reg_address r = addr ->
  on_dead_bus 1 [OpWrite addr] (env (Register_write r value)).
Proof.
  intros Ht Ha s f Hb Hf. cbn [repeat app] in Hf.
  unfold env, Register_write, transfer_write.
  rewrite Ht, Hf, Ha.
  cbn [next_transfer snd this world regs faults trace log with_faults].
  split; [exact Hb|]. split; [reflexivity|]. split; [reflexivity|].
  eexists. split; reflexivity.
Qed.

Ltac on_dead_bus :=
  cbv zeta;
  lazymatch goal with
  | |- on_dead_bus _ _ (ret _) => apply on_dead_bus_ret
  | |- on_dead_bus _ _ (delay _) => apply on_dead_bus_delay
  | |- on_dead_bus _ _ get_this => apply on_dead_bus_get_this
  | |- on_dead_bus _ _ (set_this _) =>
      apply on_dead_bus_set_this; intros ?; reflexivity
  | |- on_dead_bus _ _ (bind (Register _ _) _) =>
      apply on_dead_bus_Register; intros ? ? ?; on_dead_bus
  | |- on_dead_bus _ _ (env (RegisterBits_write _ _)) =>
      eapply on_dead_bus_bits_write; eassumption
  | |- on_dead_bus _ _ (env (RegisterBits_read _)) =>
      eapply on_dead_bus_bits_read; eassumption
  | |- on_dead_bus _ _ (bind _ _) =>
      eapply on_dead_bus_bind;
        [on_dead_bus|intros ?; on_dead_bus|reflexivity|reflexivity]
  | |- on_dead_bus _ _ (env (Register_write _ _)) =>
      eapply on_dead_bus_write; eassumption
  | |- on_dead_bus _ _ (when ?c _) =>
      let b := eval vm_compute in c in
      change c with b; cbv beta iota delta [when]; on_dead_bus
  | |- on_dead_bus _ _ _ => solve [eauto]
  end.

Lemma on_dead_bus_getRange :
  on_dead_bus 1 [OpRead LIS3MDL_REG_CTRL_REG2] getRange.
Proof. unfold getRange. on_dead_bus. Qed.

Lemma on_dead_bus_reset :
  on_dead_bus 3
    [OpRead LIS3MDL_REG_CTRL_REG2; OpWrite LIS3MDL_REG_CTRL_REG2; OpDelay 10;
     OpRead LIS3MDL_REG_CTRL_REG2] reset.
Proof. pose proof on_dead_bus_getRange. unfold reset. on_dead_bus. Qed.

Lemma on_dead_bus_setPerformanceMode mode :
  on_dead_bus 4
    [OpRead LIS3MDL_REG_CTRL_REG1; OpWrite LIS3MDL_REG_CTRL_REG1;
     OpRead LIS3MDL_REG_CTRL_REG4; OpWrite LIS3MDL_REG_CTRL_REG4]
    (setPerformanceMode mode).
Proof. unfold setPerformanceMode. on_dead_bus. Qed.

Lemma on_dead_bus_setDataRate rate :
  on_dead_bus (match paired_mode rate with Some _ => 6 | None => 2 end)
    (match paired_mode rate with
     | Some _ => [OpRead LIS3MDL_REG_CTRL_REG1; OpWrite LIS3MDL_REG_CTRL_REG1;
                  OpRead LIS3MDL_REG_CTRL_REG4; OpWrite LIS3MDL_REG_CTRL_REG4]
     | None => []
     end ++ [OpDelay 10;
             OpRead LIS3MDL_REG_CTRL_REG1; OpWrite LIS3MDL_REG_CTRL_REG1])
    (setDataRate rate).
Proof.
  pose proof on_dead_bus_setPerformanceMode as Hp.
  destruct rate; cbn [paired_mode app]; unfold setDataRate; on_dead_bus.
Qed.

Lemma on_dead_bus_setRange range :
  on_dead_bus 2 [OpRead LIS3MDL_REG_CTRL_REG2; OpWrite LIS3MDL_REG_CTRL_REG2]
    (setRange range).
Proof. unfold setRange. on_dead_bus. Qed.

Lemma on_dead_bus_setOperationMode mode :
  on_dead_bus 2 [OpRead LIS3MDL_REG_CTRL_REG3; OpWrite LIS3MDL_REG_CTRL_REG3]
    (setOperationMode mode).
Proof. unfold setOperationMode. on_dead_bus. Qed.

Lemma on_dead_bus_configure : on_dead_bus 17 (tl init_ops) configure.
Proof.
  pose proof on_dead_bus_reset.
  pose proof (on_dead_bus_setPerformanceMode LIS3MDL_ULTRAHIGHMODE).
  pose proof (on_dead_bus_setDataRate LIS3MDL_DATARATE_155_HZ) as Hrate.
  cbn [paired_mode app] in Hrate.
  pose proof (on_dead_bus_setRange LIS3MDL_RANGE_4_GAUSS).
  pose proof (on_dead_bus_setOperationMode LIS3MDL_CONTINUOUSMODE).
  unfold configure. on_dead_bus.
Qed.

Lemma this_setOperationMode mode s :
  this (snd (setOperationMode mode s)) = this s.
Proof.
  unfold setOperationMode, Register, env.
  cbv beta iota zeta delta [bind get_this ret].
  destruct (RegisterBits_write _ _ _). reflexivity.
Qed.

Lemma configure_caches_4_gauss s :
  rangeBuffered (this (snd (configure s))) = LIS3MDL_RANGE_4_GAUSS.
Proof.
  unfold configure. cbv beta iota zeta delta [bind ret].
  destruct (reset s) as [? s1].
  destruct (setPerformanceMode _ s1) as [? s2].
  destruct (setDataRate _ s2) as [? s3].
  pose proof (setRange_caches LIS3MDL_RANGE_4_GAUSS s3) as Hc.
  destruct (setRange _ s3) as [? s4]. cbn [snd] in Hc.
  pose proof (this_setOperationMode LIS3MDL_CONTINUOUSMODE s4) as Ht.
  destruct (setOperationMode _ s4) as [? s5]. cbn [snd] in *.
  now rewrite Ht.
Qed.

(** X13. On a bound driver whose bus transfers fail, the setters go
    through all their bus operations - each read-modify-write still
    attempts its write after the failed read - return normally, and leave
    the device's registers as they were: [reset] makes three transfers,
    [setPerformanceMode] four, [setDataRate] six for a rate with a paired
    mode and two otherwise, [setRange], [setOperationMode] and [selfTest]
    two, [setIntThreshold] and [configInterrupt] one. *)
Theorem setters_on_failing_bus :
  on_dead_bus 3
    [OpRead LIS3MDL_REG_CTRL_REG2; OpWrite LIS3MDL_REG_CTRL_REG2; OpDelay 10;
     OpRead LIS3MDL_REG_CTRL_REG2] reset
  /\ (forall mode,
        on_dead_bus 4
          [OpRead LIS3MDL_REG_CTRL_REG1; OpWrite LIS3MDL_REG_CTRL_REG1;
           OpRead LIS3MDL_REG_CTRL_REG4; OpWrite LIS3MDL_REG_CTRL_REG4]
          (setPerformanceMode mode))
  /\ (forall rate,
        on_dead_bus (match paired_mode rate with Some _ => 6 | None => 2 end)
          (match paired_mode rate with
           | Some _ =>
               [OpRead LIS3MDL_REG_CTRL_REG1; OpWrite LIS3MDL_REG_CTRL_REG1;
                OpRead LIS3MDL_REG_CTRL_REG4; OpWrite LIS3MDL_REG_CTRL_REG4]
           | None => []
           end ++ [OpDelay 10;
                   OpRead LIS3MDL_REG_CTRL_REG1; OpWrite LIS3MDL_REG_CTRL_REG1])
          (setDataRate rate))
  /\ (forall range,
        on_dead_bus 2
          [OpRead LIS3MDL_REG_CTRL_REG2; OpWrite LIS3MDL_REG_CTRL_REG2]
          (setRange range))
  /\ (forall mode,
        on_dead_bus 2
          [OpRead LIS3MDL_REG_CTRL_REG3; OpWrite LIS3MDL_REG_CTRL_REG3]
          (setOperationMode mode))
  /\ (forall flag,
        on_dead_bus 2
          [OpRead LIS3MDL_REG_CTRL_REG1; OpWrite LIS3MDL_REG_CTRL_REG1]
          (selfTest flag))
  /\ (forall v,
        on_dead_bus 1 [OpWrite LIS3MDL_REG_INT_THS_L] (setIntThreshold v))
  /\ (forall enableX enableY enableZ polarity latch enableInt,
        on_dead_bus 1 [OpWrite LIS3MDL_REG_INT_CFG]
          (configInterrupt enableX enableY enableZ polarity latch enableInt)).
Proof.
  split; [exact on_dead_bus_reset|].
  split; [exact on_dead_bus_setPerformanceMode|].
  split; [exact on_dead_bus_setDataRate|].
  split; [exact on_dead_bus_setRange|].
  split; [exact on_dead_bus_setOperationMode|].
  split; [intros; unfold selfTest; on_dead_bus|].
  split; [intros; unfold setIntThreshold; on_dead_bus|].
  intros; unfold configInterrupt; on_dead_bus.
Qed.

(** X14. The result of [_init] vouches for the identity check only.  When
    the identity register reads 0x3D and each of the seventeen transfers
    after it fails, [_init] still goes through the whole sequence of
    reset and default configuration and returns true, while the device's
    registers are exactly as before: nothing was reset or configured, and
    the range cache says 4 gauss whatever range the device is in.
    [begin_I2C] returns that result as its own. *)
Theorem init_true_though_nothing_configured (s : Sys) (f : list nat) :
  bound (this s) = true ->
  faults (world s) = 1%nat :: repeat O 16 ++ f ->
  device_byte LIS3MDL_REG_WHO_AM_I s = 0x3D ->
  let s' := snd (_init s) in
  fst (_init s) = true
  /\ performed s s' init_ops
  /\ regs (world s') = regs (world s)
  /\ faults (world s') = f
  /\ rangeBuffered (this s') = LIS3MDL_RANGE_4_GAUSS
  /\ (forall (i2c_address wire : Z) (t : Sys),
        faults (world t) = 2%nat :: repeat O 16 ++ f ->
        device_byte LIS3MDL_REG_WHO_AM_I t = 0x3D ->
        let t' := snd (begin_I2C i2c_address wire t) in
        fst (begin_I2C i2c_address wire t) = true
        /\ regs (world t') = regs (world t)
        /\ rangeBuffered (this t') = LIS3MDL_RANGE_4_GAUSS).
Proof.
  assert (Hinit : forall u : Sys,
             bound (this u) = true ->
             faults (world u) = 1%nat :: repeat O 16 ++ f ->
             device_byte LIS3MDL_REG_WHO_AM_I u = 0x3D ->
             fst (_init u) = true
             /\ performed u (snd (_init u)) init_ops
             /\ regs (world (snd (_init u))) = regs (world u)
             /\ faults (world (snd (_init u))) = f
             /\ rangeBuffered (this (snd (_init u))) = LIS3MDL_RANGE_4_GAUSS).
  { intros u Hb Hf Hid. rewrite init_eq, chip_id_read_eq.
    unfold transfer_ok, on_world. rewrite Hb, Hf, Hid.
    cbn [next_transfer andb fst snd]. change (0x3D =? 0x3D) with true.
    cbv iota.
    set (u0 := {| this := this u; world := _ |}).
    destruct (on_dead_bus_configure u0 f Hb eq_refl) as (_ & Hf' & Hr & Hp).
    split; [apply configure_true|].
    split; [|split; [exact Hr|split; [exact Hf'|apply configure_caches_4_gauss]]].
    apply (performed_app u u0 _ [OpRead LIS3MDL_REG_WHO_AM_I] (tl init_ops));
      [|exact Hp].
    exists [EvRead LIS3MDL_REG_WHO_AM_I 1 true]. split; reflexivity. }
  intros Hb Hf Hid s'. subst s'.
  destruct (Hinit s Hb Hf Hid) as (H1 & H2 & H3 & H4 & H5).
  repeat match goal with |- _ /\ _ => split end; try assumption.
  intros i2c_address wire t Ht Htid t'. subst t'.
  rewrite begin_I2C_eq, Ht. cbn [next_transfer fst].
  set (t0 := handshaken _ _ t).
  assert (Hregs : regs (world t0) = regs (world t)).
  { subst t0. unfold handshaken, released. cbn [world regs log with_faults].
    destruct (i2c_dev (this t)), (spi_dev (this t)); reflexivity. }
  destruct (Hinit t0) as (G1 & _ & G3 & _ & G5).
  - reflexivity.
  - subst t0. unfold handshaken. cbn [world faults log with_faults].
    rewrite Ht. reflexivity.
  - unfold device_byte in *. rewrite Hregs. exact Htid.
  - split; [exact G1|]. split; [congruence|exact G5].
Qed.

(* ------------------------------------------------------------------ *)
(** ** From a bind to the first sample *)

Lemma regs_handshaken i2c spi s : regs (world (handshaken i2c spi s)) = regs (world s).
Proof.
  unfold handshaken, released. cbn [world regs log with_faults].
  destruct (i2c_dev (this s)), (spi_dev (this s)); reflexivity.
Qed.

Lemma read_uses_cache s :
  let d := this (snd (read s)) in
  let scale := Float32.of_int (lsb_per_gauss (rangeBuffered (this s))) in
  x_gauss d = Float32.div (Float32.of_int (x d)) scale
  /\ y_gauss d = Float32.div (Float32.of_int (y d)) scale
  /\ z_gauss d = Float32.div (Float32.of_int (z d)) scale.
Proof.
  cbv zeta. rewrite read_eq. cbn [snd on_this this].
  rewrite this_after_sample_read. repeat split.
Qed.

Lemma brought_up_intro i2c spi s r :
  faults (world s) = [] ->
  (forall m : Z -> Z,
      Z.testbit (uint8 (soft_reset m LIS3MDL_REG_CTRL_REG2)) 2 = false) ->
  bound (set_spi_dev spi (set_i2c_dev i2c (this s))) = true ->
  r = (if fst (next_transfer (faults (world s)))
       then _init (handshaken i2c spi s)
       else (false, handshaken i2c spi s)) ->
  brought_up s r.
Proof.
  intros Hf Hclr Hb ->. rewrite Hf. cbn [next_transfer fst].
  set (h := handshaken i2c spi s).
  assert (Hh : ready h).
  { split; [exact Hb|]. subst h. unfold handshaken.
    cbn [world faults log with_faults]. now rewrite Hf. }
  assert (Hid : device_byte LIS3MDL_REG_WHO_AM_I h
                = device_byte LIS3MDL_REG_WHO_AM_I s).
  { unfold device_byte. subst h. now rewrite regs_handshaken. }
  unfold brought_up. cbv zeta.
  rewrite init_eq, chip_id_read_ready by assumption. rewrite Hid.
  destruct (device_byte LIS3MDL_REG_WHO_AM_I s =? 0x3D).
  - rewrite configure_ready by auto with ready. cbn [fst snd].
    set (s0 := reset_done (did_read LIS3MDL_REG_WHO_AM_I 1 h)).
    assert (Hr : ready (defaults_set s0)) by (subst s0; auto with ready).
    destruct (defaults_set_fields s0 (reset_idle_reset_done _ Hclr))
      as (_ & _ & _ & Hrange & Hcache & _).
    cbv zeta in Hrange, Hcache.
    split; [reflexivity|]. split; [exact Hr|].
    split; [exact Hcache|]. split; [exact Hrange|].
    pose proof (read_uses_cache (defaults_set s0)) as Hread.
    cbv zeta in Hread. rewrite Hcache in Hread. exact Hread.
  - cbn [fst snd]. split; [reflexivity|].
    split; [auto with ready|].
    split; [subst h; apply regs_handshaken|reflexivity].
Qed.

(** X15. On a bus where every transfer succeeds, with a device whose
    reset bit clears itself, each of the three binds returns true exactly
    when the identity register holds 0x3D, whatever the driver object
    held before.  After a successful bind the device's range field and
    the range cache are both 4 gauss, so the next [read] divides the raw
    values by 6842.  After a failed identity check the driver stays bound
    to the new transport, the device's registers are untouched and the
    range cache is what it was. *)
Theorem begin_then_read_on_working_bus (s : Sys) :
  faults (world s) = [] ->
  (forall m : Z -> Z,
      Z.testbit (uint8 (soft_reset m LIS3MDL_REG_CTRL_REG2)) 2 = false) ->
  (forall i2c_address wire : Z,
      brought_up s (begin_I2C i2c_address wire s))
  /\ (forall cs_pin theSPI frequency : Z,
        brought_up s (begin_SPI cs_pin theSPI frequency s))
  /\ (forall cs_pin sck_pin miso_pin mosi_pin frequency : Z,
        brought_up s
          (begin_SPI_soft cs_pin sck_pin miso_pin mosi_pin frequency s)).
Proof.
  intros Hf Hclr. split; [|split]; intros.
  - eapply brought_up_intro; [assumption|assumption| |apply begin_I2C_eq].
    reflexivity.
  - eapply brought_up_intro; [assumption|assumption| |apply begin_SPI_eq].
    unfold bound. cbn [set_spi_dev set_i2c_dev i2c_dev spi_dev]. reflexivity.
  - eapply brought_up_intro; [assumption|assumption| |apply begin_SPI_soft_eq].
    unfold bound. cbn [set_spi_dev set_i2c_dev i2c_dev spi_dev]. reflexivity.
Qed.

(* ------------------------------------------------------------------ *)
(** ** The sensor description and the events *)

(** A value within one rounding of [raw / 1711], for a raw value beyond
    16 * 1711, is beyond 16. *)
Lemma above_full_scale (v : Q) (raw : Z) :
  27377 <= raw <= 32767 ->
  (Qabs (v - (raw # 1711)) <= (Z.abs raw # 1711 * 2 ^ 24))%Q ->
  (16 # 1 < v)%Q /\ (v < 20 # 1)%Q.
Proof.
  intros Hraw Hacc.
  apply Qabs_Qle_condition in Hacc.
  set (q := (raw # 1711)%Q) in *.
  set (tol := (Z.abs raw # 1711 * 2 ^ 24)%Q) in *.
  assert (Hlo : (16 # 1 < q - tol)%Q).
  { subst q tol. unfold Qlt, Qminus, Qplus, Qopp. cbn [Qnum Qden].
    change (2 ^ 24)%positive with 16777216%positive. lia. }
  assert (Hhi : (q + tol < 20 # 1)%Q).
  { subst q tol. unfold Qlt, Qplus. cbn [Qnum Qden].
    change (2 ^ 24)%positive with 16777216%positive. lia. }
  clearbody q tol. lra.
Qed.

Lemma below_full_scale (v : Q) (raw : Z) :
  -32768 <= raw <= -27377 ->
  (Qabs (v - (raw # 1711)) <= (Z.abs raw # 1711 * 2 ^ 24))%Q ->
  (-20 # 1 < v)%Q /\ (v < -16 # 1)%Q.
Proof.
  intros Hraw Hacc.
  apply Qabs_Qle_condition in Hacc.
  set (q := (raw # 1711)%Q) in *.
  set (tol := (Z.abs raw # 1711 * 2 ^ 24)%Q) in *.
  assert (Hlo : (-20 # 1 < q - tol)%Q).
  { subst q tol. unfold Qlt, Qminus, Qplus, Qopp. cbn [Qnum Qden].
    change (2 ^ 24)%positive with 16777216%positive. lia. }
  assert (Hhi : (q + tol < -16 # 1)%Q).
  { subst q tol. unfold Qlt, Qplus. cbn [Qnum Qden].
    change (2 ^ 24)%positive with 16777216%positive. lia. }
  clearbody q tol. lra.
Qed.

Lemma gauss_beyond_full_scale raw :
  (27377 <= raw -> raw <= 32767 ->
   between (16 # 1) (20 # 1) (gauss_of_raw LIS3MDL_RANGE_16_GAUSS raw))
  /\ (raw <= -27377 -> -32768 <= raw ->
      between (-20 # 1) (-16 # 1) (gauss_of_raw LIS3MDL_RANGE_16_GAUSS raw)).
Proof.
  split; intros Hraw Hraw';
    (assert (Hr : -32768 <= raw <= 32767) by lia);
    pose proof (gauss_conversion_accurate LIS3MDL_RANGE_16_GAUSS raw Hr) as Hacc;
    unfold within, between in *;
    destruct (SF2Q (gauss_of_raw LIS3MDL_RANGE_16_GAUSS raw)) as [v|];
    try exact Hacc;
    change (Z.to_pos (lsb_per_gauss LIS3MDL_RANGE_16_GAUSS))
      with 1711%positive in Hacc.
  - apply (above_full_scale v raw); [lia|exact Hacc].
  - apply (below_full_scale v raw); [lia|exact Hacc].
Qed.

(** What [getEvent] reports for the two extreme raw values at 16 gauss. *)
Lemma saturated_microtesla :
  between (1915 # 1) (1916 # 1) (microtesla_of_raw LIS3MDL_RANGE_16_GAUSS 32767)
  /\ between (-1916 # 1) (-1915 # 1)
       (microtesla_of_raw LIS3MDL_RANGE_16_GAUSS (-32768)).
Proof. split; vm_compute; split; reflexivity. Qed.

Lemma firstn_repeat_le {A : Type} (a : A) (k m : nat) :
  (k <= m)%nat -> firstn k (repeat a m) = repeat a k.
Proof.
  intros H. replace m with (k + (m - k))%nat by lia.
  rewrite repeat_app.
  rewrite <- (repeat_length a k) at 1.
  rewrite <- (Nat.add_0_r (Datatypes.length (repeat a k))).
  rewrite firstn_app_2. cbn [firstn]. apply app_nil_r.
Qed.

Lemma skipn_repeat {A : Type} (a : A) (k m : nat) :
  skipn k (repeat a m) = repeat a (m - k).
Proof.
  revert m. induction k as [|k IH]; intros m.
  - now rewrite Nat.sub_0_r.
  - destruct m as [|m]; [reflexivity|]. cbn [repeat skipn Nat.sub]. apply IH.
Qed.

Lemma getSensor_name sizeof_name s :
  (8 <= sizeof_name)%nat ->
  Sensor.name (fst (getSensor sizeof_name s))
  = list_ascii_of_string "LIS3MDL" ++ repeat zero (sizeof_name - 7).
Proof.
  intros H. unfold getSensor. cbv beta iota zeta delta [bind get_this ret].
  cbn [fst Sensor.name]. unfold strncpy, assign.
  set (lis := list_ascii_of_string "LIS3MDL").
  assert (Hlis : Datatypes.length lis = 7%nat) by reflexivity.
  destruct (Nat.le_exists_sub 8 sizeof_name H) as (n & -> & _).
  replace (n + 8 - 1)%nat with (Datatypes.length lis + n)%nat by lia.
  replace (n + 8 - 7)%nat with (n + 1)%nat by lia.
  rewrite firstn_app_2, skipn_repeat, firstn_repeat_le by lia.
  replace (n + 8 - (Datatypes.length lis + n))%nat with 1%nat by lia.
  set (l1 := lis ++ repeat zero n).
  assert (Hl1 : Datatypes.length l1 = (Datatypes.length lis + n)%nat).
  { subst l1. now rewrite length_app, repeat_length. }
  rewrite <- Hl1.
  rewrite <- (Nat.add_0_r (Datatypes.length l1)) at 1.
  rewrite firstn_app_2. cbn [firstn]. rewrite app_nil_r.
  rewrite skipn_all2 by (rewrite length_app, repeat_length; cbn; lia).
  subst l1. rewrite repeat_app, <- app_assoc. reflexivity.
Qed.

(** X16. In every state, whatever range is cached, [getSensor] makes no
    bus transaction and changes nothing; it describes the sensor as
    "LIS3MDL" (NUL-terminated, in a name array of at least 8 characters)
    with the limits -1600 and +1600 microtesla, that is 16 gauss.  The
    limits do not bound what the driver reports: with 16 gauss cached, a
    raw value above 27376 (= 16 * 1711) makes [read] store more than 16
    gauss, one below -27376 less than -16 gauss, and for the extreme raw
    values 32767 and -32768 [getEvent] reports about 1915 microtesla in
    magnitude. *)
Theorem getSensor_limits_do_not_bound_events (sizeof_name : nat) (s : Sys) :
  let sensor := fst (getSensor sizeof_name s) in
  let e := snd (fst (getEvent s)) in
  let d := this (snd (getEvent s)) in
  snd (getSensor sizeof_name s) = s
  /\ ((8 <= sizeof_name)%nat ->
      Sensor.name sensor
      = list_ascii_of_string "LIS3MDL" ++ repeat zero (sizeof_name - 7))
  /\ Sensor.sensor_id sensor = sensor_id e
  /\ Sensor.type sensor = type e
  /\ denotes (Sensor.max_value sensor) (1600 # 1)
  /\ denotes (Sensor.min_value sensor) (-1600 # 1)
  /\ (forall r : lis3mdl_range_t,
        fst (getSensor sizeof_name (on_this (set_rangeBuffered r) s)) = sensor)
  /\ (rangeBuffered (this s) = LIS3MDL_RANGE_16_GAUSS ->
      (27377 <= x d -> between (16 # 1) (20 # 1) (x_gauss d))
      /\ (27377 <= y d -> between (16 # 1) (20 # 1) (y_gauss d))
      /\ (27377 <= z d -> between (16 # 1) (20 # 1) (z_gauss d))
      /\ (x d <= -27377 -> between (-20 # 1) (-16 # 1) (x_gauss d))
      /\ (y d <= -27377 -> between (-20 # 1) (-16 # 1) (y_gauss d))
      /\ (z d <= -27377 -> between (-20 # 1) (-16 # 1) (z_gauss d))
      /\ (x d = 32767 -> between (1915 # 1) (1916 # 1) (magnetic_x e))
      /\ (y d = 32767 -> between (1915 # 1) (1916 # 1) (magnetic_y e))
      /\ (z d = 32767 -> between (1915 # 1) (1916 # 1) (magnetic_z e))
      /\ (x d = -32768 -> between (-1916 # 1) (-1915 # 1) (magnetic_x e))
      /\ (y d = -32768 -> between (-1916 # 1) (-1915 # 1) (magnetic_y e))
      /\ (z d = -32768 -> between (-1916 # 1) (-1915 # 1) (magnetic_z e))).
Proof.
  intros sensor e d. subst sensor e d.
  split; [reflexivity|]. split; [apply getSensor_name|].
  rewrite getEvent_eq. cbn [fst snd on_this this].
  rewrite this_after_sample_read.
  destruct (sample_stored_values (sample_buffer s) (this s))
    as (Hx & Hy & Hz & Hgx & Hgy & Hgz & Hr).
  cbv zeta in *.
  unfold event_of. cbn [type timestamp sensor_id magnetic_x magnetic_y magnetic_z].
  rewrite Hgx, Hgy, Hgz, Hx, Hy, Hz.
  pose proof (decode_sample_range (sample_buffer s)) as Hb.
  destruct saturated_microtesla as (Hmax & Hmin).
  split; [reflexivity|]. split; [reflexivity|].
  split; [reflexivity|]. split; [reflexivity|].
  split; [intros r; reflexivity|].
  intros Hrange. rewrite Hrange.
  repeat match goal with |- _ /\ _ => split end; intros Hraw;
    try (rewrite Hraw; first [exact Hmax|exact Hmin]);
    match goal with |- between _ _ (gauss_of_raw _ (decode_sample _ ?i)) =>
      specialize (Hb i); apply gauss_beyond_full_scale; [exact Hraw|apply Hb]
    end.
Qed.

End Driver.

(* ------------------------------------------------------------------ *)
(** ** Instances on the concrete device

    The device's soft reset is instantiated with the datasheet's power-on
    register contents. *)

Lemma example_state_ready : ready example_state.
Proof. split; reflexivity. Defined.

(** C1, as stated, fails on the example device: at 4 gauss the raw sample
    (1000, -2000, 500) does not give (0.1461, -0.2922, 0.0731) to four
    decimals; the Y value is not even within 0.0001 of -0.2922. *)
Lemma read_example_not_as_claimed :
  let d := this (snd (read example_state)) in
  rangeBuffered (this example_state) = LIS3MDL_RANGE_4_GAUSS
  /\ (x d, y d, z d) = (1000, -2000, 500)
  /\ ~ (rounds_to (x_gauss d) 1461 10000
        /\ rounds_to (y_gauss d) (-2922) 10000
        /\ rounds_to (z_gauss d) 731 10000)
  /\ ~ rounds_to (x_gauss d) 1461 10000
  /\ ~ within (y_gauss d) (-2922 # 10000) (1 # 10000).
Proof.
  vm_compute. repeat split.
  - intros [[_ H] _]. discriminate H.
  - intros [_ H]. discriminate H.
  - intros H. apply H. reflexivity.
Qed.

Lemma read_divides_by_cached_scale_witness :
  ready example_state
  /\ (let d := this (snd (read example_state)) in
      added example_state (snd (read example_state))
        [EvRead LIS3MDL_REG_OUT_X_L 6 true]
      /\ x d = 1000 /\ y d = -2000 /\ z d = 500
      /\ x_gauss d = Float32.div (Float32.of_int 1000) (Float32.of_int 6842)
      /\ rounds_to (x_gauss d) 1462 10000
      /\ rounds_to (y_gauss d) (-2923) 10000
      /\ rounds_to (z_gauss d) 731 10000).
Proof.
  split; [exact example_state_ready|].
  pose proof (read_divides_by_cached_scale example_state example_state_ready)
    as H.
  cbv zeta in H |- *.
  destruct H as (Hadd & _ & Hx & Hy & Hz & Hgx & _ & _ & _ & _ & _ & Hex).
  specialize (Hex eq_refl Hx Hy Hz). destruct Hex as (Hrx & Hry & Hrz).
  repeat split; assumption.
Defined.

Lemma setDataRate_sets_paired_mode_witness :
  ready example_state
  /\ (let s' := snd (setDataRate power_on_defaults LIS3MDL_DATARATE_155_HZ
                       example_state) in
      fst (getPerformanceMode s') = LIS3MDL_ULTRAHIGHMODE
      /\ device_performance_z s' = 3
      /\ device_dataRate s' = 1
      /\ clock (world s') = clock (world example_state) + 10).
Proof.
  split; [exact example_state_ready|].
  destruct (setDataRate_sets_paired_mode power_on_defaults
              LIS3MDL_DATARATE_155_HZ example_state example_state_ready)
    as (evs & b & _ & Hclock & _ & Hrate & _ & Hmode).
  cbn [paired_mode] in Hmode. destruct Hmode as (_ & Hget & _ & Hz).
  cbv zeta. repeat split; assumption.
Defined.

(** C3, as stated, fails when a transfer fails: the driver caches without
    looking at the result.  [setRange(16 gauss)] whose write back fails
    leaves 16 gauss in the cache and 4 gauss in the device, and the
    following [getRange] returns 4 gauss; [getRange] whose read fails
    caches 16 gauss over a device at 4 gauss.  It also fails on a working
    bus when the register still reads SOFT_RST as one: the read-modify-write
    of [setRange] then writes the bit back and the device resets. *)
Lemma cached_range_differs_from_device_range :
  (let s' := snd (setRange power_on_defaults LIS3MDL_RANGE_16_GAUSS
                    write_failing_state) in
   rangeBuffered (this s') = LIS3MDL_RANGE_16_GAUSS
   /\ device_range s' = LIS3MDL_RANGE_4_GAUSS
   /\ rangeBuffered (this s') <> device_range s'
   /\ fst (getRange s') <> LIS3MDL_RANGE_16_GAUSS)
  /\ (let s' := snd (getRange failing_state) in
      rangeBuffered (this s') = LIS3MDL_RANGE_16_GAUSS
      /\ device_range s' = LIS3MDL_RANGE_4_GAUSS
      /\ rangeBuffered (this s') <> device_range s')
  /\ (let s' := snd (setRange power_on_defaults LIS3MDL_RANGE_16_GAUSS
                       reset_pending_state) in
      faults (world reset_pending_state) = []
      /\ rangeBuffered (this s') = LIS3MDL_RANGE_16_GAUSS
      /\ device_range s' = LIS3MDL_RANGE_4_GAUSS
      /\ rangeBuffered (this s') <> device_range s').
Proof. vm_compute. repeat split; discriminate. Qed.

Lemma cached_range_equals_device_range_witness :
  ready example_state
  /\ reset_idle example_state
  /\ (let s' := snd (setRange power_on_defaults LIS3MDL_RANGE_16_GAUSS
                       example_state) in
      rangeBuffered (this s') = LIS3MDL_RANGE_16_GAUSS
      /\ device_range s' = LIS3MDL_RANGE_16_GAUSS
      /\ fst (getRange s') = LIS3MDL_RANGE_16_GAUSS)
  /\ (let s' := snd (reset power_on_defaults example_state) in
      rangeBuffered (this s') = device_range s').
Proof.
  assert (Hidle : reset_idle example_state) by reflexivity.
  split; [exact example_state_ready|]. split; [exact Hidle|].
  destruct (cached_range_equals_device_range power_on_defaults example_state
              example_state_ready) as (Hset & _ & Hreset).
  destruct (Hset LIS3MDL_RANGE_16_GAUSS Hidle) as (Hc & Hd & Hg & _).
  destruct Hreset as (Hr & _).
  cbv zeta. repeat split; assumption.
Defined.

(** C4, as stated, fails when the transfers after the identity check fail:
    the bind succeeds and the device is not in the default state; on the
    example device performance mode and data rate are still what they
    were.  It also fails on a working bus with a device that keeps its
    SOFT_RST bit set: the read-modify-write of [setRange] then resets the
    device again, after performance mode and data rate were set. *)
Lemma init_true_without_defaults :
  (let r := begin_I2C power_on_defaults 0x1C 0 flaky_state in
   fst r = true
   /\ device_performance_xy (snd r)
      <> performancemode_value LIS3MDL_ULTRAHIGHMODE
   /\ device_performance_z (snd r)
      <> performancemode_value LIS3MDL_ULTRAHIGHMODE
   /\ device_dataRate (snd r) <> dataRate_value LIS3MDL_DATARATE_155_HZ
   /\ fst (getPerformanceMode (snd r)) = LIS3MDL_LOWPOWERMODE)
  /\ (let r := _init sticky_reset example_state in
      faults (world example_state) = []
      /\ fst r = true
      /\ device_performance_xy (snd r)
         <> performancemode_value LIS3MDL_ULTRAHIGHMODE
      /\ device_dataRate (snd r) <> dataRate_value LIS3MDL_DATARATE_155_HZ).
Proof. vm_compute. repeat split; discriminate. Qed.

Lemma power_on_defaults_clear_reset (m : Z -> Z) :
  Z.testbit (uint8 (power_on_defaults m LIS3MDL_REG_CTRL_REG2)) 2 = false.
Proof. reflexivity. Defined.

Lemma init_verifies_identity_then_sets_defaults_witness :
  ready example_state
  /\ (forall m : Z -> Z,
        Z.testbit (uint8 (power_on_defaults m LIS3MDL_REG_CTRL_REG2)) 2 = false)
  /\ (let s' := snd (_init power_on_defaults example_state) in
      fst (_init power_on_defaults example_state) = true
      /\ performed example_state s' init_ops
      /\ fst (getPerformanceMode s') = LIS3MDL_ULTRAHIGHMODE
      /\ device_performance_z s' = 3
      /\ fst (getDataRate s') = dataRate_value LIS3MDL_DATARATE_155_HZ
      /\ fst (getRange s') = LIS3MDL_RANGE_4_GAUSS
      /\ rangeBuffered (this s') = LIS3MDL_RANGE_4_GAUSS
      /\ fst (getOperationMode s') = operationmode_value LIS3MDL_CONTINUOUSMODE).
Proof.
  split; [exact example_state_ready|].
  split; [exact power_on_defaults_clear_reset|].
  destruct (init_verifies_identity_then_sets_defaults power_on_defaults
              example_state example_state_ready power_on_defaults_clear_reset)
    as (H & _).
  change (device_byte LIS3MDL_REG_WHO_AM_I example_state =? 0x3D) with true in H.
  exact H.
Defined.

(** C5, as stated, fails at the raw sample (0, 0, 0): with 16 gauss cached
    [readMagneticField] and [read] both give +0 on every axis, so the two
    paths do not diverge although the range is not 4 gauss. *)
Lemma zero_sample_does_not_diverge :
  rangeBuffered (this still_state) = LIS3MDL_RANGE_16_GAUSS
  /\ faults (world still_state) = []
  /\ (let d := this (snd (read still_state)) in
      (x d, y d, z d) = (0, 0, 0)
      /\ fst (readMagneticField still_state)
         = (1, (x_gauss d, y_gauss d, z_gauss d))).
Proof. vm_compute. repeat split. Qed.

Lemma readMagneticField_assumes_4_gauss_witness :
  ready example_state
  /\ fst (readMagneticField example_state)
     = (1, (field_of_raw 1000, field_of_raw (-2000), field_of_raw 500))
  /\ denotes (field_of_raw 1000) (1000 * 4 * 100 # 32768)
  /\ rounds_to (field_of_raw 1000) 12207 1000
  /\ (forall r : lis3mdl_range_t,
        x_gauss (this (snd (read (on_this (set_rangeBuffered r) example_state))))
        <> field_of_raw 1000).
Proof.
  split; [exact example_state_ready|].
  destruct (readMagneticField_assumes_4_gauss example_state example_state_ready)
    as (Hout & _ & _ & Hdx & _ & _ & _ & Hround & Hdiff).
  split; [exact Hout|]. split; [exact Hdx|]. split; [exact Hround|].
  intros r. destruct (Hdiff r) as (_ & _ & _ & _ & Hx & _).
  intros Heq. apply Hx in Heq. discriminate Heq.
Defined.

Lemma setPerformanceMode_keeps_fields_identical_witness :
  ready example_state
  /\ (let s' := snd (setPerformanceMode power_on_defaults LIS3MDL_MEDIUMMODE
                       example_state) in
      device_performance_xy s' = 1
      /\ device_performance_z s' = 1
      /\ fst (getPerformanceMode s') = LIS3MDL_MEDIUMMODE).
Proof.
  split; [exact example_state_ready|].
  destruct (setPerformanceMode_keeps_fields_identical power_on_defaults
              LIS3MDL_MEDIUMMODE example_state example_state_ready)
    as (_ & Hxy & Hz & _ & Hget & _).
  cbv zeta. repeat split; assumption.
Defined.

Lemma configInterrupt_plain_overwrite_witness :
  bound (this example_state) = true
  /\ (let s' := snd (configInterrupt power_on_defaults true false true false
                       true true example_state) in
      added example_state s' [EvWrite LIS3MDL_REG_INT_CFG [0xAB] true]
      /\ device_byte LIS3MDL_REG_INT_CFG s' = 0xAB).
Proof.
  split; [reflexivity|].
  destruct (configInterrupt_plain_overwrite power_on_defaults true false true
              false true true example_state eq_refl)
    as (Hadd & _ & Hbyte & _).
  cbv zeta. split; [exact Hadd|exact Hbyte].
Defined.

(** *** Runs with a failing bus *)

Example getEvent_after_failed_read :
  transfer_ok failing_state = false
  /\ fst (fst (getEvent failing_state)) = true
  /\ measurement (this failing_state)
     = (0, 0, 0, (S754_zero false, S754_zero false, S754_zero false))
  /\ (let d := this (snd (getEvent failing_state)) in
      (x d, y d, z d) = (0x0201, 0x0403, 0x0605)).
Proof. vm_compute. repeat split. Qed.

(** Past 2^31 milliseconds the time stamp of an event is negative. *)
Example getEvent_timestamp_wraps :
  clock (world late_state) = 2147483653
  /\ timestamp (snd (fst (getEvent late_state))) = -2147483643.
Proof. vm_compute. split; reflexivity. Qed.

Example readMagneticField_after_failed_read :
  fst (readMagneticField failing_state) = (0, (NAN, NAN, NAN)).
Proof. reflexivity. Qed.

Example begin_I2C_failed_handshake :
  let r := begin_I2C power_on_defaults 0x1C 0 failing_state in
  fst r = false
  /\ trace (world (snd r)) = [EvDelete_I2C (I2CDevice 0x1C 0); EvBegin false]
  /\ i2c_dev (this (snd r)) = Some (I2CDevice 0x1C 0)
  /\ spi_dev (this (snd r)) = None.
Proof. vm_compute. repeat split. Qed.

Example begin_SPI_replaces_I2C :
  let r := begin_SPI power_on_defaults 10 0 1000000 example_state in
  fst r = true
  /\ i2c_dev (this (snd r)) = None
  /\ spi_dev (this (snd r))
     = Some (SPIDevice_hw 10 1000000 SPI_BITORDER_MSBFIRST SPI_MODE0 0)
  /\ map op_of (trace (world (snd r))) = OpDelete :: OpBegin :: init_ops.
Proof. vm_compute. repeat split. Qed.

Example setIntThreshold_clears_high_bit :
  let s' := snd (setIntThreshold power_on_defaults 0xFFFF example_state) in
  device_byte LIS3MDL_REG_INT_THS_L s' = 0xFF
  /\ device_byte (LIS3MDL_REG_INT_THS_L + 1) s' = 0x7F
  /\ fst (getIntThreshold s') = 0x7FFF.
Proof. vm_compute. repeat split. Qed.

(** *** Instances of the further properties *)

Lemma magneticFieldSampleRate_reports_nominal_rate_witness :
  ready example_state
  /\ denotes (fst (magneticFieldSampleRate
                     (snd (setDataRate power_on_defaults LIS3MDL_DATARATE_0_625_HZ
                             example_state))))
             (625 # 1000)
  /\ denotes (fst (magneticFieldSampleRate
                     (snd (setDataRate power_on_defaults LIS3MDL_DATARATE_560_HZ
                             example_state))))
             (560 # 1).
Proof.
  split; [exact example_state_ready|].
  destruct (magneticFieldSampleRate_reports_nominal_rate power_on_defaults
              example_state example_state_ready) as (Hset & _ & _).
  split; [exact (Hset LIS3MDL_DATARATE_0_625_HZ)
         |exact (Hset LIS3MDL_DATARATE_560_HZ)].
Defined.

Lemma setIntThreshold_clears_top_bit_witness :
  ready example_state
  /\ (let s' := snd (setIntThreshold power_on_defaults 0x1234 example_state) in
      added example_state s' [EvWrite LIS3MDL_REG_INT_THS_L [0x34; 0x12] true]
      /\ fst (getIntThreshold s') = 0x1234).
Proof.
  split; [exact example_state_ready|].
  destruct (setIntThreshold_clears_top_bit power_on_defaults 0x1234
              example_state example_state_ready)
    as (Hadd & _ & _ & _ & _ & _ & Hback).
  cbv zeta. split; [exact Hadd|]. apply Hback. lia.
Defined.

Lemma getters_on_failed_read_witness :
  transfer_ok failing_state = false
  /\ fst (getRange failing_state) = LIS3MDL_RANGE_16_GAUSS
  /\ device_range failing_state = LIS3MDL_RANGE_4_GAUSS
  /\ fst (getDataRate failing_state) = 15
  /\ fst (getIntThreshold failing_state) = 0xFFFF.
Proof.
  split; [reflexivity|].
  destruct (getters_on_failed_read failing_state eq_refl)
    as (Hrange & _ & _ & _ & Hrate & _ & Hths & _).
  split; [exact Hrange|]. split; [reflexivity|].
  split; [exact Hrate|exact Hths].
Defined.

Lemma setOperationMode_round_trip_witness :
  ready example_state
  /\ (let s' := snd (setOperationMode power_on_defaults LIS3MDL_SINGLEMODE
                       example_state) in
      fst (getOperationMode s') = 1
      /\ this s' = this example_state).
Proof.
  split; [exact example_state_ready|].
  destruct (setOperationMode_round_trip power_on_defaults LIS3MDL_SINGLEMODE
              example_state example_state_ready)
    as (Hget & _ & _ & _ & _ & Hthis).
  cbv zeta. split; [exact Hget|exact Hthis].
Defined.

Lemma selfTest_sets_only_bit_0_witness :
  ready example_state
  /\ (let s' := snd (selfTest power_on_defaults true example_state) in
      Z.testbit (device_byte LIS3MDL_REG_CTRL_REG1 s') 0 = true
      /\ device_dataRate s' = device_dataRate example_state).
Proof.
  split; [exact example_state_ready|].
  destruct (selfTest_sets_only_bit_0 power_on_defaults true example_state
              example_state_ready) as (Hbit & _ & Hrate & _).
  cbv zeta. split; [exact Hbit|exact Hrate].
Defined.

Lemma setters_keep_other_settings_witness :
  ready example_state
  /\ reset_idle example_state
  /\ (let s' := snd (setRange power_on_defaults LIS3MDL_RANGE_12_GAUSS
                       example_state) in
      device_dataRate s' = device_dataRate example_state
      /\ device_operationmode s' = device_operationmode example_state)
  /\ (let s' := snd (setDataRate power_on_defaults LIS3MDL_DATARATE_10_HZ
                       example_state) in
      registers_kept_except [LIS3MDL_REG_CTRL_REG1] example_state s'
      /\ device_range s' = device_range example_state).
Proof.
  assert (Hidle : reset_idle example_state) by reflexivity.
  split; [exact example_state_ready|]. split; [exact Hidle|].
  destruct (setters_keep_other_settings power_on_defaults example_state
              example_state_ready Hidle) as (Hrange & _ & Hrate).
  destruct (Hrange LIS3MDL_RANGE_12_GAUSS) as (_ & _ & _ & _ & Hdr & Hom).
  destruct (Hrate LIS3MDL_DATARATE_10_HZ)
    as (_ & _ & _ & Hrg & _ & _ & Hunpaired).
  destruct (Hunpaired eq_refl) as (Hkept & _).
  cbv zeta. repeat split; assumption.
Defined.

Lemma setRange_caches_without_checking_witness :
  bound (this write_failing_state) = true
  /\ faults (world write_failing_state) = [1%nat]
  /\ (let s' := snd (setRange power_on_defaults LIS3MDL_RANGE_16_GAUSS
                       write_failing_state) in
      rangeBuffered (this s') = LIS3MDL_RANGE_16_GAUSS
      /\ device_range s' = LIS3MDL_RANGE_4_GAUSS).
Proof.
  split; [reflexivity|]. split; [reflexivity|].
  destruct (setRange_caches_without_checking power_on_defaults
              LIS3MDL_RANGE_16_GAUSS write_failing_state [] eq_refl eq_refl)
    as (Hcache & _ & Hdev & _).
  cbv zeta. split; [exact Hcache|]. rewrite Hdev. reflexivity.
Defined.

Lemma setter_after_failed_read_writes_ones_witness :
  bound (this failing_state) = true
  /\ faults (world failing_state) = [O]
  /\ fst (next_transfer []) = true
  /\ (let s' := snd (setOperationMode power_on_defaults LIS3MDL_CONTINUOUSMODE
                       failing_state) in
      device_byte LIS3MDL_REG_CTRL_REG3 s' = 0xFC)
  /\ (let s' := snd (setRange power_on_defaults LIS3MDL_RANGE_4_GAUSS
                       failing_state) in
      added failing_state s' [EvRead LIS3MDL_REG_CTRL_REG2 1 false;
                              EvWrite LIS3MDL_REG_CTRL_REG2 [0x9F] true]).
Proof.
  split; [reflexivity|]. split; [reflexivity|]. split; [reflexivity|].
  destruct (setter_after_failed_read_writes_ones power_on_defaults
              failing_state [] eq_refl eq_refl eq_refl) as (Hmode & Hrange).
  destruct (Hmode LIS3MDL_CONTINUOUSMODE) as (_ & Hbyte).
  destruct (Hrange LIS3MDL_RANGE_4_GAUSS) as (Hadd & _).
  cbv zeta. split; [exact Hbyte|exact Hadd].
Defined.

Lemma init_true_though_nothing_configured_witness :
  bound (this deaf_state) = true
  /\ faults (world deaf_state) = 1%nat :: repeat O 16 ++ []
  /\ device_byte LIS3MDL_REG_WHO_AM_I deaf_state = 0x3D
  /\ fst (_init power_on_defaults deaf_state) = true
  /\ regs (world (snd (_init power_on_defaults deaf_state)))
     = regs (world deaf_state)
  /\ fst (begin_I2C power_on_defaults 0x1C 0 flaky_state) = true
  /\ regs (world (snd (begin_I2C power_on_defaults 0x1C 0 flaky_state)))
     = regs (world flaky_state).
Proof.
  split; [reflexivity|]. split; [reflexivity|]. split; [reflexivity|].
  destruct (init_true_though_nothing_configured power_on_defaults deaf_state []
              eq_refl eq_refl eq_refl) as (Htrue & _ & Hregs & _ & _ & Hbegin).
  destruct (Hbegin 0x1C 0 flaky_state eq_refl eq_refl) as (Hb & Hr & _).
  split; [exact Htrue|]. split; [exact Hregs|]. split; [exact Hb|exact Hr].
Defined.

Lemma begin_then_read_on_working_bus_witness :
  faults (world unbound_state) = []
  /\ (forall m : Z -> Z,
        Z.testbit (uint8 (power_on_defaults m LIS3MDL_REG_CTRL_REG2)) 2 = false)
  /\ (let s1 := snd (begin_I2C power_on_defaults 0x1C 0 unbound_state) in
      fst (begin_I2C power_on_defaults 0x1C 0 unbound_state) = true
      /\ ready s1
      /\ x_gauss (this (snd (read s1)))
         = Float32.div (Float32.of_int (x (this (snd (read s1)))))
                       (Float32.of_int 6842)).
Proof.
  split; [reflexivity|]. split; [exact power_on_defaults_clear_reset|].
  destruct (begin_then_read_on_working_bus power_on_defaults unbound_state
              eq_refl power_on_defaults_clear_reset) as (Hi2c & _).
  destruct (Hi2c 0x1C 0) as (Hres & Hready & Hrest).
  change (device_byte LIS3MDL_REG_WHO_AM_I unbound_state =? 0x3D) with true
    in Hres, Hrest.
  destruct Hrest as (_ & _ & Hx & _).
  cbv zeta. split; [exact Hres|]. split; [exact Hready|exact Hx].
Defined.

Lemma getSensor_limits_do_not_bound_events_witness :
  rangeBuffered (this saturated_state) = LIS3MDL_RANGE_16_GAUSS
  /\ x (this (snd (getEvent saturated_state))) = 32767
  /\ y (this (snd (getEvent saturated_state))) = -32768
  /\ denotes (Sensor.max_value (fst (getSensor 12 saturated_state))) (1600 # 1)
  /\ denotes (Sensor.max_value (fst (getSensor 12 example_state))) (1600 # 1)
  /\ between (16 # 1) (20 # 1) (x_gauss (this (snd (getEvent saturated_state))))
  /\ between (1915 # 1) (1916 # 1)
       (magnetic_x (snd (fst (getEvent saturated_state))))
  /\ between (-1916 # 1) (-1915 # 1)
       (magnetic_y (snd (fst (getEvent saturated_state)))).
Proof.
  assert (Hx : x (this (snd (getEvent saturated_state))) = 32767)
    by reflexivity.
  assert (Hy : y (this (snd (getEvent saturated_state))) = -32768)
    by reflexivity.
  split; [reflexivity|]. split; [exact Hx|]. split; [exact Hy|].
  destruct (getSensor_limits_do_not_bound_events 12 saturated_state)
    as (_ & _ & _ & _ & Hmax & _ & _ & Hevents).
  destruct (getSensor_limits_do_not_bound_events 12 example_state)
    as (_ & _ & _ & _ & Hmax4 & _).
  destruct (Hevents eq_refl)
    as (Hgx & _ & _ & _ & _ & _ & Hpx & _ & _ & _ & Hny & _).
  split; [exact Hmax|]. split; [exact Hmax4|].
  split; [apply Hgx|split; [apply Hpx|apply Hny]]; cbv zeta.
  - rewrite Hx. lia.
  - exact Hx.
  - exact Hy.
Defined.
